(** * telegram_teacher_bot: homework distribution and submission tracking

    A shallow embedding of [telegram_teacher_bot.py] (aiogram handlers over an
    SQLite store and an APScheduler job store) and the properties of its
    resolver, distribution, scheduling and statistics code.

    Modelling conventions.
    - Text is [string], read as a sequence of code points below 256; the
      [str] methods below follow CPython on such text: NEL and NBSP are
      whitespace, the superscripts of 1, 2 and 3 satisfy [isdigit] and are
      refused by [int], the capital letters from code 192 to 222 have a
      lower case. Text with code points from 256 on is not represented.
      The bound CPython 3.11 puts on the digits [int] and [str] convert
      (4300 by default) is not modelled: a Telegram text has at most 4096
      characters and an identifier far fewer digits.
    - An SQLite table is the list of its rows in insertion order.
    - A handler is a computation in a state-and-exception monad over [world];
      [try ... except] is [try_except].
    - The transport (Telegram) and the clock are oracles of the
      [environment]: the n-th call to the transport succeeds iff [net env n],
      the n-th clock reading is [clock env n]. The world counts the calls.
    - [sqlite3] binds integers of 64 bits: a handler raises [OverflowError]
      where it runs its first statement with a task id outside that range.
      No row of a table has such an id. The statements do not fail
      otherwise; identifiers of senders are Telegram identifiers and fit. *)

From Stdlib Require Import ZArith List String Ascii Bool Lia Permutation.
From Stdlib Require Import Sorted.
From Stdlib Require Import DecimalString DecimalZ.
Import ListNotations.

Local Open Scope string_scope.
Local Open Scope Z_scope.

(** ** Python [str] operations *)

Module PyStr.

(** [str.isspace] on one character: TAB, LF, VT, FF, CR, FS, GS, RS, US,
    SPACE, NEL and NBSP. *)
Definition isspace (c : ascii) : bool :=
  let n := nat_of_ascii c in
  ((9 <=? n) && (n <=? 13) || (28 <=? n) && (n <=? 32)
   || (n =? 133) || (n =? 160))%nat.

(** The whitespace [int] skips around a literal: the six characters of C's
    [isspace], and NEL and NBSP, which it reads as spaces. FS, GS, RS and US
    are not skipped. *)
Definition int_space (c : ascii) : bool :=
  let n := nat_of_ascii c in
  ((9 <=? n) && (n <=? 13) || (n =? 32) || (n =? 133) || (n =? 160))%nat.

(** A decimal digit, 0 to 9: what [int] reads. *)
Definition is_digit (c : ascii) : bool :=
  let n := nat_of_ascii c in ((48 <=? n) && (n <=? 57))%nat.

(** [str.isdigit] on one character: a decimal digit or one of the
    superscripts of 2, 3 and 1. *)
Definition isdigit_char (c : ascii) : bool :=
  let n := nat_of_ascii c in
  (is_digit c || (n =? 178) || (n =? 179) || (n =? 185))%nat.

Definition digit_val (c : ascii) : Z := Z.of_nat (nat_of_ascii c) - 48.

(** [str.lower] on one character: A to Z, and the capitals from code 192 to
    222 but for the multiplication sign. *)
Definition lower_char (c : ascii) : ascii :=
  let n := nat_of_ascii c in
  if ((65 <=? n) && (n <=? 90)
      || (192 <=? n) && (n <=? 222) && negb (n =? 215))%nat
  then ascii_of_nat (n + 32) else c.

(** [s.lower()] *)
Fixpoint lower (s : string) : string :=
  match s with
  | EmptyString => EmptyString
  | String c s' => String (lower_char c) (lower s')
  end.

Definition is_empty (s : string) : bool :=
  match s with EmptyString => true | _ => false end.

(** [s.lstrip(chars)] and [s.rstrip(chars)], with the stripped set given as
    a predicate. *)
Fixpoint lstrip_by (p : ascii -> bool) (s : string) : string :=
  match s with
  | EmptyString => EmptyString
  | String c s' => if p c then lstrip_by p s' else s
  end.

Fixpoint rstrip_by (p : ascii -> bool) (s : string) : string :=
  match s with
  | EmptyString => EmptyString
  | String c s' =>
      let r := rstrip_by p s' in
      if p c && is_empty r then EmptyString else String c r
  end.

Definition strip_by (p : ascii -> bool) (s : string) : string :=
  rstrip_by p (lstrip_by p s).

(** [s.strip()] *)
Definition strip (s : string) : string := strip_by isspace s.

(** [s.strip(ch)] for a one-character argument. *)
Definition strip_char (ch : ascii) (s : string) : string :=
  strip_by (Ascii.eqb ch) s.

(** The maximal run of non-whitespace characters at the head of [s], and
    what follows it. *)
Fixpoint take_token (s : string) : string * string :=
  match s with
  | EmptyString => (EmptyString, EmptyString)
  | String c s' =>
      if isspace c then (EmptyString, s)
      else let (tok, rest) := take_token s' in (String c tok, rest)
  end.

(** [s.split(maxsplit=maxcount)] with no separator: at most [maxcount]
    tokens are cut; what remains, with its leading whitespace skipped and
    its trailing whitespace kept, is the last item. *)
Fixpoint split_maxsplit (maxcount : nat) (s : string) : list string :=
  match maxcount with
  | O => let r := lstrip_by isspace s in
         if is_empty r then [] else [r]
  | S k =>
      let (tok, rest) := take_token (lstrip_by isspace s) in
      if is_empty tok then [] else tok :: split_maxsplit k rest
  end.

(** [s.split()]: no bound on the number of splits. A string of length n
    has at most n tokens. *)
Definition split (s : string) : list string :=
  split_maxsplit (String.length s) s.

(** [sub in s] *)
Fixpoint contains (sub s : string) : bool :=
  if prefix sub s then true
  else match s with
       | EmptyString => false
       | String _ s' => contains sub s'
       end.

(** [s.split(sep)] for a non-empty [sep]: [skip] counts the characters of
    a matched separator still to be dropped, [cur] is the piece being
    read. *)
Fixpoint split_on_aux (sep : string) (skip : nat) (cur : string)
         (s : string) : list string :=
  match s with
  | EmptyString => [cur]
  | String c s' =>
      match skip with
      | S k => split_on_aux sep k cur s'
      | O =>
          if prefix sep s
          then cur :: split_on_aux sep (String.length sep - 1) EmptyString s'
          else split_on_aux sep O (cur ++ String c EmptyString) s'
      end
  end.

Definition split_on (sep s : string) : list string :=
  split_on_aux sep O EmptyString s.

(** Every character of [s] is a decimal digit. *)
Fixpoint all_digits (s : string) : bool :=
  match s with
  | EmptyString => true
  | String c s' => is_digit c && all_digits s'
  end.

Fixpoint all_isdigit (s : string) : bool :=
  match s with
  | EmptyString => true
  | String c s' => isdigit_char c && all_isdigit s'
  end.

(** [s.isdigit()] *)
Definition isdigit (s : string) : bool :=
  negb (is_empty s) && all_isdigit s.

(** The digit part of an integer literal: digits, with single underscores
    allowed between two digits. *)
Fixpoint parse_digits (acc : Z) (after_digit : bool) (s : string)
  : option Z :=
  match s with
  | EmptyString => if after_digit then Some acc else None
  | String c s' =>
      if is_digit c then parse_digits (10 * acc + digit_val c) true s'
      else if Ascii.eqb c "_"%char
           then (if after_digit then parse_digits acc false s' else None)
           else None
  end.

(** [int(s)]; [None] stands for [ValueError]. *)
Definition int (s : string) : option Z :=
  match strip_by int_space s with
  | String "-"%char r => option_map Z.opp (parse_digits 0 false r)
  | String "+"%char r => parse_digits 0 false r
  | t => parse_digits 0 false t
  end.

(** [str(n)] *)
Definition str (n : Z) : string := NilZero.string_of_int (Z.to_int n).

End PyStr.


(** ** The store, the scheduler and the transport *)

(** [file_type]: which attachment of the message carried the file. *)
Inductive media := Video | Audio | Voice | Document.

(** A row of [students]; its rowid column is never read and is left out. *)
Record student := mkStudent {
  chat_id : Z;
  name : string;
  registered_at : string
}.

(** A row of [tasks]. *)
Record task := mkTask {
  t_id : Z;
  t_title : string;
  t_description : string;
  t_file_path : string;
  t_file_type : media;
  t_created_at : string;
  t_scheduled_cron : option string
}.

(** A row of [submissions]. *)
Record submission := mkSubmission {
  s_id : Z;
  s_task_id : Z;
  s_student_chat_id : Z;
  s_file_path : string;
  s_file_type : media;
  s_submitted_at : string
}.

(** A job of the scheduler: its id, the five trigger fields and the
    [task_id] captured by the closure [job]. *)
Record job := mkJob {
  job_id : string;
  trigger : list string;
  job_task_id : Z
}.

(** The texts passed to [message.reply], by the place they are built. *)
Inductive reply_text :=
| TeacherNotConfigured
| InvalidTeacherId
| OnlyTeacher
| YouAreTeacher
| RegisteredAsStudent
| TeacherSet (uid : Z)
| UnknownFileType
| TaskCreated (task_id : Z)
| CannotResolveTask
| SubmissionSaved
| UsageSendTask
| BadTaskId
| TaskNotFound
| BroadcastReport (delivered failed : Z)
| BadTarget
| SentToOne
| SendError
| UsageScheduleTask
| CronNeedsFiveFields
| Scheduled (task_id : Z) (cron_expr : string)
| UsageResend
| ResendReport (delivered failed : Z)
| UsageStats
| StatsReport (task_id : Z) (submitted : list (Z * string * string))
              (not_submitted : list (Z * string)).

(** The texts passed to [bot.send_message]. *)
Inductive message_text :=
| Announcement (task_id : Z) (title description : string)
| Reminder (task_id : Z) (title description : string)
| SubmissionNotice (task_id : Z) (full_name : string) (uid : Z).

(** One call to the transport with its outcome, or one logger record. *)
Inductive event :=
| Reply (ok : bool) (to : Z) (r : reply_text)
| SendMessage (ok : bool) (chat : Z) (m : message_text)
| SendChatAction (ok : bool) (chat : Z)
| SendDocument (ok : bool) (chat : Z) (path : string)
| GetFile (ok : bool) (file_id : string)
| Download (ok : bool) (path : string)
| LogSendFailed (chat : Z)
| LogTeacherNotifyFailed
| LogScheduledTaskMissing (task_id : Z).

Inductive exn :=
| TelegramAPIError
| ValueError
| AttributeError
| FileNotFoundError
| JobLookupError
| ConflictingIdError
| OverflowError.

(** What the process is started with and talks to: the environment variable,
    the field parser of [CronTrigger] (a library outside this program), the
    outcome of the n-th transport call and the n-th clock reading. *)
Record environment := mkEnv {
  TEACHER_CHAT_ID : option string;
  cron_fields_valid : list string -> bool;
  net : nat -> bool;
  clock : nat -> string
}.

Record world := mkWorld {
  students : list student;
  tasks : list task;
  submissions : list submission;
  settings : list (string * string);
  jobs : list job;
  files : list string;
  log : list event;
  net_calls : nat;
  clock_reads : nat
}.

(** [init_db] on a fresh directory, before the first update. *)
Definition initial : world := mkWorld [] [] [] [] [] [] [] 0 0.

Definition set_students (l : list student) (w : world) : world :=
  mkWorld l (tasks w) (submissions w) (settings w) (jobs w) (files w)
          (log w) (net_calls w) (clock_reads w).
Definition set_tasks (l : list task) (w : world) : world :=
  mkWorld (students w) l (submissions w) (settings w) (jobs w) (files w)
          (log w) (net_calls w) (clock_reads w).
Definition set_submissions (l : list submission) (w : world) : world :=
  mkWorld (students w) (tasks w) l (settings w) (jobs w) (files w)
          (log w) (net_calls w) (clock_reads w).
Definition set_settings (l : list (string * string)) (w : world) : world :=
  mkWorld (students w) (tasks w) (submissions w) l (jobs w) (files w)
          (log w) (net_calls w) (clock_reads w).
Definition set_jobs (l : list job) (w : world) : world :=
  mkWorld (students w) (tasks w) (submissions w) (settings w) l (files w)
          (log w) (net_calls w) (clock_reads w).
Definition set_files (l : list string) (w : world) : world :=
  mkWorld (students w) (tasks w) (submissions w) (settings w) (jobs w) l
          (log w) (net_calls w) (clock_reads w).
Definition emit (e : event) (w : world) : world :=
  mkWorld (students w) (tasks w) (submissions w) (settings w) (jobs w)
          (files w) (log w ++ [e]) (net_calls w) (clock_reads w).
Definition tick_net (w : world) : world :=
  mkWorld (students w) (tasks w) (submissions w) (settings w) (jobs w)
          (files w) (log w) (S (net_calls w)) (clock_reads w).
Definition tick_clock (w : world) : world :=
  mkWorld (students w) (tasks w) (submissions w) (settings w) (jobs w)
          (files w) (log w) (net_calls w) (S (clock_reads w)).

(** ** The handler monad *)

Inductive outcome (A : Type) :=
| Ok (a : A)
| Raise (e : exn).
Arguments Ok {A} a.
Arguments Raise {A} e.

Definition M (A : Type) : Type := world -> outcome A * world.

Definition ret {A} (a : A) : M A := fun w => (Ok a, w).

Definition bind {A B} (m : M A) (k : A -> M B) : M B :=
  fun w => match m w with
           | (Ok a, w') => k a w'
           | (Raise e, w') => (Raise e, w')
           end.

Definition raise {A} (e : exn) : M A := fun w => (Raise e, w).

(** [try: m  except Exception as e: h e] *)
Definition try_except {A} (m : M A) (h : exn -> M A) : M A :=
  fun w => match m w with
           | (Ok a, w') => (Ok a, w')
           | (Raise e, w') => h e w'
           end.

Definition get : M world := fun w => (Ok w, w).
Definition modify (f : world -> world) : M unit := fun w => (Ok tt, f w).

Declare Scope handler_scope.
Delimit Scope handler_scope with handler.
Notation "x <- m ;; k" := (bind m (fun x => k))
  (at level 61, m at next level, right associativity) : handler_scope.
Notation "m ;; k" := (bind m (fun _ => k))
  (at level 61, right associativity) : handler_scope.
Local Open Scope handler_scope.

(** [for x in l: body x], threading the loop's local state [acc]. *)
Fixpoint for_each {A S} (l : list A) (body : A -> S -> M S) (acc : S) : M S :=
  match l with
  | [] => ret acc
  | x :: l' => acc' <- body x acc ;; for_each l' body acc'
  end.

(** ** Inbound updates *)

Record User := mkUser {
  u_id : Z;
  full_name : string
}.

(** An attachment: its [file_id] and the [file_path] that [bot.get_file]
    reports for it. *)
Record FileObj := mkFileObj {
  file_id : string;
  remote_file_path : string
}.

(** The message an inbound message replies to. *)
Record Replied := mkReplied {
  replied_text : option string
}.

Record Message := mkMessage {
  from_user : User;
  chat : Z;
  text : option string;
  caption : option string;
  reply_to_message : option Replied;
  video : option FileObj;
  audio : option FileObj;
  voice : option FileObj;
  document : option FileObj
}.

(** ** Small Python idioms *)

(** [a or b] on two optional strings. *)
Definition py_or (a b : option string) : option string :=
  match a with
  | Some s => if PyStr.is_empty s then b else a
  | None => b
  end.

(** Truth value of an optional string. *)
Definition truthy (a : option string) : bool :=
  match a with
  | Some s => negb (PyStr.is_empty s)
  | None => false
  end.

(** [os.path.basename] *)
Fixpoint basename (s : string) : string :=
  match s with
  | EmptyString => EmptyString
  | String _ s' => if PyStr.contains "/" s then basename s' else s
  end.

(** [s.split(ch, 1)] when [ch] occurs in [s]: the text before the first
    [ch] and the text after it. *)
Fixpoint split_once (ch : ascii) (s : string) : string * string :=
  match s with
  | EmptyString => (EmptyString, EmptyString)
  | String c s' =>
      if Ascii.eqb c ch then (EmptyString, s')
      else let (a, b) := split_once ch s' in (String c a, b)
  end.

Definition FILES_DIR : string := "data/files".

Definition quote : ascii := ascii_of_nat 34.

(** The value [lastrowid] takes on an insert into an AUTOINCREMENT table
    from which nothing is ever deleted. *)
Definition next_rowid (ids : list Z) : Z := 1 + fold_right Z.max 0 ids.

(** A dict built by a comprehension over rows: a repeated key keeps its place
    and takes the later value. *)
Fixpoint dict_set (k : Z) (v : string) (d : list (Z * string))
  : list (Z * string) :=
  match d with
  | [] => [(k, v)]
  | (k', v') :: d' =>
      if k' =? k then (k, v) :: d' else (k', v') :: dict_set k v d'
  end.

Fixpoint dict_get (k : Z) (d : list (Z * string)) : option string :=
  match d with
  | [] => None
  | (k', v') :: d' => if k' =? k then Some v' else dict_get k d'
  end.

Definition dict_of_rows (rows : list (Z * string)) : list (Z * string) :=
  fold_left (fun d r => dict_set (fst r) (snd r) d) rows [].

(** ** Submission resolver: the task id of a student's file
    ([handle_file], from [task_id = None] to the test [if not task_id]) *)

(** The caption signal: [int(caption.lower().split('task:')[1].strip().split()[0])]
    when ['task:' in caption.lower()], [None] when that test fails or the
    expression raises. *)
Definition caption_task_id (caption : string) : option Z :=
  if PyStr.contains "task:" (PyStr.lower caption) then
    match nth_error (PyStr.split_on "task:" (PyStr.lower caption)) 1 with
    | Some piece =>
        match PyStr.split (PyStr.strip piece) with
        | tok :: _ => PyStr.int tok
        | [] => None
        end
    | None => None
    end
  else None.

(** The reply signal: [int] of the first token of the replied text that
    [isdigit] accepts, when that text mentions [task id] or [task:]. *)
Definition reply_task_id (reply : option Replied) : option Z :=
  match reply with
  | Some r =>
      match replied_text r with
      | Some txt =>
          if negb (PyStr.is_empty txt)
             && (PyStr.contains "task id" (PyStr.lower txt)
                 || PyStr.contains "task:" (PyStr.lower txt))
          then match find PyStr.isdigit (PyStr.split txt) with
               | Some p => PyStr.int p
               | None => None
               end
          else None
      | None => None
      end
  | None => None
  end.

(** [task_id = int(p)] in the loop over the replied text stands outside any
    [try]: when the first token that [isdigit] accepts is one that [int]
    refuses, the handler ends there with [ValueError]. *)
Definition reply_scan_raises (reply : option Replied) : bool :=
  match reply with
  | Some r =>
      match replied_text r with
      | Some txt =>
          if negb (PyStr.is_empty txt)
             && (PyStr.contains "task id" (PyStr.lower txt)
                 || PyStr.contains "task:" (PyStr.lower txt))
          then match find PyStr.isdigit (PyStr.split txt) with
               | Some p => match PyStr.int p with
                           | Some _ => false
                           | None => true
                           end
               | None => false
               end
          else false
      | None => false
      end
  | None => false
  end.

(** The value of [task_id] when the test [if not task_id] is reached: the
    second [if] assigns over whatever the first one left. *)
Definition resolve_task_id (caption : string) (reply : option Replied)
  : option Z :=
  let task_id := caption_task_id caption in
  match reply_task_id reply with
  | Some n => Some n
  | None => task_id
  end.

(** [not task_id] *)
Definition not_task_id (task_id : option Z) : bool :=
  match task_id with
  | Some n => n =? 0
  | None => true
  end.

(** ** Primitives and handlers *)

Section Handlers.

Variable env : environment.

(** One call to the Telegram API: it is recorded with its outcome and raises
    when the transport fails. *)
Definition transport (ev : bool -> event) : M unit :=
  fun w =>
    let ok := net env (net_calls w) in
    let w' := emit (ev ok) (tick_net w) in
    if ok then (Ok tt, w') else (Raise TelegramAPIError, w').

(** [datetime.utcnow()], rendered. *)
Definition utcnow : M string :=
  fun w => (Ok (clock env (clock_reads w)), tick_clock w).

Definition reply (message : Message) (r : reply_text) : M unit :=
  transport (fun ok => Reply ok (chat message) r).

Definition bot_send_message (chat_id : Z) (m : message_text) : M unit :=
  transport (fun ok => SendMessage ok chat_id m).

Definition bot_send_chat_action (chat_id : Z) : M unit :=
  transport (fun ok => SendChatAction ok chat_id).

Definition bot_send_document (chat_id : Z) (path : string) : M unit :=
  transport (fun ok => SendDocument ok chat_id path).

(** [InputFile(path)] opens the file. *)
Definition InputFile (path : string) : M string :=
  fun w => if existsb (String.eqb path) (files w)
           then (Ok path, w) else (Raise FileNotFoundError, w).

Definition logger (e : event) : M unit := modify (emit e).

(** *** Settings *)

Definition get_setting (key : string) (w : world) : option string :=
  option_map snd (find (fun kv => String.eqb (fst kv) key) (settings w)).

(** [INSERT OR REPLACE INTO settings] *)
Definition set_setting (key value : string) : M unit :=
  modify (fun w =>
    set_settings
      (filter (fun kv => negb (String.eqb (fst kv) key)) (settings w)
       ++ [(key, value)]) w).

(** [TEACHER_CHAT_ID or get_setting('teacher_chat_id')] *)
Definition teacher_id_of (w : world) : option string :=
  py_or (TEACHER_CHAT_ID env) (get_setting "teacher_chat_id" w).

(** [teacher_id and str(user.id) == str(teacher_id)] *)
Definition is_teacher_of (w : world) (user : User) : bool :=
  match teacher_id_of w with
  | Some tid =>
      negb (PyStr.is_empty tid) && String.eqb (PyStr.str (u_id user)) tid
  | None => false
  end.

Definition teacher_only (func : Message -> M unit) (message : Message)
  : M unit :=
  w <- get ;;
  match teacher_id_of w with
  | None => reply message TeacherNotConfigured
  | Some teacher_id =>
      match PyStr.int teacher_id with
      | None => reply message InvalidTeacherId
      | Some teacher_id_int =>
          if negb (u_id (from_user message) =? teacher_id_int)
          then reply message OnlyTeacher
          else func message
      end
  end.

(** *** Registration *)

(** [INSERT OR IGNORE INTO students]: [chat_id] is UNIQUE. *)
Definition insert_or_ignore_student (row : student) (w : world) : world :=
  if existsb (fun s => chat_id s =? chat_id row) (students w)
  then w else set_students (students w ++ [row]) w.

Definition cmd_start (message : Message) : M unit :=
  let user := from_user message in
  w <- get ;;
  if is_teacher_of w user then reply message YouAreTeacher
  else
    now <- utcnow ;;
    modify (insert_or_ignore_student
              (mkStudent (u_id user) (full_name user) now)) ;;
    reply message RegisteredAsStudent.

Definition cmd_set_teacher (message : Message) : M unit :=
  let user := from_user message in
  set_setting "teacher_chat_id" (PyStr.str (u_id user)) ;;
  reply message (TeacherSet (u_id user)).

(** *** Files: a task from the teacher, a submission from anyone else *)

(** The [if message.video ... elif ...] chain. *)
Definition attachment (message : Message) : option (FileObj * media) :=
  match video message, audio message, voice message, document message with
  | Some f, _, _, _ => Some (f, Video)
  | None, Some f, _, _ => Some (f, Audio)
  | None, None, Some f, _ => Some (f, Voice)
  | None, None, None, Some f => Some (f, Document)
  | None, None, None, None => None
  end.

(** [bot.get_file] then [f.download]: the local path of the saved file.
    [download] opens its destination for writing before it asks for the
    content, so the file is there, empty, when the transfer is refused. *)
Definition save_file (file_obj : FileObj) : M string :=
  transport (fun ok => GetFile ok (file_id file_obj)) ;;
  stamp <- utcnow ;;
  let local_filename := stamp ++ "_" ++ basename (remote_file_path file_obj) in
  let local_path := FILES_DIR ++ "/" ++ local_filename in
  modify (fun w => set_files (files w ++ [local_path]) w) ;;
  transport (fun ok => Download ok local_path) ;;
  ret local_path.

Definition insert_task (title description local_path : string)
           (file_type : media) (created : string) : M Z :=
  w <- get ;;
  let task_id := next_rowid (map t_id (tasks w)) in
  modify (set_tasks
            (tasks w ++ [mkTask task_id title description local_path
                                file_type created None])) ;;
  ret task_id.

(** An integer that [sqlite3] can bind to a statement. *)
Definition fits_int64 (n : Z) : bool :=
  (- 2 ^ 63 <=? n) && (n <? 2 ^ 63).

(** [INSERT INTO submissions]; binding a task id outside 64 bits raises. *)
Definition insert_submission (task_id uid : Z) (local_path : string)
           (file_type : media) (stamp : string) : M unit :=
  if fits_int64 task_id then
    modify (fun w =>
      set_submissions
        (submissions w
         ++ [mkSubmission (next_rowid (map s_id (submissions w)))
                          task_id uid local_path file_type stamp]) w)
  else raise OverflowError.

Definition handle_file (message : Message) : M unit :=
  let user := from_user message in
  w0 <- get ;;
  let is_teacher := is_teacher_of w0 user in
  let caption :=
    PyStr.strip (match caption message with Some c => c | None => "" end) in
  match attachment message with
  | None => reply message UnknownFileType
  | Some (file_obj, file_type) =>
      local_path <- save_file file_obj ;;
      if is_teacher then
        title_description <-
          (if PyStr.contains "|" caption then
             let (a, b) := split_once "|"%char caption in
             ret (PyStr.strip a, PyStr.strip b)
           else if negb (PyStr.is_empty caption) then ret (caption, "")
           else now <- utcnow ;; ret ("Task " ++ now, "")) ;;
        created <- utcnow ;;
        task_id <- insert_task (fst title_description) (snd title_description)
                               local_path file_type created ;;
        reply message (TaskCreated task_id)
      else if reply_scan_raises (reply_to_message message)
      then raise ValueError
      else
        let task_id := resolve_task_id caption (reply_to_message message) in
        if not_task_id task_id then reply message CannotResolveTask
        else
          let task_id := match task_id with Some n => n | None => 0 end in
          stamp <- utcnow ;;
          insert_submission task_id (u_id user) local_path file_type stamp ;;
          w1 <- get ;;
          match teacher_id_of w1 with
          | Some teacher_id_val =>
              if negb (PyStr.is_empty teacher_id_val) then
                try_except
                  (match PyStr.int teacher_id_val with
                   | Some t =>
                       bot_send_message t
                         (SubmissionNotice task_id (full_name user) (u_id user))
                   | None => raise ValueError
                   end)
                  (fun _ => logger LogTeacherNotifyFailed)
              else ret tt
          | None => ret tt
          end ;;
          reply message SubmissionSaved
  end.

(** *** Distribution *)

(** [SELECT ... FROM tasks WHERE id=?] then [fetchone]: the row with that
    id, if there is one. The statement cannot be run for an id outside 64
    bits, for which there is no row either: where a handler finds no row it
    has raised [OverflowError] if the id does not fit. *)
Definition fetch_task (task_id : Z) (w : world) : option task :=
  find (fun t => t_id t =? task_id) (tasks w).

(** The body of the [try] in the broadcast loop of [cmd_send_task]. *)
Definition send_task_to (task_id : Z) (row : task) (chat_id : Z) : M unit :=
  let caption := Announcement task_id (t_title row) (t_description row) in
  match t_file_type row with
  | Video | Voice | Audio =>
      bot_send_message chat_id caption ;;
      bot_send_chat_action chat_id ;;
      f <- InputFile (t_file_path row) ;;
      bot_send_document chat_id f
  | Document =>
      bot_send_message chat_id caption ;;
      f <- InputFile (t_file_path row) ;;
      bot_send_document chat_id f
  end.

(** The loop over [students] of [cmd_send_task]; the result is [failed]. *)
Definition broadcast (task_id : Z) (row : task) (roster : list student)
  : M (list Z) :=
  for_each roster
    (fun s failed =>
       try_except
         (send_task_to task_id row (chat_id s) ;; ret failed)
         (fun _ => logger (LogSendFailed (chat_id s)) ;;
                   ret (failed ++ [chat_id s])%list))
    [].

Definition BroadcastCounts (roster : list student) (failed : list Z)
  : reply_text :=
  BroadcastReport (Z.of_nat (List.length roster) - Z.of_nat (List.length failed))
                  (Z.of_nat (List.length failed)).

Definition cmd_send_task_wrapped (message : Message) : M unit :=
  match text message with
  | None => raise AttributeError
  | Some txt =>
      let parts := PyStr.split txt in
      if (List.length parts <? 3)%nat then reply message UsageSendTask
      else
        match PyStr.int (nth 1 parts "") with
        | None => reply message BadTaskId
        | Some task_id =>
            let target := nth 2 parts "" in
            w <- get ;;
            match fetch_task task_id w with
            | None =>
                if fits_int64 task_id then reply message TaskNotFound
                else raise OverflowError
            | Some row =>
                if String.eqb target "all" then
                  w' <- get ;;
                  let roster := students w' in
                  failed <- broadcast task_id row roster ;;
                  reply message (BroadcastCounts roster failed)
                else
                  match PyStr.int target with
                  | None => reply message BadTarget
                  | Some chat_id =>
                      try_except
                        (bot_send_message chat_id
                           (Announcement task_id (t_title row)
                                         (t_description row)) ;;
                         f <- InputFile (t_file_path row) ;;
                         bot_send_document chat_id f ;;
                         reply message SentToOne)
                        (fun _ => reply message SendError)
                  end
            end
        end
  end.

Definition cmd_send_task : Message -> M unit :=
  teacher_only cmd_send_task_wrapped.

(** *** Scheduling *)

(** [f'send_task_{task_id}'] *)
Definition job_id_of (task_id : Z) : string :=
  "send_task_" ++ PyStr.str task_id.

(** [UPDATE tasks SET scheduled_cron=? WHERE id=?] *)
Definition update_scheduled_cron (cron_expr : string) (task_id : Z)
           (w : world) : world :=
  set_tasks
    (map (fun t =>
            if t_id t =? task_id
            then mkTask (t_id t) (t_title t) (t_description t)
                        (t_file_path t) (t_file_type t) (t_created_at t)
                        (Some cron_expr)
            else t)
         (tasks w)) w.

(** [scheduler.remove_job]: raises when no job has that id. *)
Definition remove_job (jid : string) : M unit :=
  fun w =>
    if existsb (fun j => String.eqb (job_id j) jid) (jobs w)
    then (Ok tt,
          set_jobs (filter (fun j => negb (String.eqb (job_id j) jid))
                           (jobs w)) w)
    else (Raise JobLookupError, w).

(** [scheduler.add_job(job, trigger, id=job_id)]: raises when the id is
    taken. *)
Definition add_job (j : job) : M unit :=
  fun w =>
    if existsb (fun j' => String.eqb (job_id j') (job_id j)) (jobs w)
    then (Raise ConflictingIdError, w)
    else (Ok tt, set_jobs (jobs w ++ [j]) w).

(** [CronTrigger(minute=..., hour=..., day=..., month=..., day_of_week=...)]:
    raises when a field does not parse. *)
Definition CronTrigger (fields : list string) : M (list string) :=
  if cron_fields_valid env fields then ret fields else raise ValueError.

(** [cmd_schedule_task] from the assignment of [cron_expr] on: the schedule
    operation on a parsed task id that SQLite can bind and an expression
    whose surrounding double quotes are stripped. For an id outside 64 bits
    the UPDATE, the first thing done here, raises: [cmd_schedule_task_wrapped]
    raises in its place. *)
Definition schedule (message : Message) (task_id : Z) (cron_expr : string)
  : M unit :=
  modify (update_scheduled_cron cron_expr task_id) ;;
  let jid := job_id_of task_id in
  try_except (remove_job jid) (fun _ => ret tt) ;;
  let fields := PyStr.split cron_expr in
  if negb (List.length fields =? 5)%nat then reply message CronNeedsFiveFields
  else
    trigger <- CronTrigger fields ;;
    add_job (mkJob jid trigger task_id) ;;
    reply message (Scheduled task_id cron_expr).

Definition cmd_schedule_task_wrapped (message : Message) : M unit :=
  match text message with
  | None => raise AttributeError
  | Some txt =>
      let parts := PyStr.split_maxsplit 2 txt in
      if (List.length parts <? 3)%nat then reply message UsageScheduleTask
      else
        match PyStr.int (nth 1 parts "") with
        | None => reply message BadTaskId
        | Some task_id =>
            if fits_int64 task_id then
              schedule message task_id
                       (PyStr.strip_char quote (nth 2 parts ""))
            else raise OverflowError
        end
  end.

Definition cmd_schedule_task : Message -> M unit :=
  teacher_only cmd_schedule_task_wrapped.

(** The closure [job] installed by [cmd_schedule_task]; it holds [task_id]
    and nothing else. *)
Definition job_run (task_id : Z) : M unit :=
  w <- get ;;
  match fetch_task task_id w with
  | None =>
      if fits_int64 task_id then logger (LogScheduledTaskMissing task_id)
      else raise OverflowError
  | Some row =>
      w' <- get ;;
      for_each (students w')
        (fun s (_ : unit) =>
           try_except
             (bot_send_message (chat_id s)
                (Announcement task_id (t_title row) (t_description row)) ;;
              f <- InputFile (t_file_path row) ;;
              bot_send_document (chat_id s) f)
             (fun _ => logger (LogSendFailed (chat_id s))))
        tt
  end.

(** One firing of the trigger with id [jid]: the scheduler runs the job's
    closure and keeps the job whatever the closure does. *)
Definition fire (jid : string) : M unit :=
  w <- get ;;
  match find (fun j => String.eqb (job_id j) jid) (jobs w) with
  | Some j => try_except (job_run (job_task_id j)) (fun _ => ret tt)
  | None => ret tt
  end.

(** *** Reminders and statistics *)

(** [SELECT DISTINCT student_chat_id FROM submissions WHERE task_id=?] *)
Definition submitted_ids (task_id : Z) (w : world) : list Z :=
  nodup Z.eq_dec
    (map s_student_chat_id
         (filter (fun s => s_task_id s =? task_id) (submissions w))).

(** [SELECT chat_id FROM students]: the one column is read off the index of
    its UNIQUE constraint, which lists it in ascending order. *)
Fixpoint insert_sorted (c : Z) (l : list Z) : list Z :=
  match l with
  | [] => [c]
  | d :: l' => if c <=? d then c :: l else d :: insert_sorted c l'
  end.

Definition index_order (l : list Z) : list Z :=
  fold_right insert_sorted [] l.

Definition select_chat_ids (w : world) : list Z :=
  index_order (map chat_id (students w)).

Definition cmd_resend_unsubmitted_wrapped (message : Message) : M unit :=
  match text message with
  | None => raise AttributeError
  | Some txt =>
      let parts := PyStr.split txt in
      if (List.length parts <? 2)%nat then reply message UsageResend
      else
        match PyStr.int (nth 1 parts "") with
        | None => reply message BadTaskId
        | Some task_id =>
            w <- get ;;
            let submitted := submitted_ids task_id w in
            let to_send :=
              filter (fun c => negb (existsb (Z.eqb c) submitted))
                     (select_chat_ids w) in
            match fetch_task task_id w with
            | None =>
                if fits_int64 task_id then reply message TaskNotFound
                else raise OverflowError
            | Some row =>
                failed <-
                  for_each to_send
                    (fun c failed =>
                       try_except
                         (bot_send_message c
                            (Reminder task_id (t_title row)
                                      (t_description row)) ;;
                          f <- InputFile (t_file_path row) ;;
                          bot_send_document c f ;;
                          ret failed)
                         (fun _ => logger (LogSendFailed c) ;;
                                   ret (failed ++ [c])%list))
                    [] ;;
                reply message
                  (ResendReport
                     (Z.of_nat (List.length to_send)
                      - Z.of_nat (List.length failed))
                     (Z.of_nat (List.length failed)))
            end
        end
  end.

Definition cmd_resend_unsubmitted : Message -> M unit :=
  teacher_only cmd_resend_unsubmitted_wrapped.

(** [cmd_stats] between its two connections: [subs] is the dict from the
    recipients that submitted for [task_id] to a submission time, and the
    loop over [students] fills [submitted] and [not_submitted]. *)
Definition subs_of (task_id : Z) (w : world) : list (Z * string) :=
  dict_of_rows
    (map (fun s => (s_student_chat_id s, s_submitted_at s))
         (filter (fun s => s_task_id s =? task_id) (submissions w))).

Definition stats (task_id : Z) (w : world)
  : list (Z * string * string) * list (Z * string) :=
  let subs := subs_of task_id w in
  fold_left
    (fun acc s =>
       match dict_get (chat_id s) subs with
       | Some stamp =>
           ((fst acc ++ [(chat_id s, name s, stamp)])%list, snd acc)
       | None => (fst acc, (snd acc ++ [(chat_id s, name s)])%list)
       end)
    (students w) ([], []).

Definition cmd_stats_wrapped (message : Message) : M unit :=
  match text message with
  | None => raise AttributeError
  | Some txt =>
      let parts := PyStr.split txt in
      if (List.length parts <? 2)%nat then reply message UsageStats
      else
        match PyStr.int (nth 1 parts "") with
        | None => reply message BadTaskId
        | Some task_id =>
            if fits_int64 task_id then
              w <- get ;;
              let (submitted, not_submitted) := stats task_id w in
              reply message (StatsReport task_id submitted not_submitted)
            else raise OverflowError
        end
  end.

Definition cmd_stats : Message -> M unit := teacher_only cmd_stats_wrapped.

(** *** The dispatcher and the scheduler as one transition system

    The handlers left out ([cmd_help], [cmd_help_teacher],
    [cmd_upload_task], [cmd_list_students], [cmd_my_tasks], [cmd_submit],
    [cmd_export]) only read the tables and answer. *)

Inductive update :=
| Start (m : Message)
| SetTeacher (m : Message)
| File (m : Message)
| SendTask (m : Message)
| ScheduleTask (m : Message)
| ResendUnsubmitted (m : Message)
| Stats (m : Message)
| Fire (jid : string).

Definition handle (u : update) : M unit :=
  match u with
  | Start m => cmd_start m
  | SetTeacher m => cmd_set_teacher m
  | File m => handle_file m
  | SendTask m => cmd_send_task m
  | ScheduleTask m => cmd_schedule_task m
  | ResendUnsubmitted m => cmd_resend_unsubmitted m
  | Stats m => cmd_stats m
  | Fire jid => fire jid
  end.

(** The world after an update; an exception that leaves a handler is logged
    by the dispatcher and the process goes on. *)
Definition step (u : update) (w : world) : world := snd (handle u w).

Definition run (us : list update) (w : world) : world :=
  fold_left (fun w u => step u w) us w.

Inductive reachable : world -> Prop :=
| reachable_initial : reachable initial
| reachable_step u w : reachable w -> reachable (step u w).

End Handlers.

(** ** Predicates of the properties *)

Definition task_exists (task_id : Z) (w : world) : Prop :=
  In task_id (map t_id (tasks w)).

Definition recipient_exists (uid : Z) (w : world) : Prop :=
  In uid (map chat_id (students w)).

(** The live triggers of a task: the jobs under the id built from it. *)
Definition live_triggers (task_id : Z) (w : world) : list job :=
  filter (fun j => String.eqb (job_id j) (job_id_of task_id)) (jobs w).

(** The recipients a stretch of the log tried to reach with an
    announcement. *)
Fixpoint announced (l : list event) : list Z :=
  match l with
  | [] => []
  | SendMessage _ c (Announcement _ _ _) :: l' => c :: announced l'
  | _ :: l' => announced l'
  end.

(** What a run of a handler added to the log. *)
Definition log_suffix (before after : world) : list event :=
  skipn (List.length (log before)) (log after).

(** Referential integrity of [submissions] in one world. *)
Definition referential_integrity (w : world) : Prop :=
  forall s, In s (submissions w) ->
    task_exists (s_task_id s) w /\ recipient_exists (s_student_chat_id s) w.

(** The path [handle_file] saves the attachment [f] under, from world [w]. *)
Definition local_path_of (env : environment) (f : FileObj) (w : world)
  : string :=
  FILES_DIR ++ "/"
  ++ (clock env (clock_reads w) ++ "_" ++ basename (remote_file_path f)).

(** The identifiers listed in the two parts of a [stats] result. *)
Definition submitted_set (task_id : Z) (w : world) : list Z :=
  map (fun x => fst (fst x)) (fst (stats task_id w)).

Definition not_submitted_set (task_id : Z) (w : world) : list Z :=
  map fst (snd (stats task_id w)).

(** [c] has at least one submission for [task_id]. *)
Definition has_submission (task_id c : Z) (w : world) : Prop :=
  exists s, In s (submissions w)
            /\ s_task_id s = task_id /\ s_student_chat_id s = c.

(** [e] records a sub-send to [c] that the transport refused. *)
Definition is_failed_send_to (c : Z) (e : event) : bool :=
  match e with
  | SendMessage false c' _ => c' =? c
  | SendChatAction false c' => c' =? c
  | SendDocument false c' _ => c' =? c
  | _ => false
  end.

(** [l] records that [c] received the announcement and the artifact of the
    task row [row]. *)
Definition received (task_id : Z) (row : task) (c : Z) (l : list event)
  : Prop :=
  In (SendMessage true c
        (Announcement task_id (t_title row) (t_description row))) l
  /\ In (SendDocument true c (t_file_path row)) l.

(** No two jobs of the store share an id. *)
Definition job_ids_unique (w : world) : Prop := NoDup (map job_id (jobs w)).

Definition keeps_job_ids_unique (w w' : world) : Prop :=
  job_ids_unique w -> job_ids_unique w'.

(** A five-field expression that [CronTrigger] accepts. *)
Definition valid_cron (env : environment) (cron_expr : string) : Prop :=
  List.length (PyStr.split cron_expr) = 5%nat
  /\ cron_fields_valid env (PyStr.split cron_expr) = true.

(** The calls to [bot.send_message] a stretch of the log records, made or
    refused: the target and the text. *)
Fixpoint sent_texts (l : list event) : list (Z * message_text) :=
  match l with
  | [] => []
  | SendMessage _ c m :: l' => (c, m) :: sent_texts l'
  | _ :: l' => sent_texts l'
  end.

(** ** Concrete runs used by the examples below *)

(** No [TEACHER_CHAT_ID], every cron field accepted, a transport that is up
    except at the calls listed in [down], a clock that counts. *)
Definition env_down (down : list nat) : environment :=
  mkEnv None (fun _ => true)
        (fun n => negb (existsb (Nat.eqb n) down))
        (fun n => PyStr.str (Z.of_nat n)).

Definition env_up : environment := env_down [].

Definition newline : string := String (ascii_of_nat 10) EmptyString.

Definition ana : User := mkUser 1 "Ana".
Definition bo : User := mkUser 5 "Bo".
Definition cy : User := mkUser 6 "Cy".
Definition di : User := mkUser 7 "Di".

(** A command or plain text from [u]. *)
Definition says (u : User) (txt : string) : Message :=
  mkMessage u (u_id u) (Some txt) None None None None None None.

(** A document from [u] with an optional caption and an optional replied
    text. *)
Definition sends (u : User) (cap : option string) (re : option string)
  : Message :=
  mkMessage u (u_id u) None cap
            (option_map (fun t => mkReplied (Some t)) re)
            None None None (Some (mkFileObj "F1" "documents/file_1.pdf")).

(** The announcement text of task 3 as a recipient sees it. *)
Definition announcement_3 : string :=
  "Task ID: 3" ++ newline ++ "Title: Lesson 3" ++ newline ++ "Repeat".

(** Ana becomes the teacher and uploads one task. *)
Definition w_task : world :=
  run env_up [SetTeacher (says ana "/set_teacher");
              File (sends ana (Some "Lesson 1 | Repeat") None)] initial.

(** ... then schedules it daily at 18:00. *)
Definition w_scheduled : world :=
  step env_up (ScheduleTask (says ana "/schedule_task 1 0 18 * * *")) w_task.

(** ... and three recipients register instead. *)
Definition w_roster : world :=
  run env_up [Start (says bo "/start"); Start (says cy "/start");
              Start (says di "/start")] w_task.

(** ** Relations between the world before and after a computation *)

(** [m] takes every world to one related to it by [R], whether it returns
    or raises. *)
Definition preserves {A} (R : world -> world -> Prop) (m : M A) : Prop :=
  forall w, R w (snd (m w)).

(** A relation that composes and does not look at the log or the call
    counters. *)
Record frame (R : world -> world -> Prop) : Prop := mkFrame {
  frame_refl : forall w, R w w;
  frame_trans : forall w1 w2 w3, R w1 w2 -> R w2 w3 -> R w1 w3;
  frame_emit : forall e w, R w (emit e w);
  frame_tick_net : forall w, R w (tick_net w);
  frame_tick_clock : forall w, R w (tick_clock w)
}.

(** The component [f] of the world is left as it was. *)
Definition keeps {T} (f : world -> T) (w w' : world) : Prop := f w' = f w.


(** The caption as [handle_file] reads it: [(message.caption or '').strip()]. *)
Definition caption_of (m : Message) : string :=
  PyStr.strip (match caption m with Some c => c | None => "" end).




(** Bo, who never registered, sends a document captioned for a task that
    was never created. *)
Definition w_orphan : world :=
  step env_up (File (sends bo (Some "task: 9") None)) initial.

Definition orphan_row : submission :=
  mkSubmission 1 9 5 "data/files/0_file_1.pdf" Document "1".


(** Bo replies to the announcement of task 3 with a document captioned for
    task 7. *)
Definition crossed_message : Message :=
  sends bo (Some "task: 7") (Some announcement_3).

(** Bo sends a document with a caption that names no task. *)
Definition vague_message : Message := sends bo (Some "hello") None.


(** ** Further predicates and texts *)

(** The answer of [teacher_only] when it does not run the wrapped handler:
    no teacher identifier, one that [int] rejects, or a sender who is not
    the teacher. *)
Definition refusal (env : environment) (w : world) (user : User)
  : option reply_text :=
  match teacher_id_of env w with
  | None => Some TeacherNotConfigured
  | Some teacher_id =>
      match PyStr.int teacher_id with
      | None => Some InvalidTeacherId
      | Some teacher_id_int =>
          if negb (u_id user =? teacher_id_int) then Some OnlyTeacher
          else None
      end
  end.

(** The message of an update whose handler is decorated with
    [teacher_only]. *)
Definition privileged_message (u : update) : option Message :=
  match u with
  | SendTask m | ScheduleTask m | ResendUnsubmitted m | Stats m => Some m
  | _ => None
  end.

(** [chat_id] is UNIQUE in [students]. *)
Definition roster_unique (w : world) : Prop :=
  NoDup (map chat_id (students w)).

Definition keeps_roster_unique (w w' : world) : Prop :=
  roster_unique w -> roster_unique w'.

(** [key] is the PRIMARY KEY of [settings]. *)
Definition settings_unique (w : world) : Prop :=
  NoDup (map fst (settings w)).


(** The ids of [tasks] are distinct and positive (PRIMARY KEY
    AUTOINCREMENT). *)
Definition task_ids_ok (w : world) : Prop :=
  NoDup (map t_id (tasks w)) /\ Forall (fun t => 0 < t_id t) (tasks w).

Definition keeps_task_ids_ok (w w' : world) : Prop :=
  task_ids_ok w -> task_ids_ok w'.

(** Every task row and every submission row names a file that is in
    [FILES_DIR]. *)
Definition artifacts_present (w : world) : Prop :=
  (forall t, In t (tasks w) -> In (t_file_path t) (files w))
  /\ (forall s, In s (submissions w) -> In (s_file_path s) (files w)).

Definition keeps_artifacts_present (w w' : world) : Prop :=
  artifacts_present w -> artifacts_present w'.

(** The same while the file [p] has just been saved. *)
Definition keeps_artifacts_with (p : string) (w w' : world) : Prop :=
  In p (files w) /\ artifacts_present w ->
  In p (files w') /\ artifacts_present w'.

(** Every job of the store is the one [cmd_schedule_task] builds for the
    task in its closure: the id names that task and the trigger has five
    fields that [CronTrigger] took. *)
Definition jobs_well_formed (env : environment) (w : world) : Prop :=
  forall j, In j (jobs w) ->
    job_id j = job_id_of (job_task_id j)
    /\ List.length (trigger j) = 5%nat
    /\ cron_fields_valid env (trigger j) = true.

Definition keeps_jobs_well_formed (env : environment) (w w' : world) : Prop :=
  jobs_well_formed env w -> jobs_well_formed env w'.


(** As [env_up], with a [CronTrigger] that refuses a field holding the
    letter x. *)
Definition env_strict : environment :=
  mkEnv None (forallb (fun f => negb (PyStr.contains "x" f)))
        (fun _ => true) (fun n => PyStr.str (Z.of_nat n)).


(** Bo answers task 1 twice. *)
Definition w_twice : world :=
  run env_up [File (sends bo (Some "task: 1") None);
              File (sends bo (Some "task: 1") None)] w_roster.


(** The row of task 1 in the concrete runs. *)
Definition lesson_1 : task :=
  mkTask 1 "Lesson 1" "Repeat" "data/files/0_file_1.pdf" Document "1" None.


(** Every character of [s] satisfies [p]. *)
Fixpoint all_chars (p : ascii -> bool) (s : string) : bool :=
  match s with
  | EmptyString => true
  | String c s' => p c && all_chars p s'
  end.

(** A digit or the minus sign: the characters of [str(n)]. *)
Definition numeral_char (c : ascii) : bool :=
  PyStr.is_digit c || Ascii.eqb c "-"%char.

(** The text of the announcement, the f-string that [cmd_send_task] and
    [job] pass to [bot.send_message] and that [Announcement] stands for. *)
Definition announcement_text (task_id : Z) (title description : string)
  : string :=
  "Task ID: " ++ PyStr.str task_id ++ newline
  ++ "Title: " ++ title ++ newline
  ++ description ++ newline
  ++ "Reply with file and caption " ++ String quote "task: "
  ++ PyStr.str task_id ++ String quote " to submit.".

(** The teacher identifier in [settings], when there is one, is the decimal
    text of a number. *)
Definition teacher_setting_canonical (w : world) : Prop :=
  forall v, get_setting "teacher_chat_id" w = Some v ->
            exists n, v = PyStr.str n.

(** ** What a loop of deliveries leaves in the log *)


(** The calls of one delivery of [row] to [c], all gone through: the
    announcement, the chat action when [action] is set, the artifact. *)
Definition delivery (task_id : Z) (row : task) (action : bool) (c : Z)
  : list event :=
  SendMessage true c (Announcement task_id (t_title row) (t_description row))
  :: (if action then [SendChatAction true c] else [])
  ++ [SendDocument true c (t_file_path row)].


Definition is_document (e : event) : bool :=
  match e with
  | SendDocument _ _ _ => true
  | _ => false
  end.

(** The call [e] as the log has it when the transport refuses it. *)
Definition refused (e : event) : event :=
  match e with
  | SendMessage _ c m => SendMessage false c m
  | SendChatAction _ c => SendChatAction false c
  | SendDocument _ c p => SendDocument false c p
  | _ => e
  end.

(** The logs a delivery can leave when it stops short of its last call: the
    calls that went through, ended by the call the transport refused, or
    ended before the artifact when the file cannot be opened. *)
Fixpoint attempts (present : bool) (evs : list event) : list (list event) :=
  match evs with
  | [] => []
  | e :: rest =>
      if is_document e && negb present then [[]]
      else [refused e] :: map (cons e) (attempts present rest)
  end.

(** The log of a loop over [targets] and the list [failed] it builds: each
    target in turn is delivered to, or its delivery stops short, is
    recorded by the logger and the target is added to [failed]. *)
Inductive fan_out (present : bool) (evs : Z -> list event)
  : list Z -> list event -> list Z -> Prop :=
| fan_out_end : fan_out present evs [] [] []
| fan_out_delivered c targets L failed :
    present = true ->
    fan_out present evs targets L failed ->
    fan_out present evs (c :: targets) (evs c ++ L) failed
| fan_out_failed c targets tried L failed :
    In tried (attempts present (evs c)) ->
    fan_out present evs targets L failed ->
    fan_out present evs (c :: targets) (tried ++ LogSendFailed c :: L)
            (c :: failed).

(** [e] records a call to the transport addressed to [c], made or
    refused. *)
Definition is_send_to (c : Z) (e : event) : bool :=
  match e with
  | SendMessage _ c' _ | SendChatAction _ c' | SendDocument _ c' _ => c' =? c
  | _ => false
  end.

(** The recipients a stretch of the log shows the artifact delivered to. *)
Fixpoint delivered_to (l : list event) : list Z :=
  match l with
  | [] => []
  | SendDocument true c _ :: l' => c :: delivered_to l'
  | _ :: l' => delivered_to l'
  end.

(** ** Further concrete runs *)




(** As [env_up], started with [TEACHER_CHAT_ID=+1]. *)
Definition env_plus : environment :=
  mkEnv (Some "+1") (fun _ => true) (fun _ => true)
        (fun n => PyStr.str (Z.of_nat n)).

(** The superscript of 2, the no-break space and the file separator. *)
Definition superscript_two : string := String (ascii_of_nat 178) EmptyString.
Definition nbsp : ascii := ascii_of_nat 160.
Definition file_separator : ascii := ascii_of_nat 28.

(** Bo replies to a text that names its task with a superscript, with a
    document captioned for task 1. *)
Definition superscript_message : Message :=
  sends bo (Some "task: 1") (Some ("Task ID: " ++ superscript_two)).

(** Bo captions a document for a task id that does not fit in 64 bits. *)
Definition wide_message : Message :=
  sends bo (Some "task: 9223372036854775808") None.

(** Di registers before Bo: the roster is not in the order of the
    identifiers. *)
Definition w_unordered : world :=
  run env_up [Start (says di "/start"); Start (says bo "/start")] w_task.

(** ** The texts of [cmd_export] and [cmd_my_tasks] *)

(** The value of the [file_type] column. *)
Definition media_name (ft : media) : string :=
  match ft with
  | Video => "video"
  | Audio => "audio"
  | Voice => "voice"
  | Document => "document"
  end.

(** [s.replace(NEWLINE, ' ')] *)
Fixpoint replace_newline (s : string) : string :=
  match s with
  | EmptyString => EmptyString
  | String c s' =>
      String (if Ascii.eqb c (ascii_of_nat 10) then " "%char else c)
             (replace_newline s')
  end.

(** [sep.join(l)] *)
Fixpoint join (sep : string) (l : list string) : string :=
  match l with
  | [] => EmptyString
  | [x] => x
  | x :: l' => x ++ sep ++ join sep l'
  end.

(** One line of the export: the four columns of the row, each through
    [str] and [replace], joined by commas. *)
Definition csv_line (s : submission) : string :=
  join ","
       (map replace_newline
            [PyStr.str (s_student_chat_id s); s_file_path s;
             media_name (s_file_type s); s_submitted_at s])
  ++ newline.

(** The text [cmd_export] writes to the file it sends; [None] when the task
    has no submission and the handler answers that instead. *)
Definition export_text (task_id : Z) (w : world) : option string :=
  let rows := filter (fun s => s_task_id s =? task_id) (submissions w) in
  match rows with
  | [] => None
  | _ =>
      Some (fold_left (fun txt r => txt ++ csv_line r) rows
                      ("student_chat_id,file_path,file_type,submitted_at"
                       ++ newline))
  end.

(** The number of line breaks in a text. *)
Fixpoint count_newlines (s : string) : nat :=
  match s with
  | EmptyString => O
  | String c s' =>
      ((if Ascii.eqb c (ascii_of_nat 10) then 1 else 0) + count_newlines s')%nat
  end.

(** [subs] of [cmd_my_tasks]: from task id to a submission time of the
    sender. *)
Definition my_subs (uid : Z) (w : world) : list (Z * string) :=
  dict_of_rows
    (map (fun s => (s_task_id s, s_submitted_at s))
         (filter (fun s => s_student_chat_id s =? uid) (submissions w))).

(** [status] in the loop of [cmd_my_tasks]. *)
Definition my_task_status (subs : list (Z * string)) (tid : Z) : string :=
  match dict_get tid subs with
  | Some stamp => "Submitted at " ++ stamp
  | None => "Not submitted"
  end.

(** The text [cmd_my_tasks] answers with; [None] when there is no task and
    the handler answers that instead. *)
Definition my_tasks_text (uid : Z) (w : world) : option string :=
  let subs := my_subs uid w in
  match tasks w with
  | [] => None
  | _ =>
      Some (fold_left
              (fun text t =>
                 text ++ "- Task " ++ PyStr.str (t_id t) ++ ": " ++ t_title t
                 ++ " (" ++ my_task_status subs (t_id t) ++ ")" ++ newline)
              (tasks w) ("Your tasks:" ++ newline))
  end.

(** * Properties *)

(** ** [str] operations on the inputs the specification names *)

Example split_tokens :
  PyStr.split "  Task ID: 7  Title " = ["Task"; "ID:"; "7"; "Title"].
Proof. vm_compute. reflexivity. Qed.

Example split_maxsplit_keeps_tail :
  PyStr.split_maxsplit 2 "/schedule_task 1  0 18 * * * "
  = ["/schedule_task"; "1"; "0 18 * * * "].
Proof. vm_compute. reflexivity. Qed.

Example split_on_pieces :
  PyStr.split_on "task:" "a task: 7 task:8" = ["a "; " 7 "; "8"].
Proof. vm_compute. reflexivity. Qed.

Example int_literals :
  PyStr.int " +1_000 " = Some 1000 /\ PyStr.int "-07" = Some (-7)
  /\ PyStr.int "7," = None /\ PyStr.int "" = None /\ PyStr.int "1__0" = None.
Proof. vm_compute. repeat split. Qed.

(** [isdigit] accepts the superscript of 2 and [int] refuses it; [strip]
    drops a file separator and [int] does not skip it; both take the
    no-break space for whitespace; [lower] reaches the accented capitals. *)
Example isdigit_is_wider_than_int :
  PyStr.isdigit superscript_two = true /\ PyStr.int superscript_two = None.
Proof. vm_compute. repeat split. Qed.

Example int_skips_less_than_strip :
  PyStr.strip (String file_separator "7") = "7"
  /\ PyStr.int (String file_separator "7") = None
  /\ PyStr.strip (String nbsp "7") = "7"
  /\ PyStr.int (String nbsp "7") = Some 7.
Proof. vm_compute. repeat split. Qed.

Example lower_accented :
  PyStr.lower (String (ascii_of_nat 201) "COLE")
  = String (ascii_of_nat 233) "cole"
  /\ PyStr.lower (String (ascii_of_nat 215) "") = String (ascii_of_nat 215) "".
Proof. vm_compute. repeat split. Qed.

Example str_literals :
  PyStr.str 0 = "0" /\ PyStr.str 42 = "42" /\ PyStr.str (-5) = "-5".
Proof. vm_compute. repeat split. Qed.

(** ** [str.split] has fuel to spare *)

Lemma take_token_length s :
  let (tok, rest) := PyStr.take_token s in
  String.length s = (String.length tok + String.length rest)%nat.
Proof.
  induction s as [|c s IH]; simpl; [reflexivity|].
  destruct (PyStr.isspace c); simpl; [reflexivity|].
  destruct (PyStr.take_token s) as [tok rest]. simpl. lia.
Qed.

Lemma lstrip_by_length p s :
  (String.length (PyStr.lstrip_by p s) <= String.length s)%nat.
Proof.
  induction s as [|c s IH]; simpl; [lia|].
  destruct (p c); simpl; lia.
Qed.

(** Cutting with any bound that is at least the length of the text gives
    the same tokens: the bound [split] passes never cuts a split short. *)
Lemma split_maxsplit_enough k k' s :
  (String.length s <= k)%nat -> (String.length s <= k')%nat ->
  PyStr.split_maxsplit k s = PyStr.split_maxsplit k' s.
Proof.
  revert k' s. induction k as [|k IH]; intros k' s Hk Hk'.
  - destruct s; [|simpl in Hk; lia].
    destruct k'; reflexivity.
  - destruct k' as [|k'].
    + destruct s; [reflexivity | simpl in Hk'; lia].
    + cbn [PyStr.split_maxsplit].
      pose proof (take_token_length (PyStr.lstrip_by PyStr.isspace s)) as Hl.
      pose proof (lstrip_by_length PyStr.isspace s) as Hs.
      destruct (PyStr.take_token (PyStr.lstrip_by PyStr.isspace s))
        as [tok rest].
      destruct tok as [|c tok]; [reflexivity|].
      cbn [PyStr.is_empty]. f_equal. simpl in Hl.
      apply IH; lia.
Qed.

Lemma split_unbounded s k :
  (String.length s <= k)%nat -> PyStr.split s = PyStr.split_maxsplit k s.
Proof.
  intros H. unfold PyStr.split. apply split_maxsplit_enough; [lia | exact H].
Qed.

(** ** [int] on numeric tokens *)

Lemma digit_not_space c : PyStr.is_digit c = true -> PyStr.isspace c = false.
Proof.
  destruct c as [[] [] [] [] [] [] [] []]; vm_compute; congruence.
Qed.

Lemma digit_not_int_space c :
  PyStr.is_digit c = true -> PyStr.int_space c = false.
Proof.
  destruct c as [[] [] [] [] [] [] [] []]; vm_compute; congruence.
Qed.

Lemma isdigit_char_not_int_space c :
  PyStr.isdigit_char c = true -> PyStr.int_space c = false.
Proof.
  destruct c as [[] [] [] [] [] [] [] []]; vm_compute; congruence.
Qed.

Lemma all_digits_isdigit s :
  PyStr.all_digits s = true -> PyStr.all_isdigit s = true.
Proof.
  induction s as [|c s IH]; simpl; [reflexivity|].
  intros H. apply andb_prop in H as [Hc Hs].
  unfold PyStr.isdigit_char. rewrite Hc, (IH Hs). reflexivity.
Qed.

(** Stripping a text that holds no character of the stripped set. *)
Lemma rstrip_by_none (q : ascii -> bool) s :
  all_chars (fun c => negb (q c)) s = true -> PyStr.rstrip_by q s = s.
Proof.
  induction s as [|c s IH]; simpl; [reflexivity|].
  intros H. apply andb_prop in H as [Hc Hs].
  rewrite (IH Hs). apply negb_true_iff in Hc. rewrite Hc. reflexivity.
Qed.

Lemma all_isdigit_no_int_space s :
  PyStr.all_isdigit s = true ->
  all_chars (fun c => negb (PyStr.int_space c)) s = true.
Proof.
  induction s as [|c s IH]; simpl; [reflexivity|].
  intros H. apply andb_prop in H as [Hc Hs].
  rewrite (isdigit_char_not_int_space c Hc), (IH Hs). reflexivity.
Qed.

Lemma all_digits_rstrip s :
  PyStr.all_digits s = true -> PyStr.rstrip_by PyStr.int_space s = s.
Proof.
  intros H. apply rstrip_by_none, all_isdigit_no_int_space,
              all_digits_isdigit, H.
Qed.

Lemma parse_digits_all_digits s :
  PyStr.all_digits s = true ->
  forall acc b, 0 <= acc -> (s <> EmptyString \/ b = true) ->
  exists n, PyStr.parse_digits acc b s = Some n /\ 0 <= n.
Proof.
  induction s as [|c s IH]; cbn [PyStr.parse_digits PyStr.all_digits];
    intros H acc b Hacc Hne.
  - destruct Hne as [Hne | ->]; [congruence|]. eauto.
  - apply andb_prop in H as [Hc Hs]. rewrite Hc.
    apply IH; auto.
    unfold PyStr.digit_val. unfold PyStr.is_digit in Hc.
    apply andb_prop in Hc as [Hlo _]. apply Nat.leb_le in Hlo. lia.
Qed.

Lemma parse_digits_nonneg s :
  forall acc b n, 0 <= acc -> PyStr.parse_digits acc b s = Some n -> 0 <= n.
Proof.
  induction s as [|c s IH]; cbn [PyStr.parse_digits]; intros acc b n Hacc H.
  - destruct b; [|discriminate]. injection H as <-. exact Hacc.
  - destruct (PyStr.is_digit c) eqn:Hc.
    + apply (IH _ _ _) in H; [exact H|].
      unfold PyStr.digit_val. unfold PyStr.is_digit in Hc.
      apply andb_prop in Hc as [Hlo _]. apply Nat.leb_le in Hlo. lia.
    + destruct (Ascii.eqb c "_"); [|discriminate].
      destruct b; [|discriminate]. apply (IH _ _ _ Hacc H).
Qed.

(** A token that [isdigit] accepts is read by [int] as it stands, with no
    sign and nothing stripped. *)
Lemma int_of_isdigit_token p :
  PyStr.isdigit p = true -> PyStr.int p = PyStr.parse_digits 0 false p.
Proof.
  unfold PyStr.isdigit. destruct p as [|c p]; simpl; [discriminate|].
  intros H. apply andb_prop in H as [Hc Hp].
  assert (Hstrip : PyStr.strip_by PyStr.int_space (String c p) = String c p).
  { unfold PyStr.strip_by. simpl.
    rewrite (isdigit_char_not_int_space c Hc). simpl.
    rewrite (rstrip_by_none _ p (all_isdigit_no_int_space p Hp)).
    rewrite (isdigit_char_not_int_space c Hc). reflexivity. }
  unfold PyStr.int. rewrite Hstrip.
  destruct c as [[] [] [] [] [] [] [] []]; try discriminate Hc; reflexivity.
Qed.

(** On a token of decimal digits [int] does not raise. *)
Lemma int_of_all_digits p :
  p <> EmptyString -> PyStr.all_digits p = true ->
  exists n, PyStr.int p = Some n /\ 0 <= n.
Proof.
  intros Hne Hall.
  rewrite int_of_isdigit_token.
  - apply parse_digits_all_digits; [exact Hall | lia | left; exact Hne].
  - unfold PyStr.isdigit. rewrite (all_digits_isdigit p Hall).
    destruct p; [congruence | reflexivity].
Qed.

(** The number the reply scan assigns is never negative. *)
Lemma reply_task_id_nonneg r n : reply_task_id r = Some n -> 0 <= n.
Proof.
  unfold reply_task_id.
  destruct r as [[[txt|]]|]; cbn [replied_text]; try discriminate.
  match goal with |- context [if ?b then _ else _] => destruct b end;
    try discriminate.
  destruct (find PyStr.isdigit (PyStr.split txt)) as [p|] eqn:F;
    try discriminate.
  apply find_some in F as [_ Hd].
  rewrite (int_of_isdigit_token p Hd). apply parse_digits_nonneg. lia.
Qed.

(** The scan raises exactly when it stops at a token and assigns nothing. *)
Lemma reply_scan_raises_no_id r :
  reply_scan_raises r = true -> reply_task_id r = None.
Proof.
  unfold reply_scan_raises, reply_task_id.
  destruct r as [[[txt|]]|]; cbn [replied_text]; try discriminate.
  match goal with |- context [if ?b then _ else _] => destruct b end;
    try discriminate.
  destruct (find PyStr.isdigit (PyStr.split txt)) as [p|];
    try discriminate.
  destruct (PyStr.int p); [discriminate | reflexivity].
Qed.

Lemma reply_task_id_no_raise r n :
  reply_task_id r = Some n -> reply_scan_raises r = false.
Proof.
  intros H. destruct (reply_scan_raises r) eqn:E; [|reflexivity].
  rewrite (reply_scan_raises_no_id r E) in H. discriminate.
Qed.

(** ** Framing: what a handler leaves alone *)

Section Frames.

Variable R : world -> world -> Prop.
Hypothesis HR : frame R.

Lemma preserves_ret {A} (a : A) : preserves R (ret a).
Proof. intros w. apply (frame_refl R HR). Qed.

Lemma preserves_raise {A} (e : exn) : preserves R (@raise A e).
Proof. intros w. apply (frame_refl R HR). Qed.

Lemma preserves_get : preserves R get.
Proof. intros w. apply (frame_refl R HR). Qed.

Lemma preserves_modify (f : world -> world) :
  (forall w, R w (f w)) -> preserves R (modify f).
Proof. intros H w. apply H. Qed.

Lemma preserves_bind {A B} (m : M A) (k : A -> M B) :
  preserves R m -> (forall a, preserves R (k a)) -> preserves R (bind m k).
Proof.
  intros Hm Hk w. unfold bind. specialize (Hm w).
  destruct (m w) as [[a|e] w']; simpl in *; [|exact Hm].
  eapply (frame_trans R HR); [exact Hm | apply Hk].
Qed.

Lemma preserves_try_except {A} (m : M A) (h : exn -> M A) :
  preserves R m -> (forall e, preserves R (h e)) ->
  preserves R (try_except m h).
Proof.
  intros Hm Hh w. unfold try_except. specialize (Hm w).
  destruct (m w) as [[a|e] w']; simpl in *; [exact Hm|].
  eapply (frame_trans R HR); [exact Hm | apply Hh].
Qed.

Lemma preserves_for_each {A S} (l : list A) (body : A -> S -> M S) :
  (forall x acc, preserves R (body x acc)) ->
  forall acc, preserves R (for_each l body acc).
Proof.
  intros Hb. induction l as [|x l IH]; intros acc; simpl.
  - apply preserves_ret.
  - apply preserves_bind; [apply Hb | intros a; apply IH].
Qed.

Lemma preserves_transport env ev : preserves R (transport env ev).
Proof.
  intros w. unfold transport.
  assert (H : R w (emit (ev (net env (net_calls w))) (tick_net w))).
  { eapply (frame_trans R HR);
      [apply (frame_tick_net R HR) | apply (frame_emit R HR)]. }
  destruct (net env (net_calls w)); exact H.
Qed.

Lemma preserves_utcnow env : preserves R (utcnow env).
Proof. intros w. apply (frame_tick_clock R HR). Qed.

Lemma preserves_logger e : preserves R (logger e).
Proof. intros w. apply (frame_emit R HR). Qed.

Lemma preserves_InputFile path : preserves R (InputFile path).
Proof.
  intros w. unfold InputFile.
  destruct (existsb _ _); apply (frame_refl R HR).
Qed.

End Frames.

(** Decomposes a goal [preserves R m] along the structure of [m]; what is
    left are the writes to the store. *)
Ltac frame_step HR :=
  lazymatch goal with
  | |- preserves _ (bind _ _) => apply (preserves_bind _ HR); [|intro]
  | |- preserves _ (ret _) => apply (preserves_ret _ HR)
  | |- preserves _ (raise _) => apply (preserves_raise _ HR)
  | |- preserves _ get => apply (preserves_get _ HR)
  | |- preserves _ (try_except _ _) =>
      apply (preserves_try_except _ HR); [|intro]
  | |- preserves _ (for_each _ _ _) =>
      apply (preserves_for_each _ HR); intros
  | |- preserves _ (transport _ _) => apply (preserves_transport _ HR)
  | |- preserves _ (reply _ _ _) => apply (preserves_transport _ HR)
  | |- preserves _ (bot_send_message _ _ _) =>
      apply (preserves_transport _ HR)
  | |- preserves _ (bot_send_chat_action _ _) =>
      apply (preserves_transport _ HR)
  | |- preserves _ (bot_send_document _ _ _) =>
      apply (preserves_transport _ HR)
  | |- preserves _ (utcnow _) => apply (preserves_utcnow _ HR)
  | |- preserves _ (logger _) => apply (preserves_logger _ HR)
  | |- preserves _ (InputFile _) => apply (preserves_InputFile _ HR)
  | |- preserves _ (match ?x with _ => _ end) => destruct x
  end.

Ltac frame_auto HR := repeat frame_step HR.

Lemma frame_keeps {T} (f : world -> T) :
  (forall e w, f (emit e w) = f w) ->
  (forall w, f (tick_net w) = f w) ->
  (forall w, f (tick_clock w) = f w) ->
  frame (keeps f).
Proof.
  intros He Hn Hc. unfold keeps. constructor; intros; auto. congruence.
Qed.

Lemma frame_keeps_students : frame (keeps students).
Proof. apply frame_keeps; reflexivity. Qed.

Lemma frame_keeps_tasks : frame (keeps tasks).
Proof. apply frame_keeps; reflexivity. Qed.

Lemma frame_keeps_submissions : frame (keeps submissions).
Proof. apply frame_keeps; reflexivity. Qed.

Lemma frame_keeps_settings : frame (keeps settings).
Proof. apply frame_keeps; reflexivity. Qed.


Lemma frame_keeps_files : frame (keeps files).
Proof. apply frame_keeps; reflexivity. Qed.

Ltac frame_go HR := repeat (cbv beta zeta; frame_step HR).

Section HandlerFrames.

Variable env : environment.
Variable R : world -> world -> Prop.
Hypothesis HR : frame R.

Lemma teacher_only_preserves func m :
  preserves R (func m) -> preserves R (teacher_only env func m).
Proof. intros H. unfold teacher_only. frame_go HR. exact H. Qed.

(** Sending, reminding, reporting and firing write nothing to the store. *)
Lemma cmd_send_task_preserves m : preserves R (cmd_send_task env m).
Proof.
  apply teacher_only_preserves.
  unfold cmd_send_task_wrapped, broadcast, send_task_to. frame_go HR.
Qed.

Lemma cmd_resend_unsubmitted_preserves m :
  preserves R (cmd_resend_unsubmitted env m).
Proof.
  apply teacher_only_preserves.
  unfold cmd_resend_unsubmitted_wrapped. frame_go HR.
Qed.

Lemma cmd_stats_preserves m : preserves R (cmd_stats env m).
Proof.
  apply teacher_only_preserves. unfold cmd_stats_wrapped. frame_go HR.
Qed.

Lemma job_run_preserves task_id : preserves R (job_run env task_id).
Proof. unfold job_run. frame_go HR. Qed.

Lemma fire_preserves jid : preserves R (fire env jid).
Proof.
  unfold fire. frame_go HR. apply job_run_preserves.
Qed.

(** Registration writes to [students] only. *)
Lemma cmd_start_preserves m :
  (forall row w, R w (insert_or_ignore_student row w)) ->
  preserves R (cmd_start env m).
Proof.
  intros H. unfold cmd_start. frame_go HR.
  apply preserves_modify. intros w. apply H.
Qed.

(** [/set_teacher] writes to [settings] only. *)
Lemma cmd_set_teacher_preserves m :
  (forall l w, R w (set_settings l w)) ->
  preserves R (cmd_set_teacher env m).
Proof.
  intros H. unfold cmd_set_teacher, set_setting. frame_go HR.
  apply preserves_modify. intros w. apply H.
Qed.

(** A file writes to [files], then to [tasks] or to [submissions]. *)
Lemma save_file_preserves f :
  (forall p w, R w (set_files (files w ++ [p]) w)) ->
  preserves R (save_file env f).
Proof.
  intros H. unfold save_file. frame_go HR.
  apply preserves_modify. intros w. apply H.
Qed.

Lemma insert_task_preserves a b c d e :
  (forall t w, R w (set_tasks (tasks w ++ [t]) w)) ->
  preserves R (insert_task a b c d e).
Proof.
  intros H. unfold insert_task. intros w. apply H.
Qed.

(** The insert of a submission writes one row, or raises and writes
    nothing. *)
Lemma insert_submission_preserves n uid path ft stamp :
  (fits_int64 n = true ->
   forall w,
     R w (set_submissions
            (submissions w
             ++ [mkSubmission (next_rowid (map s_id (submissions w)))
                              n uid path ft stamp]) w)) ->
  preserves R (insert_submission n uid path ft stamp).
Proof.
  intros H. unfold insert_submission.
  destruct (fits_int64 n).
  - apply preserves_modify. apply H. reflexivity.
  - apply (preserves_raise _ HR).
Qed.

(** Scheduling writes to [tasks] and to the job store. *)
Lemma schedule_preserves m task_id cron_expr :
  (forall c t w, R w (update_scheduled_cron c t w)) ->
  (forall jid, preserves R (remove_job jid)) ->
  (forall j, preserves R (add_job j)) ->
  preserves R (schedule env m task_id cron_expr).
Proof.
  intros Hu Hr Ha. unfold schedule, CronTrigger. frame_go HR; auto.
  apply preserves_modify. intros w. apply Hu.
Qed.

Lemma cmd_schedule_task_preserves m :
  (forall c t w, R w (update_scheduled_cron c t w)) ->
  (forall jid, preserves R (remove_job jid)) ->
  (forall j, preserves R (add_job j)) ->
  preserves R (cmd_schedule_task env m).
Proof.
  intros Hu Hr Ha. apply teacher_only_preserves.
  unfold cmd_schedule_task_wrapped. frame_go HR.
  apply schedule_preserves; assumption.
Qed.

End HandlerFrames.

Section FileFrames.

Variable env : environment.
Variable R : world -> world -> Prop.
Hypothesis HR : frame R.

(** What [handle_file] does to the store, by the three writes it can make.
    The write to [submissions] is made only for a sender that is not the
    teacher, when the reply scan has not raised, with the resolved task id,
    and only if that id is not zero and fits in 64 bits. *)
Lemma handle_file_frame m w :
  (forall p w, R w (set_files (files w ++ [p]) w)) ->
  (forall t w, R w (set_tasks (tasks w ++ [t]) w)) ->
  (is_teacher_of env w (from_user m) = false ->
   reply_scan_raises (reply_to_message m) = false ->
   forall n path ft stamp,
     resolve_task_id (caption_of m) (reply_to_message m) = Some n ->
     n <> 0 ->
     fits_int64 n = true ->
     forall w',
       R w' (set_submissions
               (submissions w'
                ++ [mkSubmission (next_rowid (map s_id (submissions w')))
                                 n (u_id (from_user m)) path ft stamp])
               w')) ->
  R w (snd (handle_file env m w)).
Proof.
  intros Hf Ht Hs. unfold handle_file.
  unfold bind at 1. unfold get at 1. cbv beta iota zeta.
  fold (caption_of m).
  destruct (is_teacher_of env w (from_user m)) eqn:E.
  - clear Hs.
    match goal with
    | |- R w (snd (?X w)) => cut (preserves R X); [intros Hp; apply Hp|]
    end.
    frame_go HR;
      try (apply save_file_preserves; assumption);
      try (apply insert_task_preserves; assumption).
  - specialize (Hs eq_refl).
    match goal with
    | |- R w (snd (?X w)) => cut (preserves R X); [intros Hp; apply Hp|]
    end.
    destruct (reply_scan_raises (reply_to_message m)) eqn:Ex.
    { frame_go HR; apply save_file_preserves; assumption. }
    specialize (Hs eq_refl).
    destruct (resolve_task_id (caption_of m) (reply_to_message m))
      as [n|] eqn:Er; cbn [not_task_id].
    + destruct (n =? 0) eqn:En.
      * frame_go HR; apply save_file_preserves; assumption.
      * apply Z.eqb_neq in En.
        frame_go HR;
          try (apply save_file_preserves; assumption).
        apply insert_submission_preserves; [exact HR|].
        intros Hfit. apply (Hs n); [reflexivity | assumption | exact Hfit].
    + frame_go HR; apply save_file_preserves; assumption.
Qed.

End FileFrames.

(** ** Submissions: where a row comes from *)




Lemma remove_job_keeps {T} (f : world -> T) jid :
  (forall l w, f (set_jobs l w) = f w) -> preserves (keeps f) (remove_job jid).
Proof.
  intros H w. unfold remove_job, keeps.
  destruct (existsb _ _); simpl; auto.
Qed.

Lemma add_job_keeps {T} (f : world -> T) j :
  (forall l w, f (set_jobs l w) = f w) -> preserves (keeps f) (add_job j).
Proof.
  intros H w. unfold add_job, keeps.
  destruct (existsb _ _); simpl; auto.
Qed.






(** The other half of the invariant is declared by [init_db], a FOREIGN KEY
    from [submissions.task_id] to [tasks.id], and never enforced: the row
    Bo's document leaves in a fresh store names task 9, and no task has
    been created. *)
Example orphan_submission_breaks_integrity :
  reachable env_up w_orphan /\ ~ referential_integrity w_orphan.
Proof.
  split; [apply reachable_step, reachable_initial|].
  intros H. destruct (H orphan_row) as [Ht _]; [left; reflexivity|].
  exact Ht.
Qed.

(** ** Running a handler step by step *)

Lemma bind_ok {A B} (m : M A) (k : A -> M B) w a w' :
  m w = (Ok a, w') -> bind m k w = k a w'.
Proof. intros E. unfold bind. rewrite E. reflexivity. Qed.

Lemma bind_raise {A B} (m : M A) (k : A -> M B) w e w' :
  m w = (Raise e, w') -> bind m k w = (Raise e, w').
Proof. intros E. unfold bind. rewrite E. reflexivity. Qed.

(** With the transport up for [get_file] and for [download], the attachment
    ends up in [FILES_DIR]. *)
Lemma save_file_ok env f w :
  net env (net_calls w) = true -> net env (S (net_calls w)) = true ->
  exists w',
    save_file env f w = (Ok (local_path_of env f w), w')
    /\ students w' = students w /\ tasks w' = tasks w
    /\ submissions w' = submissions w /\ settings w' = settings w
    /\ jobs w' = jobs w
    /\ files w' = (files w ++ [local_path_of env f w])%list
    /\ log w' = (log w ++ [GetFile true (file_id f);
                           Download true (local_path_of env f w)])%list
    /\ net_calls w' = S (S (net_calls w)).
Proof.
  intros H1 H2. eexists.
  unfold save_file, bind, transport, utcnow, modify, ret.
  rewrite H1. cbn [net_calls tick_clock emit tick_net clock_reads set_files].
  rewrite H2.
  split; [reflexivity|].
  cbn. rewrite <- app_assoc. repeat split; reflexivity.
Qed.

(** ** The resolver inside [handle_file] *)

Example resolver_caption : resolve_task_id "task: 7 extra words" None = Some 7.
Proof. vm_compute. reflexivity. Qed.

Example resolver_reply :
  resolve_task_id "" (Some (mkReplied (Some announcement_3))) = Some 3.
Proof. vm_compute. reflexivity. Qed.

Example resolver_neither : resolve_task_id "hello" None = None.
Proof. vm_compute. reflexivity. Qed.

(** What follows the insert in [handle_file] leaves [submissions] alone. *)
Lemma after_insert_keeps_submissions env w m task_id :
  preserves (keeps submissions)
    (bind
       (match teacher_id_of env w with
        | Some teacher_id_val =>
            if negb (PyStr.is_empty teacher_id_val) then
              try_except
                (match PyStr.int teacher_id_val with
                 | Some t =>
                     bot_send_message env t
                       (SubmissionNotice task_id (full_name (from_user m))
                                         (u_id (from_user m)))
                 | None => raise ValueError
                 end)
                (fun _ => logger LogTeacherNotifyFailed)
            else ret tt
        | None => ret tt
        end)
       (fun _ => reply env m SubmissionSaved)).
Proof. frame_go frame_keeps_submissions. Qed.

(** The resolver has settled on [n]: the replied text gives it, or the
    replied text gives nothing without raising and the caption gives it. *)
Lemma signals_resolve m n :
  reply_task_id (reply_to_message m) = Some n
  \/ (reply_task_id (reply_to_message m) = None
      /\ reply_scan_raises (reply_to_message m) = false
      /\ caption_task_id (caption_of m) = Some n) ->
  reply_scan_raises (reply_to_message m) = false
  /\ resolve_task_id (caption_of m) (reply_to_message m) = Some n.
Proof.
  unfold resolve_task_id. intros [H | (H & Hx & Hc)].
  - split; [apply (reply_task_id_no_raise _ n H)|]. rewrite H. reflexivity.
  - split; [exact Hx|]. rewrite H. exact Hc.
Qed.

(** C1, as the code has it. For a file from a sender who is not the teacher,
    saved with the transport up. When the scan of the replied text stops at a
    token that [int] refuses, the handler raises and no row is stored,
    whatever the caption says. When the replied text gives a number, that
    number is the task id of the row stored, whatever the caption says; when
    the replied text gives none, the number after [task:] in the caption is.
    The row is stored when the number is not zero and fits in 64 bits, and
    no row is stored otherwise. *)
Theorem handle_file_stores_resolved env w m f ft :
  is_teacher_of env w (from_user m) = false ->
  attachment m = Some (f, ft) ->
  net env (net_calls w) = true ->
  net env (S (net_calls w)) = true ->
  let w' := step env (File m) w in
  (reply_scan_raises (reply_to_message m) = true ->
   submissions w' = submissions w)
  /\ (forall n,
        reply_task_id (reply_to_message m) = Some n
        \/ (reply_task_id (reply_to_message m) = None
            /\ reply_scan_raises (reply_to_message m) = false
            /\ caption_task_id (caption_of m) = Some n) ->
        (n <> 0 -> fits_int64 n = true ->
         exists row,
           submissions w' = (submissions w ++ [row])%list
           /\ s_task_id row = n
           /\ s_student_chat_id row = u_id (from_user m))
        /\ (n = 0 \/ fits_int64 n = false ->
            submissions w' = submissions w)).
Proof.
  intros Ht Ha N1 N2 w'. split; [|intros n Hsig; split].
  - intros Hx. subst w'.
    apply (handle_file_frame env _ frame_keeps_submissions m w).
    + reflexivity.
    + reflexivity.
    + intros _ Hx'. congruence.
  - intros Hn Hfit.
    destruct (signals_resolve m n Hsig) as [Hx Hres].
    destruct (save_file_ok env f w N1 N2)
      as (w1 & Hsave & _ & _ & Hsub & _).
    subst w'. unfold step, handle, handle_file.
    unfold bind at 1. unfold get at 1. cbv beta iota zeta.
    fold (caption_of m). rewrite Ht, Ha, Hx, Hres.
    rewrite (bind_ok _ _ _ _ _ Hsave).
    cbn [not_task_id]. apply Z.eqb_neq in Hn. rewrite Hn.
    unfold bind at 1. unfold utcnow at 1. cbv beta iota.
    unfold bind at 1. unfold insert_submission at 1. rewrite Hfit.
    unfold modify at 1. cbv beta iota.
    unfold bind at 1. unfold get at 1. cbv beta iota.
    match goal with
    | |- context [snd (?rest ?w3)] =>
        pose proof (after_insert_keeps_submissions env w3 m n w3) as Hk
    end.
    unfold keeps in Hk.
    eexists. split; [|split].
    + etransitivity; [exact Hk|]. cbn [submissions set_submissions tick_clock].
      rewrite Hsub. reflexivity.
    + reflexivity.
    + reflexivity.
  - intros Hbad.
    destruct (signals_resolve m n Hsig) as [Hx Hres].
    subst w'.
    apply (handle_file_frame env _ frame_keeps_submissions m w).
    + reflexivity.
    + reflexivity.
    + intros _ _ n' path ft' stamp Hres' Hn' Hfit'.
      rewrite Hres in Hres'. injection Hres' as <-.
      destruct Hbad as [-> | Hbad]; [congruence|]. congruence.
Qed.

Lemma handle_file_stores_resolved_witness :
  is_teacher_of env_up w_roster (from_user crossed_message) = false
  /\ reply_task_id (reply_to_message crossed_message) = Some 3
  /\ exists row,
       submissions (step env_up (File crossed_message) w_roster)
       = (submissions w_roster ++ [row])%list
       /\ s_task_id row = 3
       /\ s_student_chat_id row = u_id (from_user crossed_message).
Proof.
  split; [reflexivity|]. split; [reflexivity|].
  destruct (handle_file_stores_resolved env_up w_roster crossed_message
              (mkFileObj "F1" "documents/file_1.pdf") Document
              eq_refl eq_refl eq_refl eq_refl) as [_ H].
  destruct (H 3 (or_introl eq_refl)) as [Hrow _].
  apply Hrow; [discriminate | reflexivity].
Defined.

(** C1, as the specification has it, fails: the caption of
    [crossed_message] gives task 7, and the row stored is for task 3, the
    number found in the replied text. *)
Lemma reply_text_overrides_caption :
  is_teacher_of env_up w_roster (from_user crossed_message) = false
  /\ caption_task_id (caption_of crossed_message) = Some 7
  /\ map s_task_id
         (submissions (step env_up (File crossed_message) w_roster))
     = [3].
Proof. vm_compute. repeat split. Qed.

(** ** Files the resolver cannot place *)

(** C5, as the code has it. For a file from a sender who is not the teacher,
    when the resolver is left with no task id or with the id 0: no row is
    added to [submissions]; and with the transport up for the download, the
    attachment has been saved under [FILES_DIR] before the resolver ran and
    stays there. What follows the download is the prompt to name the task,
    but for one case: when the scan of the replied text stops at a token
    that [int] refuses, the handler raises and nothing follows. *)
Theorem unresolved_file_is_kept env w m f ft :
  is_teacher_of env w (from_user m) = false ->
  attachment m = Some (f, ft) ->
  not_task_id (resolve_task_id (caption_of m) (reply_to_message m)) = true ->
  let w' := step env (File m) w in
  submissions w' = submissions w
  /\ (net env (net_calls w) = true -> net env (S (net_calls w)) = true ->
      files w' = (files w ++ [local_path_of env f w])%list
      /\ log w'
         = (log w
            ++ [GetFile true (file_id f);
                Download true (local_path_of env f w)]
            ++ (if reply_scan_raises (reply_to_message m) then []
                else [Reply (net env (S (S (net_calls w)))) (chat m)
                            CannotResolveTask]))%list).
Proof.
  intros Ht Ha Hres w'.
  split.
  - apply (handle_file_frame env _ frame_keeps_submissions m w).
    + reflexivity.
    + reflexivity.
    + intros _ _ n path ft' stamp Hn Hz. rewrite Hn in Hres.
      cbn [not_task_id] in Hres. apply Z.eqb_eq in Hres. congruence.
  - intros N1 N2.
    destruct (save_file_ok env f w N1 N2)
      as (w1 & Hsave & _ & _ & _ & _ & _ & Hfiles & Hlog & Hnet).
    destruct (reply_scan_raises (reply_to_message m)) eqn:Hx.
    + assert (Hstep : w' = w1).
      { subst w'. unfold step, handle, handle_file.
        unfold bind at 1. unfold get at 1. cbv beta iota zeta.
        fold (caption_of m). rewrite Ht, Ha, Hx.
        rewrite (bind_ok _ _ _ _ _ Hsave). reflexivity. }
      rewrite Hstep, Hfiles, Hlog. split; reflexivity.
    + assert (Hstep : w' = snd (reply env m CannotResolveTask w1)).
      { subst w'. unfold step, handle, handle_file.
        unfold bind at 1. unfold get at 1. cbv beta iota zeta.
        fold (caption_of m). rewrite Ht, Ha, Hx, Hres.
        rewrite (bind_ok _ _ _ _ _ Hsave). reflexivity. }
      rewrite Hstep. unfold reply, transport. rewrite Hnet.
      destruct (net env (S (S (net_calls w))));
        cbn [snd files log emit tick_net]; rewrite Hfiles, Hlog;
        rewrite <- app_assoc; split; reflexivity.
Qed.

Lemma unresolved_file_is_kept_witness :
  let w' := step env_up (File vague_message) w_roster in
  submissions w' = submissions w_roster
  /\ files w' = (files w_roster ++ ["data/files/5_file_1.pdf"])%list
  /\ log w'
     = (log w_roster ++ [GetFile true "F1";
                         Download true "data/files/5_file_1.pdf";
                         Reply true 5 CannotResolveTask])%list.
Proof.
  destruct (unresolved_file_is_kept env_up w_roster vague_message
              (mkFileObj "F1" "documents/file_1.pdf") Document
              eq_refl eq_refl eq_refl) as [Hs Hf].
  destruct (Hf eq_refl eq_refl) as [Hfiles Hlog].
  split; [exact Hs|]. split; [exact Hfiles | exact Hlog].
Defined.

(** C5, as the specification has it, fails: Bo's document named no task, and
    it is on disk after the handler has answered. *)
Lemma rejected_artifact_is_stored :
  is_teacher_of env_up w_roster (from_user vague_message) = false
  /\ caption_task_id (caption_of vague_message) = None
  /\ reply_task_id (reply_to_message vague_message) = None
  /\ ~ In "data/files/5_file_1.pdf" (files w_roster)
  /\ In "data/files/5_file_1.pdf"
        (files (step env_up (File vague_message) w_roster)).
Proof.
  repeat split; try reflexivity.
  - intros [H | []]. discriminate H.
  - right. left. reflexivity.
Qed.

(** The caption gives task 1, the replied text names its task with a
    superscript: the scan stops at that token, [int] refuses it, the handler
    raises after the download; no row is stored and Bo gets no answer. *)
Example superscript_reply_raises :
  let r := handle_file env_up superscript_message w_roster in
  caption_task_id (caption_of superscript_message) = Some 1
  /\ reply_scan_raises (reply_to_message superscript_message) = true
  /\ fst r = Raise ValueError
  /\ submissions (snd r) = submissions w_roster
  /\ log_suffix w_roster (snd r)
     = [GetFile true "F1"; Download true "data/files/5_file_1.pdf"].
Proof. vm_compute. repeat split. Qed.

(** The caption gives an id one above the largest that fits in 64 bits: the
    insert raises; no row is stored and Bo gets no answer. *)
Example wide_id_raises :
  let r := handle_file env_up wide_message w_roster in
  caption_task_id (caption_of wide_message) = Some (2 ^ 63)
  /\ fst r = Raise OverflowError
  /\ submissions (snd r) = submissions w_roster
  /\ log_suffix w_roster (snd r)
     = [GetFile true "F1"; Download true "data/files/5_file_1.pdf"].
Proof. vm_compute. repeat split. Qed.

(** The caption gives task 7 and the replied text gives 0: the 0 wins and
    counts as no id. *)
Example zero_from_reply_is_no_id :
  let m := sends bo (Some "task: 7") (Some "task id 0") in
  resolve_task_id (caption_of m) (reply_to_message m) = Some 0
  /\ log_suffix w_roster (step env_up (File m) w_roster)
     = [GetFile true "F1"; Download true "data/files/5_file_1.pdf";
        Reply true 5 CannotResolveTask]
  /\ submissions (step env_up (File m) w_roster) = submissions w_roster.
Proof. vm_compute. repeat split. Qed.

(** A caption with a no-break space after [task:] is resolved. *)
Example caption_after_nbsp :
  caption_task_id ("task:" ++ String nbsp "7") = Some 7.
Proof. vm_compute. reflexivity. Qed.

(** ** Statistics *)

Lemma dict_get_set k k' v d :
  dict_get k (dict_set k' v d)
  = if k' =? k then Some v else dict_get k d.
Proof.
  induction d as [|[k0 v0] d IH]; simpl.
  - reflexivity.
  - destruct (k0 =? k') eqn:E0; simpl.
    + apply Z.eqb_eq in E0. subst k0.
      destruct (k' =? k); reflexivity.
    + destruct (k0 =? k) eqn:E1.
      * apply Z.eqb_eq in E1. subst k0.
        rewrite Z.eqb_sym, E0. reflexivity.
      * exact IH.
Qed.

Lemma dict_get_fold k rows d :
  dict_get k (fold_left (fun d r => dict_set (fst r) (snd r) d) rows d)
  <> None
  <-> dict_get k d <> None \/ In k (map fst rows).
Proof.
  revert d. induction rows as [|[k0 v0] rows IH]; intros d; simpl.
  - tauto.
  - rewrite IH, dict_get_set. simpl.
    destruct (k0 =? k) eqn:E.
    + apply Z.eqb_eq in E. subst. split; [auto | intros _; left; discriminate].
    + apply Z.eqb_neq in E. tauto.
Qed.

(** A key is in [subs] exactly when the recipient has a submission for the
    task. *)
Lemma subs_of_spec task_id w c :
  dict_get c (subs_of task_id w) <> None <-> has_submission task_id c w.
Proof.
  unfold subs_of, dict_of_rows, has_submission.
  rewrite dict_get_fold. simpl. rewrite map_map. simpl.
  rewrite in_map_iff. split.
  - intros [H | (s & E & Hin)]; [congruence|].
    apply filter_In in Hin as [Hin Ht]. apply Z.eqb_eq in Ht. eauto.
  - intros (s & Hin & Ht & Hc). right. exists s. split; [exact Hc|].
    apply filter_In. split; [exact Hin | apply Z.eqb_eq; exact Ht].
Qed.

(** The loop of [cmd_stats], read as two list comprehensions. *)
Lemma stats_loop (subs : list (Z * string)) l a b :
  fold_left
    (fun acc s =>
       match dict_get (chat_id s) subs with
       | Some stamp =>
           ((fst acc ++ [(chat_id s, name s, stamp)])%list, snd acc)
       | None => (fst acc, (snd acc ++ [(chat_id s, name s)])%list)
       end) l (a, b)
  = ((a ++ flat_map (fun s => match dict_get (chat_id s) subs with
                              | Some stamp => [(chat_id s, name s, stamp)]
                              | None => []
                              end) l)%list,
     (b ++ flat_map (fun s => match dict_get (chat_id s) subs with
                              | Some _ => []
                              | None => [(chat_id s, name s)]
                              end) l)%list).
Proof.
  revert a b. induction l as [|s l IH]; intros a b; simpl.
  - rewrite !app_nil_r. reflexivity.
  - destruct (dict_get (chat_id s) subs) as [stamp|]; simpl;
      rewrite IH; simpl; rewrite <- ?app_assoc; reflexivity.
Qed.

Lemma stats_sets (subs : list (Z * string)) (l : list student) :
  let S := map (fun x : Z * string * string => fst (fst x))
             (flat_map (fun s => match dict_get (chat_id s) subs with
                                 | Some stamp => [(chat_id s, name s, stamp)]
                                 | None => []
                                 end) l) in
  let N := map (fun x : Z * string => fst x)
             (flat_map (fun s => match dict_get (chat_id s) subs with
                                 | Some _ => []
                                 | None => [(chat_id s, name s)]
                                 end) l) in
  Permutation (map chat_id l) (S ++ N)
  /\ (forall c, In c S <-> In c (map chat_id l) /\ dict_get c subs <> None)
  /\ (forall c, In c N <-> In c (map chat_id l) /\ dict_get c subs = None).
Proof.
  induction l as [|s l (IHp & IHs & IHn)]; simpl.
  - repeat split; try tauto; constructor.
  - destruct (dict_get (chat_id s) subs) as [stamp|] eqn:E; simpl.
    + split; [constructor; exact IHp|]. split; intros c.
      * rewrite IHs. split.
        -- intros [<- | [H1 H2]]; [split; [auto | congruence] | auto].
        -- intros [[<- | H1] H2]; auto.
      * rewrite IHn. split.
        -- intros [H1 H2]. auto.
        -- intros [[<- | H1] H2]; [congruence | auto].
    + split; [apply Permutation_cons_app; exact IHp|]. split; intros c.
      * rewrite IHs. split.
        -- intros [H1 H2]. auto.
        -- intros [[<- | H1] H2]; [congruence | auto].
      * rewrite IHn. split.
        -- intros [<- | [H1 H2]]; auto.
        -- intros [[<- | H1] H2]; auto.
Qed.

(** C6. The two lists [cmd_stats] builds for a task split the roster: every
    registered recipient is in one of them and in one only, no one else is in
    either, and a recipient is in [submitted] exactly when the store has a
    submission of theirs for the task. *)
Theorem stats_partitions_roster task_id w :
  let roster := map chat_id (students w) in
  let S := submitted_set task_id w in
  let N := not_submitted_set task_id w in
  (forall c, In c roster <-> In c S \/ In c N)
  /\ (forall c, ~ (In c S /\ In c N))
  /\ (forall c, In c S <-> In c roster /\ has_submission task_id c w)
  /\ Permutation roster (S ++ N)
  /\ (List.length S + List.length N = List.length roster)%nat.
Proof.
  intros roster S N.
  destruct (stats_sets (subs_of task_id w) (students w)) as (Hp & Hs & Hn).
  assert (ES : S = map (fun x : Z * string * string => fst (fst x))
                     (flat_map (fun s =>
                        match dict_get (chat_id s) (subs_of task_id w) with
                        | Some stamp => [(chat_id s, name s, stamp)]
                        | None => []
                        end) (students w))).
  { unfold S, submitted_set, stats. rewrite stats_loop. reflexivity. }
  assert (EN : N = map (fun x : Z * string => fst x)
                     (flat_map (fun s =>
                        match dict_get (chat_id s) (subs_of task_id w) with
                        | Some _ => []
                        | None => [(chat_id s, name s)]
                        end) (students w))).
  { unfold N, not_submitted_set, stats. rewrite stats_loop. reflexivity. }
  rewrite <- ES, <- EN in *. fold roster in Hp, Hs, Hn.
  split; [|split; [|split; [|split]]].
  - intros c. split.
    + intros Hin. destruct (dict_get c (subs_of task_id w)) eqn:E.
      * left. apply Hs. split; [exact Hin | congruence].
      * right. apply Hn. split; [exact Hin | exact E].
    + intros [H | H]; [apply Hs in H | apply Hn in H]; tauto.
  - intros c [H1 H2]. apply Hs in H1. apply Hn in H2. tauto.
  - intros c. rewrite Hs, subs_of_spec. tauto.
  - exact Hp.
  - rewrite <- length_app. symmetry. apply Permutation_length. exact Hp.
Qed.

(** ** Broadcast *)


Lemma log_suffix_app w w' l :
  log w' = (log w ++ l)%list -> log_suffix w w' = l.
Proof.
  intros E. unfold log_suffix. rewrite E.
  rewrite skipn_app, skipn_all, Nat.sub_diag. reflexivity.
Qed.

Ltac split_cases :=
  repeat match goal with
         | |- context [if ?b then _ else _] => destruct b eqn:?
         end.

Lemma sent_texts_app l1 l2 :
  sent_texts (l1 ++ l2) = (sent_texts l1 ++ sent_texts l2)%list.
Proof.
  induction l1 as [|e l1 IH]; simpl; [reflexivity|].
  destruct e; simpl; rewrite ?IH; reflexivity.
Qed.





(** The facts below read a [fan_out] log of deliveries. *)
Section FanOut.

Variable present : bool.
Variable task_id : Z.
Variable row : task.
Variable action : bool.

Let evs := delivery task_id row action.

(** What a delivery that went through leaves in the log. *)
Lemma delivery_log c :
  announced (evs c) = [c]
  /\ delivered_to (evs c) = [c]
  /\ sent_texts (evs c)
     = [(c, Announcement task_id (t_title row) (t_description row))]
  /\ received task_id row c (evs c)
  /\ (forall c', existsb (is_failed_send_to c') (evs c) = false)
  /\ (forall c', c' <> c -> existsb (is_send_to c') (evs c) = false).
Proof.
  unfold evs, delivery, received.
  destruct action; cbn [app announced delivered_to sent_texts existsb
                        is_failed_send_to is_send_to In orb];
    repeat split; auto 10;
    intros c' Hc; apply Z.eqb_neq in Hc;
    rewrite ?(Z.eqb_sym c c'), ?Hc; reflexivity.
Qed.

(** What a delivery that stopped short leaves in the log. *)
Lemma attempt_log c tried :
  In tried (attempts present (evs c)) ->
  announced tried = [c]
  /\ delivered_to tried = []
  /\ sent_texts tried
     = [(c, Announcement task_id (t_title row) (t_description row))]
  /\ (existsb (is_failed_send_to c) tried = true \/ present = false)
  /\ (forall c', c' <> c -> existsb (is_failed_send_to c') tried = false)
  /\ (forall c', c' <> c -> existsb (is_send_to c') tried = false).
Proof.
  unfold evs, delivery.
  destruct action, present;
    cbn [app attempts is_document andb negb map refused In];
    intros H;
    repeat match type of H with
           | _ \/ _ => destruct H as [H | H]
           | False => destruct H
           end;
    subst tried;
    cbn [announced delivered_to sent_texts existsb is_failed_send_to
         is_send_to orb];
    rewrite ?Z.eqb_refl;
    (split; [reflexivity|]); (split; [reflexivity|]);
    (split; [reflexivity|]);
    (split; [auto|]);
    split; intros c' Hc; apply Z.eqb_neq in Hc;
    rewrite ?(Z.eqb_sym c c'), ?Hc; reflexivity.
Qed.

Lemma existsb_log_record (p : event -> bool) c L :
  p (LogSendFailed c) = false ->
  existsb p (LogSendFailed c :: L) = existsb p L.
Proof. intros H. cbn [existsb]. rewrite H. reflexivity. Qed.












Lemma fan_out_sent_texts targets L failed :
  fan_out present evs targets L failed ->
  sent_texts L
  = map (fun c => (c, Announcement task_id (t_title row) (t_description row)))
        targets.
Proof.
  induction 1 as [|c targets L failed Hp H IH|c targets tried L failed Hin H IH].
  - reflexivity.
  - rewrite sent_texts_app, IH.
    destruct (delivery_log c) as (_ & _ & -> & _). reflexivity.
  - rewrite sent_texts_app. cbn [sent_texts]. rewrite IH.
    destruct (attempt_log c tried Hin) as (_ & _ & -> & _). reflexivity.
Qed.



End FanOut.


(** [/send_task <id> all] from the teacher runs the broadcast over the
    roster read at that moment, then reports. *)
Lemma cmd_send_task_wrapped_all env m txt task_id row w :
  text m = Some txt ->
  (List.length (PyStr.split txt) <? 3)%nat = false ->
  PyStr.int (nth 1 (PyStr.split txt) "") = Some task_id ->
  nth 2 (PyStr.split txt) "" = "all" ->
  fetch_task task_id w = Some row ->
  cmd_send_task_wrapped env m w
  = bind (broadcast env task_id row (students w))
         (fun failed => reply env m (BroadcastCounts (students w) failed)) w.
Proof.
  intros Ht Hl Hi Ha Hf. unfold cmd_send_task_wrapped.
  rewrite Ht, Hl, Hi, Ha. cbn [String.eqb].
  unfold bind at 1. unfold get at 1. cbv beta iota. rewrite Hf.
  unfold bind at 1. unfold get at 1. cbv beta iota. reflexivity.
Qed.

Example broadcast_to_empty_roster :
  log (step env_up (SendTask (says ana "/send_task 1 all")) w_task)
  = (log w_task ++ [Reply true 1 (BroadcastReport 0 0)])%list.
Proof. vm_compute. reflexivity. Qed.

(** The transport refuses the announcement to Cy, the second of three. *)
Example broadcast_one_of_three_fails :
  log_suffix w_roster
    (step (env_down [9%nat]) (SendTask (says ana "/send_task 1 all")) w_roster)
  = [SendMessage true 5 (Announcement 1 "Lesson 1" "Repeat");
     SendDocument true 5 "data/files/0_file_1.pdf";
     SendMessage false 6 (Announcement 1 "Lesson 1" "Repeat");
     LogSendFailed 6;
     SendMessage true 7 (Announcement 1 "Lesson 1" "Repeat");
     SendDocument true 7 "data/files/0_file_1.pdf";
     Reply true 1 (BroadcastReport 2 1)].
Proof. vm_compute. reflexivity. Qed.

(** ** The job store *)

Lemma existsb_filter_negb {A} (p : A -> bool) l :
  existsb p (filter (fun x => negb (p x)) l) = false.
Proof.
  induction l as [|x l IH]; simpl; [reflexivity|].
  destruct (p x) eqn:E; simpl; [exact IH | rewrite E, IH; reflexivity].
Qed.

Lemma filter_negb_none {A} (p : A -> bool) l :
  existsb p l = false -> filter (fun x => negb (p x)) l = l.
Proof.
  induction l as [|x l IH]; simpl; [reflexivity|].
  intros H. apply orb_false_elim in H as [Hx Hl].
  rewrite Hx. simpl. rewrite (IH Hl). reflexivity.
Qed.

Lemma filter_none {A} (p : A -> bool) l :
  existsb p l = false -> filter p l = [].
Proof.
  induction l as [|x l IH]; simpl; [reflexivity|].
  intros H. apply orb_false_elim in H as [Hx Hl].
  rewrite Hx. exact (IH Hl).
Qed.

(** The store after [schedule], whatever the transport does to the answer:
    the expression is written to the task row and the job under the task's
    id is dropped; the new job is added only past the field count and
    [CronTrigger]. *)
Lemma schedule_effect env m task_id cron_expr w :
  let w' := snd (schedule env m task_id cron_expr w) in
  let others :=
    filter (fun j => negb (String.eqb (job_id j) (job_id_of task_id)))
           (jobs w) in
  let fields := PyStr.split cron_expr in
  tasks w' = tasks (update_scheduled_cron cron_expr task_id w)
  /\ jobs w'
     = if (List.length fields =? 5)%nat && cron_fields_valid env fields
       then (others ++ [mkJob (job_id_of task_id) fields task_id])%list
       else others.
Proof.
  unfold schedule, bind, modify, try_except, remove_job, CronTrigger,
    add_job, reply, transport, ret, raise.
  cbn [jobs update_scheduled_cron set_tasks set_jobs job_id].
  destruct (existsb _ (jobs w)) eqn:Ex.
  - destruct (List.length (PyStr.split cron_expr) =? 5)%nat;
      cbn [negb andb].
    + destruct (cron_fields_valid env (PyStr.split cron_expr)).
      * cbn [jobs set_jobs]. rewrite existsb_filter_negb.
        split_cases; split; reflexivity.
      * split; reflexivity.
    + split_cases; split; reflexivity.
  - rewrite (filter_negb_none _ _ Ex).
    destruct (List.length (PyStr.split cron_expr) =? 5)%nat;
      cbn [negb andb].
    + destruct (cron_fields_valid env (PyStr.split cron_expr)).
      * cbn [jobs set_jobs update_scheduled_cron set_tasks]. rewrite Ex.
        split_cases; split; reflexivity.
      * split; reflexivity.
    + split_cases; split; reflexivity.
Qed.

Lemma NoDup_map_filter {A B} (f : A -> B) (p : A -> bool) l :
  NoDup (map f l) -> NoDup (map f (filter p l)).
Proof.
  induction l as [|x l IH]; simpl; intros H; [constructor|].
  inversion H as [|? ? Hx Hl]; subst.
  destruct (p x); simpl; [|auto].
  constructor; [|auto].
  intros Hin. apply Hx. apply in_map_iff in Hin as (y & E & Hy).
  apply filter_In in Hy as [Hy _]. apply in_map_iff. eauto.
Qed.

Lemma NoDup_snoc {A} (l : list A) x :
  NoDup l -> ~ In x l -> NoDup (l ++ [x]).
Proof.
  induction l as [|y l IH]; simpl; intros Hl Hx.
  - constructor; [intros [] | constructor].
  - inversion Hl as [|? ? Hy Hl']; subst. constructor.
    + intros Hin. apply in_app_or in Hin as [Hin | [-> | []]]; auto.
    + apply IH; auto.
Qed.

Lemma frame_keeps_job_ids_unique : frame keeps_job_ids_unique.
Proof.
  unfold keeps_job_ids_unique, job_ids_unique.
  constructor; intros; auto.
Qed.

Lemma keeps_jobs_unique w w' : jobs w' = jobs w -> keeps_job_ids_unique w w'.
Proof.
  unfold keeps_job_ids_unique, job_ids_unique. intros ->. auto.
Qed.

Lemma jobs_insert_or_ignore row w :
  jobs (insert_or_ignore_student row w) = jobs w.
Proof. unfold insert_or_ignore_student. destruct (existsb _ _); reflexivity. Qed.

Lemma remove_job_unique jid : preserves keeps_job_ids_unique (remove_job jid).
Proof.
  intros w. unfold remove_job, keeps_job_ids_unique, job_ids_unique.
  destruct (existsb _ _); simpl; [|auto].
  apply NoDup_map_filter.
Qed.

Lemma add_job_unique j : preserves keeps_job_ids_unique (add_job j).
Proof.
  intros w. unfold add_job, keeps_job_ids_unique, job_ids_unique.
  destruct (existsb _ _) eqn:Ex; simpl; [auto|].
  intros Hn. rewrite map_app. simpl. apply NoDup_snoc; [exact Hn|].
  intros Hin. apply in_map_iff in Hin as (j' & E & Hj').
  assert (Ht : existsb (fun j' => String.eqb (job_id j') (job_id j)) (jobs w)
               = true).
  { apply existsb_exists. exists j'. split; [exact Hj'|].
    rewrite E. apply String.eqb_refl. }
  congruence.
Qed.

(** Every update keeps the job ids apart. *)
Lemma step_keeps_job_ids_unique env u w :
  keeps_job_ids_unique w (step env u w).
Proof.
  pose proof frame_keeps_job_ids_unique as HR.
  destruct u as [m|m|m|m|m|m|m|jid]; unfold step, handle.
  - apply (cmd_start_preserves env _ HR). intros row w'.
    apply keeps_jobs_unique, jobs_insert_or_ignore.
  - apply (cmd_set_teacher_preserves env _ HR). intros l w'.
    apply keeps_jobs_unique. reflexivity.
  - apply (handle_file_frame env _ HR).
    + intros p w'. apply keeps_jobs_unique. reflexivity.
    + intros t w'. apply keeps_jobs_unique. reflexivity.
    + intros _ _ n path ft stamp _ _ _ w'. apply keeps_jobs_unique.
      reflexivity.
  - apply (cmd_send_task_preserves env _ HR).
  - apply (cmd_schedule_task_preserves env _ HR).
    + intros c t w'. apply keeps_jobs_unique. reflexivity.
    + apply remove_job_unique.
    + apply add_job_unique.
  - apply (cmd_resend_unsubmitted_preserves env _ HR).
  - apply (cmd_stats_preserves env _ HR).
  - apply (fire_preserves env _ HR).
Qed.

Lemma reachable_job_ids_unique env w : reachable env w -> job_ids_unique w.
Proof.
  induction 1 as [|u w Hr IH].
  - constructor.
  - apply (step_keeps_job_ids_unique env u w IH).
Qed.

Lemma unique_ids_one_trigger w :
  job_ids_unique w ->
  forall task_id, (List.length (live_triggers task_id w) <= 1)%nat.
Proof.
  unfold job_ids_unique, live_triggers. intros Hn task_id.
  induction (jobs w) as [|j l IH]; simpl; [lia|].
  inversion Hn as [|? ? Hj Hl]; subst.
  destruct (String.eqb (job_id j) (job_id_of task_id)) eqn:E; [|auto].
  apply String.eqb_eq in E.
  rewrite filter_none; [simpl; lia|].
  apply not_true_is_false. intros Hex.
  apply existsb_exists in Hex as (j' & Hj' & E').
  apply String.eqb_eq in E'. apply Hj. apply in_map_iff.
  exists j'. split; [congruence | exact Hj'].
Qed.

Lemma schedule_valid_jobs env m task_id cron_expr w :
  valid_cron env cron_expr ->
  jobs (snd (schedule env m task_id cron_expr w))
  = (filter (fun j => negb (String.eqb (job_id j) (job_id_of task_id)))
            (jobs w)
     ++ [mkJob (job_id_of task_id) (PyStr.split cron_expr) task_id])%list.
Proof.
  intros [H5 Hv].
  destruct (schedule_effect env m task_id cron_expr w) as [_ Hj].
  rewrite Hj, H5, Hv. reflexivity.
Qed.

Lemma schedule_valid_live env m task_id cron_expr w :
  valid_cron env cron_expr ->
  live_triggers task_id (snd (schedule env m task_id cron_expr w))
  = [mkJob (job_id_of task_id) (PyStr.split cron_expr) task_id].
Proof.
  intros Hv. unfold live_triggers.
  rewrite (schedule_valid_jobs env m task_id cron_expr w Hv).
  rewrite filter_app.
  rewrite filter_none.
  - simpl. rewrite String.eqb_refl. reflexivity.
  - apply (existsb_filter_negb
             (fun j => String.eqb (job_id j) (job_id_of task_id))).
Qed.

Lemma schedule_keeps_job_ids_unique env m task_id cron_expr :
  preserves keeps_job_ids_unique (schedule env m task_id cron_expr).
Proof.
  apply (schedule_preserves env _ frame_keeps_job_ids_unique).
  - intros c t w. apply keeps_jobs_unique. reflexivity.
  - apply remove_job_unique.
  - apply add_job_unique.
Qed.

(** C8. From any reachable world, two [schedule] calls for one task with
    valid expressions leave one live trigger for it after the first call,
    carrying the first expression, and one after the second, carrying the
    second; and before, between and after the calls no task id has more than
    one live trigger. *)
Theorem reschedule_leaves_one_trigger env m1 m2 task_id e1 e2 w :
  reachable env w ->
  valid_cron env e1 -> valid_cron env e2 ->
  let w1 := snd (schedule env m1 task_id e1 w) in
  let w2 := snd (schedule env m2 task_id e2 w1) in
  live_triggers task_id w1
  = [mkJob (job_id_of task_id) (PyStr.split e1) task_id]
  /\ live_triggers task_id w2
     = [mkJob (job_id_of task_id) (PyStr.split e2) task_id]
  /\ forall t,
       (List.length (live_triggers t w) <= 1)%nat
       /\ (List.length (live_triggers t w1) <= 1)%nat
       /\ (List.length (live_triggers t w2) <= 1)%nat.
Proof.
  intros Hr H1 H2 w1 w2.
  split; [apply schedule_valid_live; exact H1|].
  split; [apply schedule_valid_live; exact H2|].
  pose proof (reachable_job_ids_unique env w Hr) as U.
  pose proof (schedule_keeps_job_ids_unique env m1 task_id e1 w U) as U1.
  pose proof (schedule_keeps_job_ids_unique env m2 task_id e2 w1 U1) as U2.
  intros t. repeat split; apply unique_ids_one_trigger; assumption.
Qed.

Lemma reachable_run env us w : reachable env w -> reachable env (run env us w).
Proof.
  revert w. induction us as [|u us IH]; intros w Hr; simpl; [exact Hr|].
  apply IH. apply reachable_step. exact Hr.
Qed.

Lemma reschedule_leaves_one_trigger_witness :
  valid_cron env_up "0 18 * * *" /\ valid_cron env_up "30 7 * * 1"
  /\ let w1 := snd (schedule env_up (says ana "") 1 "0 18 * * *" w_task) in
     let w2 := snd (schedule env_up (says ana "") 1 "30 7 * * 1" w1) in
     live_triggers 1 w1
     = [mkJob (job_id_of 1) (PyStr.split "0 18 * * *") 1]
     /\ live_triggers 1 w2
        = [mkJob (job_id_of 1) (PyStr.split "30 7 * * 1") 1]
     /\ forall t,
          (List.length (live_triggers t w_task) <= 1)%nat
          /\ (List.length (live_triggers t w1) <= 1)%nat
          /\ (List.length (live_triggers t w2) <= 1)%nat.
Proof.
  assert (V1 : valid_cron env_up "0 18 * * *") by (split; reflexivity).
  assert (V2 : valid_cron env_up "30 7 * * 1") by (split; reflexivity).
  split; [exact V1|]. split; [exact V2|].
  exact (reschedule_leaves_one_trigger env_up (says ana "") (says ana "") 1
           "0 18 * * *" "30 7 * * 1" w_task
           (reachable_run env_up _ initial (reachable_initial env_up))
           V1 V2).
Defined.

(** The same through the dispatcher: two [/schedule_task] commands. *)
Example two_schedule_commands :
  jobs (run env_up
          [ScheduleTask (says ana "/schedule_task 1 0 18 * * *");
           ScheduleTask (says ana "/schedule_task 1 30 7 * * 1")] w_task)
  = [mkJob "send_task_1" ["30"; "7"; "*"; "*"; "1"] 1].
Proof. vm_compute. reflexivity. Qed.

(** ** Scheduling with a bad expression or for no task *)

(** With a field count other than five, [schedule] has written the
    expression and dropped the job before it answers. *)
Lemma schedule_wrong_field_count env m task_id cron_expr w :
  List.length (PyStr.split cron_expr) <> 5%nat ->
  let w' := snd (schedule env m task_id cron_expr w) in
  tasks w' = tasks (update_scheduled_cron cron_expr task_id w)
  /\ live_triggers task_id w' = [].
Proof.
  intros H5 w'.
  destruct (schedule_effect env m task_id cron_expr w) as [Ht Hj].
  split; [exact Ht|].
  unfold live_triggers. fold w' in Hj. rewrite Hj.
  apply Nat.eqb_neq in H5. rewrite H5. cbn [andb].
  apply filter_none.
  apply (existsb_filter_negb
           (fun j => String.eqb (job_id j) (job_id_of task_id))).
Qed.

(** C2 on the code: task 1 is scheduled daily at 18:00; the teacher then
    sends an expression of four fields. The answer is the five-field
    message, and by then the four-field expression is on the task row and
    the trigger of task 1 is gone. *)
Lemma invalid_cron_clobbers_schedule :
  let w' :=
    step env_up (ScheduleTask (says ana "/schedule_task 1 0 18 * *"))
         w_scheduled in
  List.length (PyStr.split "0 18 * *") = 4%nat
  /\ map t_scheduled_cron (tasks w_scheduled) = [Some "0 18 * * *"]
  /\ live_triggers 1 w_scheduled
     = [mkJob "send_task_1" ["0"; "18"; "*"; "*"; "*"] 1]
  /\ log_suffix w_scheduled w' = [Reply true 1 CronNeedsFiveFields]
  /\ map t_scheduled_cron (tasks w') = [Some "0 18 * *"]
  /\ live_triggers 1 w' = [].
Proof. vm_compute. repeat split. Qed.

(** C4 on the code: no task has id 42; the teacher schedules it. The answer
    is the confirmation, and a trigger for task 42 is installed. *)
Lemma schedule_of_missing_task_is_accepted :
  let w' :=
    step env_up (ScheduleTask (says ana "/schedule_task 42 0 18 * * *"))
         w_task in
  fetch_task 42 w_task = None
  /\ log_suffix w_task w' = [Reply true 1 (Scheduled 42 "0 18 * * *")]
  /\ tasks w' = tasks w_task
  /\ live_triggers 42 w'
     = [mkJob "send_task_42" ["0"; "18"; "*"; "*"; "*"] 42].
Proof. vm_compute. repeat split. Qed.

(** The sibling path: [/send_task] for the same id answers that there is no
    such task. *)
Example send_of_missing_task_is_refused :
  log_suffix w_task
    (step env_up (SendTask (says ana "/send_task 42 all")) w_task)
  = [Reply true 1 TaskNotFound].
Proof. vm_compute. reflexivity. Qed.

(** ** Firing a trigger *)





Lemma find_app_none {A} (p : A -> bool) l l' :
  existsb p l = false -> find p (l ++ l') = find p l'.
Proof.
  induction l as [|x l IH]; simpl; [reflexivity|].
  intros H. apply orb_false_elim in H as [Hx Hl]. rewrite Hx. exact (IH Hl).
Qed.


(** A sender who is not the teacher is on the roster once [/start] has been
    handled, whatever the transport does to the answer. *)
Lemma cmd_start_registers env m w :
  is_teacher_of env w (from_user m) = false ->
  In (u_id (from_user m)) (map chat_id (students (step env (Start m) w))).
Proof.
  intros Ht. unfold step, handle, cmd_start.
  unfold bind at 1. unfold get at 1. cbv beta iota zeta. rewrite Ht.
  unfold bind, utcnow, modify, reply, transport.
  cbn [net_calls tick_clock clock_reads].
  assert (H : forall row w0,
             chat_id row = u_id (from_user m) ->
             In (u_id (from_user m))
                (map chat_id (students (insert_or_ignore_student row w0)))).
  { intros row w0 E. unfold insert_or_ignore_student.
    destruct (existsb _ _) eqn:Ex.
    - apply existsb_exists in Ex as (s & Hs & Es).
      apply Z.eqb_eq in Es. apply in_map_iff. exists s.
      split; [congruence | exact Hs].
    - cbn [students set_students]. rewrite map_app. apply in_or_app.
      right. left. exact E. }
  split_cases; cbn [snd students emit tick_net]; apply H; reflexivity.
Qed.





(** Task 1 is scheduled while the roster is empty; Bo registers; the
    trigger fires; Cy registers. The firing reached Bo and nobody else. *)
Example late_registration_is_honoured :
  let w2 := step env_up (Start (says bo "/start")) w_scheduled in
  let w3 := step env_up (Fire "send_task_1") w2 in
  let w4 := step env_up (Start (says cy "/start")) w3 in
  students w_scheduled = []
  /\ log_suffix w2 w3
     = [SendMessage true 5 (Announcement 1 "Lesson 1" "Repeat");
        SendDocument true 5 "data/files/0_file_1.pdf"]
  /\ map chat_id (students w4) = [5; 6]
  /\ jobs w4 = jobs w_scheduled.
Proof. vm_compute. repeat split. Qed.

(** A trigger left for a task that is not in the store fires, logs and
    stays. *)
Example firing_without_task :
  let w1 :=
    step env_up (ScheduleTask (says ana "/schedule_task 42 0 18 * * *"))
         w_roster in
  let w2 := step env_up (Fire "send_task_42") w1 in
  log_suffix w1 w2 = [LogScheduledTaskMissing 42] /\ jobs w2 = jobs w1.
Proof. vm_compute. repeat split. Qed.

(** ** Registration of the teacher *)

Lemma str_not_empty n : PyStr.is_empty (PyStr.str n) = false.
Proof.
  unfold PyStr.str. destruct (Z.to_int n) as [d|d]; simpl;
    [destruct d; reflexivity | reflexivity].
Qed.

(** [/start] from the sender whose identifier is the configured one: the
    handler answers and does nothing else. *)
Lemma cmd_start_of_teacher env w m :
  teacher_id_of env w = Some (PyStr.str (u_id (from_user m))) ->
  step env (Start m) w
  = emit (Reply (net env (net_calls w)) (chat m) YouAreTeacher) (tick_net w).
Proof.
  intros Ht. unfold step, handle, cmd_start.
  unfold bind at 1. unfold get at 1. cbv beta iota zeta.
  unfold is_teacher_of. rewrite Ht, str_not_empty, String.eqb_refl.
  cbn [negb andb]. unfold reply, transport.
  destruct (net env (net_calls w)); reflexivity.
Qed.

(** When the configured teacher identifier is the decimal text of the
    identifier of the sender of [/start], the students table is left as it
    was, and so are the other tables and the job store: the handler only
    answers that the sender is the teacher. *)
Theorem teacher_start_leaves_roster env w m :
  teacher_id_of env w = Some (PyStr.str (u_id (from_user m))) ->
  let w' := step env (Start m) w in
  students w' = students w
  /\ tasks w' = tasks w /\ submissions w' = submissions w
  /\ settings w' = settings w /\ jobs w' = jobs w
  /\ log_suffix w w'
     = [Reply (net env (net_calls w)) (chat m) YouAreTeacher].
Proof.
  intros Ht w'. unfold w'. rewrite (cmd_start_of_teacher env w m Ht).
  repeat split. apply log_suffix_app. reflexivity.
Qed.

Lemma teacher_start_leaves_roster_witness :
  teacher_id_of env_up w_roster
  = Some (PyStr.str (u_id (from_user (says ana "/start"))))
  /\ let w' := step env_up (Start (says ana "/start")) w_roster in
     students w' = students w_roster
     /\ tasks w' = tasks w_roster /\ submissions w' = submissions w_roster
     /\ settings w' = settings w_roster /\ jobs w' = jobs w_roster
     /\ log_suffix w_roster w'
        = [Reply (net env_up (net_calls w_roster))
                 (chat (says ana "/start")) YouAreTeacher].
Proof.
  assert (T : teacher_id_of env_up w_roster
              = Some (PyStr.str (u_id (from_user (says ana "/start")))))
    by (vm_compute; reflexivity).
  split; [exact T|].
  exact (teacher_start_leaves_roster env_up w_roster (says ana "/start") T).
Defined.

(** C10 on the code: the process is started with [TEACHER_CHAT_ID=+1]. The
    gate of the teacher's commands reads the identifier as a number and
    admits the sender whose id is 1; [cmd_start] compares the identifier as
    text, takes the same sender for a student and adds a row for them; and
    [/stats], which the gate lets that sender run, lists them among the
    recipients. *)
Theorem teacher_registered_under_signed_id :
  let w1 := step env_plus (Start (says ana "/start")) initial in
  refusal env_plus initial ana = None
  /\ is_teacher_of env_plus initial ana = false
  /\ students initial = []
  /\ map chat_id (students w1) = [1]
  /\ log_suffix initial w1 = [Reply true 1 RegisteredAsStudent]
  /\ log_suffix w1 (step env_plus (Stats (says ana "/stats 1")) w1)
     = [Reply true 1 (StatsReport 1 [] [(1, "Ana")])].
Proof. vm_compute. repeat split. Qed.

(** A sender who registered before running [/set_teacher] stays on the
    roster: no handler removes a row of [students]. *)
Example registered_then_teacher :
  map chat_id
      (students (run env_up [Start (says ana "/start");
                             SetTeacher (says ana "/set_teacher")] initial))
  = [1].
Proof. vm_compute. reflexivity. Qed.

(** Whoever has just run [/set_teacher], with no [TEACHER_CHAT_ID] in the
    environment, is not registered by [/start]. *)
Lemma set_teacher_then_start env w m m' :
  truthy (TEACHER_CHAT_ID env) = false ->
  from_user m' = from_user m ->
  students (run env [SetTeacher m; Start m'] w) = students w.
Proof.
  intros Henv Hu. cbn [run fold_left].
  set (w1 := step env (SetTeacher m) w).
  assert (Hs : students w1 = students w).
  { apply (cmd_set_teacher_preserves env _ frame_keeps_students).
    reflexivity. }
  assert (Ht : teacher_id_of env w1 = Some (PyStr.str (u_id (from_user m')))).
  { rewrite Hu. unfold teacher_id_of.
    assert (Hg : get_setting "teacher_chat_id" w1
                 = Some (PyStr.str (u_id (from_user m)))).
    { unfold w1, step, handle, cmd_set_teacher, set_setting, bind, modify,
        reply, transport, get_setting.
      split_cases; cbn [snd settings set_settings emit tick_net];
        (rewrite find_app_none;
         [reflexivity
         | apply (existsb_filter_negb
                    (fun kv : string * string =>
                       String.eqb (fst kv) "teacher_chat_id"))]). }
    rewrite Hg. unfold py_or, truthy in *.
    destruct (TEACHER_CHAT_ID env) as [s|]; [|reflexivity].
    destruct (PyStr.is_empty s); [reflexivity | discriminate]. }
  rewrite (cmd_start_of_teacher env w1 m' Ht). exact Hs.
Qed.

(** * Further properties of the code *)

(** ** [int] undoes [str] *)

Lemma parse_digits_step c s acc b :
  PyStr.is_digit c = true ->
  PyStr.parse_digits acc b (String c s)
  = PyStr.parse_digits (10 * acc + PyStr.digit_val c) true s.
Proof. intros H. cbn [PyStr.parse_digits]. rewrite H. reflexivity. Qed.

Lemma all_digits_string_of_uint d :
  PyStr.all_digits (NilEmpty.string_of_uint d) = true.
Proof.
  induction d; cbn [NilEmpty.string_of_uint PyStr.all_digits];
    try reflexivity; rewrite IHd; reflexivity.
Qed.

Ltac digit_case IH :=
  cbn [NilEmpty.string_of_uint Pos.of_uint_acc Pos.of_uint];
  rewrite parse_digits_step by reflexivity;
  match goal with
  | |- context [PyStr.digit_val ?c] =>
      let v := eval vm_compute in (PyStr.digit_val c) in
      change (PyStr.digit_val c) with v
  end.

Lemma parse_digits_of_uint_acc d :
  forall p,
    PyStr.parse_digits (Z.pos p) true (NilEmpty.string_of_uint d)
    = Some (Z.pos (Pos.of_uint_acc d p)).
Proof.
  induction d; intros p; try reflexivity;
    digit_case IHd;
    match goal with
    | |- PyStr.parse_digits ?a _ _ = Some (Z.pos (Pos.of_uint_acc _ ?q)) =>
        replace a with (Z.pos q) by lia
    end; apply IHd.
Qed.

Lemma parse_digits_of_uint d :
  forall b, d <> Decimal.Nil \/ b = true ->
    PyStr.parse_digits 0 b (NilEmpty.string_of_uint d)
    = Some (Z.of_uint d).
Proof.
  unfold Z.of_uint.
  induction d; intros b Hb.
  - destruct Hb as [Hb | ->]; [congruence | reflexivity].
  - digit_case IHd. apply IHd. right. reflexivity.
  - digit_case IHd. apply (parse_digits_of_uint_acc d 1).
  - digit_case IHd. apply (parse_digits_of_uint_acc d 2).
  - digit_case IHd. apply (parse_digits_of_uint_acc d 3).
  - digit_case IHd. apply (parse_digits_of_uint_acc d 4).
  - digit_case IHd. apply (parse_digits_of_uint_acc d 5).
  - digit_case IHd. apply (parse_digits_of_uint_acc d 6).
  - digit_case IHd. apply (parse_digits_of_uint_acc d 7).
  - digit_case IHd. apply (parse_digits_of_uint_acc d 8).
  - digit_case IHd. apply (parse_digits_of_uint_acc d 9).
Qed.

(** On a non-empty string of digits [int] is the digit parser: nothing is
    stripped and there is no sign. *)
Lemma int_all_digits s :
  PyStr.all_digits s = true -> s <> EmptyString ->
  PyStr.int s = PyStr.parse_digits 0 false s.
Proof.
  intros H Hne. apply int_of_isdigit_token.
  unfold PyStr.isdigit. rewrite (all_digits_isdigit s H).
  destruct s; [congruence | reflexivity].
Qed.

Lemma int_minus_digits s :
  PyStr.all_digits s = true ->
  PyStr.int (String "-"%char s)
  = option_map Z.opp (PyStr.parse_digits 0 false s).
Proof.
  intros Hs.
  assert (Hstrip : PyStr.strip_by PyStr.int_space (String "-"%char s)
                   = String "-"%char s).
  { unfold PyStr.strip_by. simpl.
    rewrite (all_digits_rstrip s Hs). reflexivity. }
  unfold PyStr.int. rewrite Hstrip. reflexivity.
Qed.

Lemma nilzero_digits d :
  PyStr.all_digits (NilZero.string_of_uint d) = true
  /\ NilZero.string_of_uint d <> EmptyString
  /\ PyStr.parse_digits 0 false (NilZero.string_of_uint d)
     = Some (Z.of_uint d).
Proof.
  destruct d;
    [repeat split; discriminate
    | change (NilZero.string_of_uint ?x) with (NilEmpty.string_of_uint x);
      (split; [apply all_digits_string_of_uint|]);
      (split; [discriminate|]);
      apply parse_digits_of_uint; left; discriminate ..].
Qed.

(** [int(str(n))] is [n]. *)
Lemma int_str n : PyStr.int (PyStr.str n) = Some n.
Proof.
  unfold PyStr.str. pose proof (DecimalZ.of_to n) as E.
  destruct (Z.to_int n) as [d|d]; cbn [NilZero.string_of_int Z.of_int] in *;
    destruct (nilzero_digits d) as (Ha & Hne & Hp).
  - rewrite (int_all_digits _ Ha Hne), Hp, E. reflexivity.
  - rewrite (int_minus_digits _ Ha), Hp. cbn [option_map]. rewrite E.
    reflexivity.
Qed.

Lemma str_inj a b : PyStr.str a = PyStr.str b -> a = b.
Proof.
  intros E. pose proof (int_str a) as Ha. rewrite E, int_str in Ha.
  congruence.
Qed.

Lemma str_digits n :
  (0 <= n /\ PyStr.all_digits (PyStr.str n) = true
   /\ PyStr.str n <> EmptyString)
  \/ (n < 0 /\ exists ds, PyStr.str n = String "-"%char ds
                          /\ PyStr.all_digits ds = true
                          /\ ds <> EmptyString).
Proof.
  unfold PyStr.str.
  destruct n as [|p|p]; cbn [Z.to_int NilZero.string_of_int].
  - left. split; [lia|]. split; [reflexivity | discriminate].
  - left. split; [lia|].
    destruct (nilzero_digits (Pos.to_uint p)) as (Ha & Hne & _). auto.
  - right. split; [lia|]. eexists. split; [reflexivity|].
    destruct (nilzero_digits (Pos.to_uint p)) as (Ha & Hne & _). auto.
Qed.

(** The shape of [str(n)]: digits, after a minus sign when [n] is
    negative. *)
Lemma str_shape n :
  (0 <= n /\ PyStr.isdigit (PyStr.str n) = true)
  \/ (n < 0 /\ exists ds, PyStr.str n = String "-"%char ds
                          /\ PyStr.isdigit ds = true).
Proof.
  unfold PyStr.str, PyStr.isdigit.
  destruct n as [|p|p]; cbn [Z.to_int NilZero.string_of_int].
  - left. split; [lia | reflexivity].
  - left. split; [lia|].
    destruct (nilzero_digits (Pos.to_uint p)) as (Ha & Hne & _).
    rewrite (all_digits_isdigit _ Ha).
    destruct (NilZero.string_of_uint _); [congruence|reflexivity].
  - right. split; [lia|]. eexists. split; [reflexivity|].
    destruct (nilzero_digits (Pos.to_uint p)) as (Ha & Hne & _).
    rewrite (all_digits_isdigit _ Ha).
    destruct (NilZero.string_of_uint _); [congruence|reflexivity].
Qed.

(** ** Settings *)

Lemma find_filter_implied {A} (p q : A -> bool) l :
  (forall x, p x = true -> q x = true) ->
  find p (filter q l) = find p l.
Proof.
  intros H. induction l as [|x l IH]; simpl; [reflexivity|].
  destruct (q x) eqn:Eq; simpl.
  - destruct (p x); [reflexivity | exact IH].
  - destruct (p x) eqn:Ep; [|exact IH].
    rewrite (H x Ep) in Eq. discriminate.
Qed.

Lemma find_app_last {A} (p : A -> bool) l x :
  p x = false -> find p (l ++ [x]) = find p l.
Proof.
  intros H. induction l as [|y l IH]; simpl.
  - rewrite H. reflexivity.
  - destruct (p y); [reflexivity | exact IH].
Qed.

(** X3. [set_setting] then [get_setting] on the same key gives the value
    written; every other key reads as before; and a table with one row per
    key still has one row per key. *)
Theorem setting_round_trip key value w :
  let w' := snd (set_setting key value w) in
  get_setting key w' = Some value
  /\ (forall k, k <> key -> get_setting k w' = get_setting k w)
  /\ (settings_unique w -> settings_unique w').
Proof.
  unfold set_setting, modify, get_setting, settings_unique.
  cbn [snd settings set_settings].
  split; [|split].
  - rewrite find_app_none; [simpl; rewrite String.eqb_refl; reflexivity|].
    apply (existsb_filter_negb
             (fun kv : string * string => String.eqb (fst kv) key)).
  - intros k Hk. f_equal. rewrite find_app_last.
    + apply find_filter_implied. intros [k0 v0] E. simpl in *.
      apply String.eqb_eq in E. subst k0.
      apply negb_true_iff. apply String.eqb_neq. exact Hk.
    + simpl. apply String.eqb_neq. congruence.
  - intros Hn. rewrite map_app. simpl. apply NoDup_snoc.
    + apply NoDup_map_filter. exact Hn.
    + intros Hin. apply in_map_iff in Hin as ([k0 v0] & E & Hin).
      apply filter_In in Hin as [_ Hneq]. simpl in *. subst k0.
      rewrite String.eqb_refl in Hneq. discriminate.
Qed.

(** ** The teacher gate *)

Lemma teacher_only_refusal env func m w :
  teacher_only env func m w
  = match refusal env w (from_user m) with
    | Some r => reply env m r w
    | None => func m w
    end.
Proof.
  unfold teacher_only, refusal.
  unfold bind at 1. unfold get at 1. cbv beta iota.
  destruct (teacher_id_of env w) as [tid|]; [|reflexivity].
  destruct (PyStr.int tid) as [n|]; [|reflexivity].
  destruct (negb (u_id (from_user m) =? n)); reflexivity.
Qed.

Lemma reply_world env m r w :
  snd (reply env m r w)
  = emit (Reply (net env (net_calls w)) (chat m) r) (tick_net w).
Proof.
  unfold reply, transport. destruct (net env (net_calls w)); reflexivity.
Qed.

(** X2. A command behind [teacher_only] from a sender the gate refuses does
    nothing but answer with the refusal: the tables, the job store and the
    files are as before, and nothing is sent to anyone else. *)
Theorem refused_command_only_answers env u m r w :
  privileged_message u = Some m ->
  refusal env w (from_user m) = Some r ->
  step env u w
  = emit (Reply (net env (net_calls w)) (chat m) r) (tick_net w).
Proof.
  intros Hu Hr. unfold step.
  destruct u; try discriminate Hu; injection Hu as ->;
    cbn [handle];
    unfold cmd_send_task, cmd_schedule_task, cmd_resend_unsubmitted,
      cmd_stats;
    rewrite teacher_only_refusal, Hr; apply reply_world.
Qed.

Lemma get_setting_after_set_teacher env m w :
  get_setting "teacher_chat_id" (step env (SetTeacher m) w)
  = Some (PyStr.str (u_id (from_user m))).
Proof.
  unfold step, handle, cmd_set_teacher, set_setting, bind, modify,
    reply, transport, get_setting.
  split_cases; cbn [snd settings set_settings emit tick_net];
    (rewrite find_app_none;
     [reflexivity
     | apply (existsb_filter_negb
                (fun kv : string * string =>
                   String.eqb (fst kv) "teacher_chat_id"))]).
Qed.

Lemma refusal_after_set_teacher env m w user :
  truthy (TEACHER_CHAT_ID env) = false ->
  refusal env (step env (SetTeacher m) w) user
  = if u_id user =? u_id (from_user m) then None else Some OnlyTeacher.
Proof.
  intros Henv. unfold refusal, teacher_id_of.
  rewrite get_setting_after_set_teacher.
  assert (E : py_or (TEACHER_CHAT_ID env)
                    (Some (PyStr.str (u_id (from_user m))))
              = Some (PyStr.str (u_id (from_user m)))).
  { unfold py_or, truthy in *.
    destruct (TEACHER_CHAT_ID env) as [s|]; [|reflexivity].
    destruct (PyStr.is_empty s); [reflexivity | discriminate]. }
  rewrite E, int_str.
  destruct (u_id user =? u_id (from_user m)); reflexivity.
Qed.

(** X1. With no [TEACHER_CHAT_ID] in the environment, once [/set_teacher]
    from a sender has been handled the gate runs the wrapped handler for
    that sender and answers every other sender that only the teacher can
    use the command, whoever was the teacher before. *)
Theorem set_teacher_admits_sender env m w func m' :
  truthy (TEACHER_CHAT_ID env) = false ->
  let w1 := step env (SetTeacher m) w in
  teacher_only env func m' w1
  = if u_id (from_user m') =? u_id (from_user m)
    then func m' w1
    else reply env m' OnlyTeacher w1.
Proof.
  intros Henv w1. rewrite teacher_only_refusal. unfold w1.
  rewrite (refusal_after_set_teacher env m w (from_user m') Henv).
  destruct (u_id (from_user m') =? u_id (from_user m)); reflexivity.
Qed.

Lemma set_teacher_admits_sender_witness :
  truthy (TEACHER_CHAT_ID env_up) = false
  /\ let w1 := step env_up (SetTeacher (says bo "/set_teacher")) w_roster in
     teacher_only env_up (cmd_stats_wrapped env_up) (says ana "/stats 1") w1
     = if u_id (from_user (says ana "/stats 1"))
          =? u_id (from_user (says bo "/set_teacher"))
       then cmd_stats_wrapped env_up (says ana "/stats 1") w1
       else reply env_up (says ana "/stats 1") OnlyTeacher w1.
Proof.
  split; [reflexivity|].
  exact (set_teacher_admits_sender env_up (says bo "/set_teacher") w_roster
           (cmd_stats_wrapped env_up) (says ana "/stats 1") eq_refl).
Defined.

Lemma refused_command_only_answers_witness :
  privileged_message (ScheduleTask (says bo "/schedule_task 1 0 18 * * *"))
  = Some (says bo "/schedule_task 1 0 18 * * *")
  /\ refusal env_up w_roster (from_user (says bo "/schedule_task 1 0 18 * * *"))
     = Some OnlyTeacher
  /\ step env_up (ScheduleTask (says bo "/schedule_task 1 0 18 * * *")) w_roster
     = emit (Reply (net env_up (net_calls w_roster))
                   (chat (says bo "/schedule_task 1 0 18 * * *")) OnlyTeacher)
            (tick_net w_roster).
Proof.
  assert (R : refusal env_up w_roster
                (from_user (says bo "/schedule_task 1 0 18 * * *"))
              = Some OnlyTeacher) by (vm_compute; reflexivity).
  split; [reflexivity|]. split; [exact R|].
  exact (refused_command_only_answers env_up
           (ScheduleTask (says bo "/schedule_task 1 0 18 * * *"))
           (says bo "/schedule_task 1 0 18 * * *") OnlyTeacher w_roster
           eq_refl R).
Defined.

(** ** The roster *)

Lemma frame_keeps_roster_unique : frame keeps_roster_unique.
Proof.
  unfold keeps_roster_unique, roster_unique. constructor; intros; auto.
Qed.

Lemma keeps_students_unique w w' :
  students w' = students w -> keeps_roster_unique w w'.
Proof. unfold keeps_roster_unique, roster_unique. intros ->. auto. Qed.

Lemma insert_or_ignore_unique row w :
  keeps_roster_unique w (insert_or_ignore_student row w).
Proof.
  unfold keeps_roster_unique, roster_unique, insert_or_ignore_student.
  destruct (existsb _ _) eqn:Ex; [auto|]. intros Hn.
  cbn [students set_students]. rewrite map_app. apply NoDup_snoc; [exact Hn|].
  intros Hin. apply in_map_iff in Hin as (s & E & Hs).
  assert (Ht : existsb (fun s => chat_id s =? chat_id row) (students w)
               = true).
  { apply existsb_exists. exists s. split; [exact Hs|].
    apply Z.eqb_eq. exact E. }
  congruence.
Qed.

Lemma step_keeps_roster_unique env u w :
  keeps_roster_unique w (step env u w).
Proof.
  pose proof frame_keeps_roster_unique as HR.
  destruct u as [m|m|m|m|m|m|m|jid]; unfold step, handle.
  - apply (cmd_start_preserves env _ HR). apply insert_or_ignore_unique.
  - apply (cmd_set_teacher_preserves env _ HR). intros l w'.
    apply keeps_students_unique. reflexivity.
  - apply (handle_file_frame env _ HR).
    + intros p w'. apply keeps_students_unique. reflexivity.
    + intros t w'. apply keeps_students_unique. reflexivity.
    + intros _ _ n path ft stamp _ _ _ w'. apply keeps_students_unique.
      reflexivity.
  - apply (cmd_send_task_preserves env _ HR).
  - apply (cmd_schedule_task_preserves env _ HR).
    + intros c t w'. apply keeps_students_unique. reflexivity.
    + intros jid w'. apply keeps_students_unique.
      apply (remove_job_keeps students jid). reflexivity.
    + intros j w'. apply keeps_students_unique.
      apply (add_job_keeps students j). reflexivity.
  - apply (cmd_resend_unsubmitted_preserves env _ HR).
  - apply (cmd_stats_preserves env _ HR).
  - apply (fire_preserves env _ HR).
Qed.

(** X4. In every world the handlers can reach, no two rows of [students]
    have the same [chat_id]. *)
Theorem reachable_roster_unique env w : reachable env w -> roster_unique w.
Proof.
  induction 1 as [|u w Hr IH].
  - constructor.
  - apply (step_keeps_roster_unique env u w IH).
Qed.

Lemma reachable_roster_unique_witness :
  reachable env_up w_roster /\ roster_unique w_roster.
Proof.
  assert (Hr : reachable env_up w_roster).
  { apply (reachable_run env_up _ w_task).
    apply (reachable_run env_up _ initial). apply reachable_initial. }
  split; [exact Hr|]. exact (reachable_roster_unique env_up w_roster Hr).
Defined.

(** What [/start] leaves in [students], whatever happens to the answer. *)
Lemma cmd_start_students env m w :
  students (step env (Start m) w)
  = if is_teacher_of env w (from_user m) then students w
    else students
           (insert_or_ignore_student
              (mkStudent (u_id (from_user m)) (full_name (from_user m))
                         (clock env (clock_reads w))) w).
Proof.
  unfold step, handle, cmd_start.
  unfold bind at 1. unfold get at 1. cbv beta iota zeta.
  destruct (is_teacher_of env w (from_user m)).
  - apply (preserves_transport _ frame_keeps_students).
  - unfold bind, utcnow, modify, reply, transport.
    cbn [net_calls tick_clock clock_reads].
    assert (H : forall row w0,
               students (insert_or_ignore_student row (tick_clock w0))
               = students (insert_or_ignore_student row w0)).
    { intros row w0. unfold insert_or_ignore_student.
      cbn [students tick_clock]. destruct (existsb _ _); reflexivity. }
    split_cases; cbn [snd students emit tick_net]; apply H.
Qed.

Lemma cmd_start_settings env m w :
  settings (step env (Start m) w) = settings w.
Proof.
  apply (cmd_start_preserves env _ frame_keeps_settings).
  intros row w'. unfold keeps, insert_or_ignore_student.
  destruct (existsb _ _); reflexivity.
Qed.

(** X5. Registration is idempotent: a second [/start] from the same sender
    leaves [students] as the first one left it. The name and the
    registration time of the row are those of the first [/start]. *)
Theorem start_twice_is_start_once env m m' w :
  u_id (from_user m') = u_id (from_user m) ->
  students (run env [Start m; Start m'] w) = students (step env (Start m) w).
Proof.
  intros Hu. cbn [run fold_left].
  set (w1 := step env (Start m) w).
  assert (Ht : is_teacher_of env w1 (from_user m')
               = is_teacher_of env w (from_user m)).
  { unfold is_teacher_of, teacher_id_of, get_setting.
    unfold w1. rewrite cmd_start_settings, Hu. reflexivity. }
  rewrite cmd_start_students, Ht.
  destruct (is_teacher_of env w (from_user m)) eqn:E; [reflexivity|].
  pose proof (cmd_start_registers env m w E) as Hin. fold w1 in Hin.
  unfold insert_or_ignore_student. cbn [chat_id].
  assert (Hex : existsb (fun s => chat_id s =? u_id (from_user m'))
                        (students w1) = true).
  { apply in_map_iff in Hin as (s & Es & Hs).
    apply existsb_exists. exists s. split; [exact Hs|].
    apply Z.eqb_eq. congruence. }
  rewrite Hex. reflexivity.
Qed.

Lemma start_twice_is_start_once_witness :
  u_id (from_user (says (mkUser 5 "Robert") "/start"))
  = u_id (from_user (says bo "/start"))
  /\ students (run env_up [Start (says bo "/start");
                           Start (says (mkUser 5 "Robert") "/start")] w_task)
     = students (step env_up (Start (says bo "/start")) w_task).
Proof.
  split; [reflexivity|].
  exact (start_twice_is_start_once env_up (says bo "/start")
           (says (mkUser 5 "Robert") "/start") w_task eq_refl).
Defined.

(** ** Tasks *)

(** [handle_file] along its four writes. *)
Lemma handle_file_preserves env R (HR : frame R) m :
  (forall f, preserves R (save_file env f)) ->
  (forall a b c d e, preserves R (insert_task a b c d e)) ->
  (forall n uid path ft stamp,
      preserves R (insert_submission n uid path ft stamp)) ->
  preserves R (handle_file env m).
Proof.
  intros Hs Ht Hi. unfold handle_file. frame_go HR; auto.
Qed.

Lemma next_rowid_above ids : forall x, In x ids -> x < next_rowid ids.
Proof.
  unfold next_rowid.
  induction ids as [|y ids IH]; cbn [fold_right In]; intros x Hx.
  - destruct Hx.
  - destruct Hx as [<- | Hx]; [lia|]. specialize (IH x Hx). lia.
Qed.

Lemma next_rowid_positive ids : 0 < next_rowid ids.
Proof.
  unfold next_rowid. induction ids as [|y ids IH]; cbn [fold_right]; lia.
Qed.

Lemma frame_keeps_task_ids_ok : frame keeps_task_ids_ok.
Proof.
  unfold keeps_task_ids_ok, task_ids_ok. constructor; intros; auto.
Qed.

Lemma keeps_tasks_ids_ok w w' :
  tasks w' = tasks w -> keeps_task_ids_ok w w'.
Proof. unfold keeps_task_ids_ok, task_ids_ok. intros ->. auto. Qed.

Lemma tasks_insert_or_ignore row w :
  tasks (insert_or_ignore_student row w) = tasks w.
Proof. unfold insert_or_ignore_student. destruct (existsb _ _); reflexivity. Qed.

Lemma insert_task_ids_ok a b c d e :
  preserves keeps_task_ids_ok (insert_task a b c d e).
Proof.
  intros w [Hn Hp]. unfold insert_task, bind, get, modify, ret.
  cbn [snd]. unfold task_ids_ok. cbn [tasks set_tasks].
  split.
  - rewrite map_app. apply NoDup_snoc; [exact Hn|]. cbn [map t_id].
    intros Hin. apply next_rowid_above in Hin. lia.
  - apply Forall_app. split; [exact Hp|].
    constructor; [|constructor]. cbn [t_id]. apply next_rowid_positive.
Qed.

Lemma update_scheduled_cron_ids c t w :
  map t_id (tasks (update_scheduled_cron c t w)) = map t_id (tasks w).
Proof.
  unfold update_scheduled_cron. cbn [tasks set_tasks]. rewrite map_map.
  apply map_ext. intros x. destruct (t_id x =? t); reflexivity.
Qed.

Lemma update_scheduled_cron_ids_ok c t w :
  keeps_task_ids_ok w (update_scheduled_cron c t w).
Proof.
  intros [Hn Hp]. split.
  - rewrite update_scheduled_cron_ids. exact Hn.
  - unfold update_scheduled_cron. cbn [tasks set_tasks].
    apply Forall_map. eapply Forall_impl; [|exact Hp].
    intros x Hx. destruct (t_id x =? t); exact Hx.
Qed.

Lemma step_keeps_task_ids_ok env u w : keeps_task_ids_ok w (step env u w).
Proof.
  pose proof frame_keeps_task_ids_ok as HR.
  destruct u as [m|m|m|m|m|m|m|jid]; unfold step, handle.
  - apply (cmd_start_preserves env _ HR). intros row w'.
    apply keeps_tasks_ids_ok, tasks_insert_or_ignore.
  - apply (cmd_set_teacher_preserves env _ HR). intros l w'.
    apply keeps_tasks_ids_ok. reflexivity.
  - apply (handle_file_preserves env _ HR).
    + intros f. apply (save_file_preserves env _ HR). intros p w'.
      apply keeps_tasks_ids_ok. reflexivity.
    + apply insert_task_ids_ok.
    + intros n uid path ft stamp.
      apply (insert_submission_preserves _ HR). intros _ w'.
      apply keeps_tasks_ids_ok. reflexivity.
  - apply (cmd_send_task_preserves env _ HR).
  - apply (cmd_schedule_task_preserves env _ HR).
    + apply update_scheduled_cron_ids_ok.
    + intros jid w'. apply keeps_tasks_ids_ok.
      apply (remove_job_keeps tasks jid). reflexivity.
    + intros j w'. apply keeps_tasks_ids_ok.
      apply (add_job_keeps tasks j). reflexivity.
  - apply (cmd_resend_unsubmitted_preserves env _ HR).
  - apply (cmd_stats_preserves env _ HR).
  - apply (fire_preserves env _ HR).
Qed.

Lemma reachable_task_ids_ok env w : reachable env w -> task_ids_ok w.
Proof.
  induction 1 as [|u w Hr IH].
  - split; constructor.
  - apply (step_keeps_task_ids_ok env u w IH).
Qed.

Lemma find_unique_id (l : list task) t :
  NoDup (map t_id l) -> In t l ->
  find (fun x => t_id x =? t_id t) l = Some t.
Proof.
  induction l as [|x l IH]; simpl; intros Hn Hin; [destruct Hin|].
  inversion Hn as [|? ? Hx Hl]; subst.
  destruct Hin as [-> | Hin].
  - rewrite Z.eqb_refl. reflexivity.
  - destruct (t_id x =? t_id t) eqn:E; [|auto].
    apply Z.eqb_eq in E. exfalso. apply Hx. rewrite E.
    apply in_map. exact Hin.
Qed.

(** X6. In every world the handlers can reach, task ids are positive and
    distinct, and the lookup by id that [/send_task], [/resend_unsubmitted]
    and the scheduled job make returns, for the id of any stored task, that
    very row. *)
Theorem reachable_tasks_fetchable env w t :
  reachable env w -> In t (tasks w) ->
  0 < t_id t /\ fetch_task (t_id t) w = Some t.
Proof.
  intros Hr Hin. destruct (reachable_task_ids_ok env w Hr) as [Hn Hp].
  split.
  - rewrite Forall_forall in Hp. apply Hp. exact Hin.
  - unfold fetch_task. apply find_unique_id; assumption.
Qed.

Lemma reachable_tasks_fetchable_witness :
  reachable env_up w_task
  /\ forall t, In t (tasks w_task) ->
               0 < t_id t /\ fetch_task (t_id t) w_task = Some t.
Proof.
  assert (Hr : reachable env_up w_task).
  { apply (reachable_run env_up _ initial). apply reachable_initial. }
  split; [exact Hr|].
  intros t Hin. exact (reachable_tasks_fetchable env_up w_task t Hr Hin).
Defined.

(** X7. A file from the teacher, saved with the transport up, adds one row
    to [tasks] and none to [submissions]: the row has a fresh id, one more
    than the largest id in the table, names the saved file and its kind, has
    no schedule, can be fetched by its id, and its id is the one in the
    answer. *)
Theorem upload_creates_task env m f ft w :
  is_teacher_of env w (from_user m) = true ->
  attachment m = Some (f, ft) ->
  net env (net_calls w) = true ->
  net env (S (net_calls w)) = true ->
  let w' := step env (File m) w in
  exists row,
    tasks w' = (tasks w ++ [row])%list
    /\ t_id row = next_rowid (map t_id (tasks w))
    /\ ~ In (t_id row) (map t_id (tasks w))
    /\ t_file_path row = local_path_of env f w
    /\ t_file_type row = ft
    /\ t_scheduled_cron row = None
    /\ In (t_file_path row) (files w')
    /\ submissions w' = submissions w
    /\ fetch_task (t_id row) w' = Some row
    /\ exists ok, In (Reply ok (chat m) (TaskCreated (t_id row))) (log w').
Proof.
  intros Ht Ha N1 N2 w'.
  destruct (save_file_ok env f w N1 N2)
    as (w1 & Hsave & _ & Htasks & Hsub & _ & _ & Hfiles & _ & _).
  assert (Hfresh : ~ In (next_rowid (map t_id (tasks w)))
                        (map t_id (tasks w))).
  { intros Hin. apply next_rowid_above in Hin. lia. }
  assert (Hfetch : forall row,
             t_id row = next_rowid (map t_id (tasks w)) ->
             find (fun t => t_id t =? t_id row) (tasks w ++ [row]) = Some row).
  { intros row E. rewrite find_app_none.
    - simpl. rewrite Z.eqb_refl. reflexivity.
    - apply not_true_is_false. intros Hex.
      apply existsb_exists in Hex as (t & Hin & Et).
      apply Z.eqb_eq in Et. apply Hfresh. rewrite <- E, <- Et.
      apply in_map. exact Hin. }
  assert (Hstep : exists td w2,
             w' = snd (bind (insert_task (fst td) (snd td)
                                         (local_path_of env f w) ft
                                         (clock env (clock_reads w2)))
                            (fun task_id => reply env m (TaskCreated task_id))
                            (tick_clock w2))
             /\ tasks w2 = tasks w1 /\ files w2 = files w1
             /\ submissions w2 = submissions w1).
  { subst w'. unfold step, handle, handle_file.
    unfold bind at 1. unfold get at 1. cbv beta iota zeta.
    fold (caption_of m). rewrite Ht, Ha.
    rewrite (bind_ok _ _ _ _ _ Hsave).
    destruct (PyStr.contains "|" (caption_of m));
      [destruct (split_once "|" (caption_of m)) as [a b] eqn:Esp
      |destruct (negb (PyStr.is_empty (caption_of m)))].
    - exists (PyStr.strip a, PyStr.strip b), w1. repeat split.
    - exists (caption_of m, ""), w1. repeat split.
    - exists ("Task " ++ clock env (clock_reads w1), ""), (tick_clock w1).
      repeat split. }
  destruct Hstep as (td & w2 & Hstep & Ht2 & Hf2 & Hs2).
  set (row := mkTask (next_rowid (map t_id (tasks w))) (fst td) (snd td)
                     (local_path_of env f w) ft (clock env (clock_reads w2))
                     None).
  assert (Hw : w' = snd (reply env m (TaskCreated (t_id row))
                               (set_tasks (tasks w ++ [row])
                                          (tick_clock w2)))).
  { rewrite Hstep. unfold insert_task.
    unfold bind at 1. unfold bind at 1. unfold get at 1. cbv beta iota.
    unfold bind at 1. unfold modify at 1. cbv beta iota.
    unfold ret. cbn [tasks tick_clock]. rewrite Ht2, Htasks. reflexivity. }
  rewrite reply_world in Hw.
  exists row. rewrite Hw.
  cbn [tasks files submissions log tick_clock set_tasks emit tick_net
       t_id t_file_path t_file_type t_scheduled_cron row].
  rewrite Hf2, Hs2, Hfiles, Hsub.
  split; [reflexivity|]. split; [reflexivity|]. split; [exact Hfresh|].
  split; [reflexivity|]. split; [reflexivity|]. split; [reflexivity|].
  split; [apply in_or_app; right; left; reflexivity|].
  split; [reflexivity|].
  split.
  - unfold fetch_task. cbn [tasks set_tasks emit tick_net].
    apply (Hfetch row). reflexivity.
  - eexists. apply in_or_app. right. left. reflexivity.
Qed.

Lemma upload_creates_task_witness :
  let m := sends ana (Some "Lesson 2 | Read") None in
  let w' := step env_up (File m) w_roster in
  exists row,
    tasks w' = (tasks w_roster ++ [row])%list
    /\ t_id row = next_rowid (map t_id (tasks w_roster))
    /\ ~ In (t_id row) (map t_id (tasks w_roster))
    /\ t_file_path row
       = local_path_of env_up (mkFileObj "F1" "documents/file_1.pdf") w_roster
    /\ t_file_type row = Document
    /\ t_scheduled_cron row = None
    /\ In (t_file_path row) (files w')
    /\ submissions w' = submissions w_roster
    /\ fetch_task (t_id row) w' = Some row
    /\ exists ok, In (Reply ok (chat m) (TaskCreated (t_id row))) (log w').
Proof.
  exact (upload_creates_task env_up (sends ana (Some "Lesson 2 | Read") None)
           (mkFileObj "F1" "documents/file_1.pdf") Document w_roster
           eq_refl eq_refl eq_refl eq_refl).
Defined.

(** ** Stored artifacts *)

Lemma frame_keeps_artifacts_present : frame keeps_artifacts_present.
Proof.
  unfold keeps_artifacts_present, artifacts_present.
  constructor; intros; auto.
Qed.

Lemma frame_keeps_artifacts_with p : frame (keeps_artifacts_with p).
Proof.
  unfold keeps_artifacts_with, artifacts_present.
  constructor; intros; auto.
Qed.

Lemma keeps_all_artifacts w w' :
  tasks w' = tasks w -> submissions w' = submissions w ->
  files w' = files w -> keeps_artifacts_present w w'.
Proof.
  unfold keeps_artifacts_present, artifacts_present.
  intros -> -> ->. auto.
Qed.

Lemma update_scheduled_cron_artifacts c t w :
  keeps_artifacts_present w (update_scheduled_cron c t w).
Proof.
  unfold keeps_artifacts_present, artifacts_present, update_scheduled_cron.
  cbn [tasks submissions files set_tasks]. intros [Ht Hs]. split; [|exact Hs].
  intros x Hx. apply in_map_iff in Hx as (y & E & Hy). subst x.
  destruct (t_id y =? t); cbn [t_file_path]; apply Ht; exact Hy.
Qed.

(** What [save_file] leaves behind, saved or not. *)
Lemma save_file_cases env f w :
  match save_file env f w with
  | (Ok p, w1) => files w1 = (files w ++ [p])%list
  | (Raise _, w1) =>
      files w1 = files w \/ exists p, files w1 = (files w ++ [p])%list
  end
  /\ tasks (snd (save_file env f w)) = tasks w
  /\ submissions (snd (save_file env f w)) = submissions w.
Proof.
  unfold save_file, bind, transport, utcnow, modify, ret.
  cbn [net_calls tick_clock emit tick_net clock_reads set_files].
  split_cases;
    (split;
     [first [reflexivity | left; reflexivity | right; eexists; reflexivity]
     | split; reflexivity]).
Qed.

Lemma handle_file_artifacts env m w :
  keeps_artifacts_present w (snd (handle_file env m w)).
Proof.
  unfold handle_file.
  unfold bind at 1. unfold get at 1. cbv beta iota zeta.
  destruct (attachment m) as [[f ft]|];
    [|apply (preserves_transport _ frame_keeps_artifacts_present)].
  unfold bind at 1.
  destruct (save_file_cases env f w) as (Hf & Ht & Hs).
  destruct (save_file env f w) as [[p|e] w1]; cbn [snd] in *.
  - intros [HAt HAs].
    assert (H1 : In p (files w1) /\ artifacts_present w1).
    { unfold artifacts_present. rewrite Hf, Ht, Hs.
      split; [apply in_or_app; right; left; reflexivity|].
      split.
      - intros t Hin. apply in_or_app. left. auto.
      - intros s Hin. apply in_or_app. left. auto. }
    match goal with
    | |- artifacts_present (snd (?K w1)) =>
        cut (preserves (keeps_artifacts_with p) K);
          [intros Hp; apply (Hp w1 H1)|]
    end.
    pose proof (frame_keeps_artifacts_with p) as HR.
    frame_go HR.
    + intros w2 [Hp [HBt HBs]]. unfold insert_task, bind, get, modify, ret.
      cbn [snd]. unfold artifacts_present.
      cbn [tasks submissions files set_tasks].
      split; [exact Hp|]. split; [|exact HBs].
      intros t Hin. apply in_app_or in Hin as [Hin | [<- | []]]; auto.
    + apply (insert_submission_preserves _ HR). intros _ w2 [Hp [HBt HBs]].
      unfold artifacts_present. cbn [tasks submissions files set_submissions].
      split; [exact Hp|]. split; [exact HBt|].
      intros s Hin. apply in_app_or in Hin as [Hin | [<- | []]]; auto.
  - intros [HAt HAs]. unfold artifacts_present. rewrite Ht, Hs.
    destruct Hf as [-> | [q ->]];
      (split; [intros t Hin | intros s Hin]);
      try (apply in_or_app; left); auto.
Qed.

Lemma step_keeps_artifacts_present env u w :
  keeps_artifacts_present w (step env u w).
Proof.
  pose proof frame_keeps_artifacts_present as HR.
  destruct u as [m|m|m|m|m|m|m|jid]; unfold step, handle.
  - apply (cmd_start_preserves env _ HR). intros row w'.
    unfold insert_or_ignore_student.
    destruct (existsb _ _); apply keeps_all_artifacts; reflexivity.
  - apply (cmd_set_teacher_preserves env _ HR). intros l w'.
    apply keeps_all_artifacts; reflexivity.
  - apply handle_file_artifacts.
  - apply (cmd_send_task_preserves env _ HR).
  - apply (cmd_schedule_task_preserves env _ HR).
    + apply update_scheduled_cron_artifacts.
    + intros jid w'.
      apply keeps_all_artifacts;
        [apply (remove_job_keeps tasks jid)
        |apply (remove_job_keeps submissions jid)
        |apply (remove_job_keeps files jid)]; reflexivity.
    + intros j w'.
      apply keeps_all_artifacts;
        [apply (add_job_keeps tasks j)
        |apply (add_job_keeps submissions j)
        |apply (add_job_keeps files j)]; reflexivity.
  - apply (cmd_resend_unsubmitted_preserves env _ HR).
  - apply (cmd_stats_preserves env _ HR).
  - apply (fire_preserves env _ HR).
Qed.

(** X8. In every world the handlers can reach, the file a task row names
    and the file a submission row names are in [FILES_DIR]: a row is written
    only after its file has been saved, and no handler removes a file. *)
Theorem reachable_artifacts_present env w :
  reachable env w -> artifacts_present w.
Proof.
  induction 1 as [|u w Hr IH].
  - split; intros ? [].
  - apply (step_keeps_artifacts_present env u w IH).
Qed.

Lemma reachable_artifacts_present_witness :
  reachable env_up w_orphan /\ artifacts_present w_orphan.
Proof.
  assert (Hr : reachable env_up w_orphan)
    by (apply reachable_step, reachable_initial).
  split; [exact Hr|]. exact (reachable_artifacts_present env_up w_orphan Hr).
Defined.

(** ** More on the job store *)

Lemma frame_keeps_jobs_well_formed env : frame (keeps_jobs_well_formed env).
Proof.
  unfold keeps_jobs_well_formed, jobs_well_formed. constructor; intros; auto.
Qed.

Lemma keeps_jobs_wf env w w' :
  jobs w' = jobs w -> keeps_jobs_well_formed env w w'.
Proof.
  unfold keeps_jobs_well_formed, jobs_well_formed. intros ->. auto.
Qed.

Lemma schedule_jobs_well_formed env m task_id cron_expr :
  preserves (keeps_jobs_well_formed env) (schedule env m task_id cron_expr).
Proof.
  intros w Hwf j Hin.
  destruct (schedule_effect env m task_id cron_expr w) as [_ Hj].
  rewrite Hj in Hin.
  destruct ((List.length (PyStr.split cron_expr) =? 5)%nat
            && cron_fields_valid env (PyStr.split cron_expr)) eqn:E.
  - apply andb_prop in E as [E5 Ev]. apply Nat.eqb_eq in E5.
    apply in_app_or in Hin as [Hin | [<- | []]].
    + apply filter_In in Hin as [Hin _]. apply Hwf. exact Hin.
    + cbn [job_id job_task_id trigger]. auto.
  - apply filter_In in Hin as [Hin _]. apply Hwf. exact Hin.
Qed.

Lemma step_keeps_jobs_well_formed env u w :
  keeps_jobs_well_formed env w (step env u w).
Proof.
  pose proof (frame_keeps_jobs_well_formed env) as HR.
  destruct u as [m|m|m|m|m|m|m|jid]; unfold step, handle.
  - apply (cmd_start_preserves env _ HR). intros row w'.
    apply keeps_jobs_wf, jobs_insert_or_ignore.
  - apply (cmd_set_teacher_preserves env _ HR). intros l w'.
    apply keeps_jobs_wf. reflexivity.
  - apply (handle_file_frame env _ HR).
    + intros p w'. apply keeps_jobs_wf. reflexivity.
    + intros t w'. apply keeps_jobs_wf. reflexivity.
    + intros _ _ n path ft stamp _ _ _ w'. apply keeps_jobs_wf. reflexivity.
  - apply (cmd_send_task_preserves env _ HR).
  - unfold cmd_schedule_task. apply (teacher_only_preserves env _ HR).
    unfold cmd_schedule_task_wrapped. frame_go HR.
    apply schedule_jobs_well_formed.
  - apply (cmd_resend_unsubmitted_preserves env _ HR).
  - apply (cmd_stats_preserves env _ HR).
  - apply (fire_preserves env _ HR).
Qed.

(** X9. In every world the handlers can reach, each job of the scheduler
    was built by [/schedule_task]: its id is [send_task_] followed by the id
    of the task its closure holds, and its trigger has five fields that
    [CronTrigger] accepted. No update installs a trigger from an expression
    that was refused. *)
Theorem reachable_jobs_well_formed env w :
  reachable env w -> jobs_well_formed env w.
Proof.
  induction 1 as [|u w Hr IH].
  - intros j [].
  - apply (step_keeps_jobs_well_formed env u w IH).
Qed.

Lemma reachable_jobs_well_formed_witness :
  reachable env_up w_scheduled /\ jobs_well_formed env_up w_scheduled.
Proof.
  assert (Hr : reachable env_up w_scheduled).
  { apply reachable_step. apply (reachable_run env_up _ initial).
    apply reachable_initial. }
  split; [exact Hr|].
  exact (reachable_jobs_well_formed env_up w_scheduled Hr).
Defined.

Lemma job_id_of_inj a b : job_id_of a = job_id_of b -> a = b.
Proof.
  unfold job_id_of. intros E. apply str_inj.
  cbn [String.append] in E. congruence.
Qed.

Lemma filter_filter_comm_neq (jid jid' : string) (l : list job) :
  jid' <> jid ->
  filter (fun j => String.eqb (job_id j) jid')
         (filter (fun j => negb (String.eqb (job_id j) jid)) l)
  = filter (fun j => String.eqb (job_id j) jid') l.
Proof.
  intros Hne. induction l as [|j l IH]; simpl; [reflexivity|].
  destruct (String.eqb (job_id j) jid) eqn:E; simpl.
  - apply String.eqb_eq in E.
    destruct (String.eqb (job_id j) jid') eqn:E'; [|exact IH].
    apply String.eqb_eq in E'. congruence.
  - destruct (String.eqb (job_id j) jid'); [f_equal|]; exact IH.
Qed.

(** X10. Scheduling one task, with whatever expression and whatever the
    outcome, leaves the live triggers of every other task as they were. *)
Theorem schedule_leaves_other_triggers env m task_id cron_expr other w :
  other <> task_id ->
  live_triggers other (snd (schedule env m task_id cron_expr w))
  = live_triggers other w.
Proof.
  intros Hne.
  assert (Hid : job_id_of other <> job_id_of task_id).
  { intros E. apply Hne. apply job_id_of_inj. exact E. }
  destruct (schedule_effect env m task_id cron_expr w) as [_ Hj].
  unfold live_triggers. rewrite Hj.
  destruct (_ && _).
  - rewrite filter_app, filter_filter_comm_neq by exact Hid.
    cbn [filter job_id].
    destruct (String.eqb (job_id_of task_id) (job_id_of other)) eqn:E.
    + apply String.eqb_eq in E. congruence.
    + apply app_nil_r.
  - apply filter_filter_comm_neq. exact Hid.
Qed.

Lemma schedule_leaves_other_triggers_witness :
  1 <> 2
  /\ live_triggers 1
       (snd (schedule env_up (says ana "") 2 "5 * * *" w_scheduled))
     = live_triggers 1 w_scheduled.
Proof.
  assert (H : 1 <> 2) by discriminate.
  split; [exact H|].
  exact (schedule_leaves_other_triggers env_up (says ana "") 2 "5 * * *" 1
           w_scheduled H).
Defined.

(** X11. When the expression has five fields and [CronTrigger] refuses one,
    [schedule] raises [ValueError] out of the handler: no answer is sent,
    and by then the expression is on the task row and the task has no live
    trigger. *)
Theorem schedule_rejected_by_cron_trigger env m task_id cron_expr w :
  List.length (PyStr.split cron_expr) = 5%nat ->
  cron_fields_valid env (PyStr.split cron_expr) = false ->
  let r := schedule env m task_id cron_expr w in
  fst r = Raise ValueError
  /\ log (snd r) = log w
  /\ net_calls (snd r) = net_calls w
  /\ tasks (snd r) = tasks (update_scheduled_cron cron_expr task_id w)
  /\ live_triggers task_id (snd r) = [].
Proof.
  intros H5 Hv r.
  destruct (schedule_effect env m task_id cron_expr w) as [Ht Hj].
  fold r in Ht, Hj. rewrite H5, Hv in Hj. cbn [Nat.eqb andb] in Hj.
  assert (Hr : fst r = Raise ValueError /\ log (snd r) = log w
               /\ net_calls (snd r) = net_calls w).
  { unfold r, schedule, bind, modify, try_except, remove_job, CronTrigger,
      raise, ret.
    cbn [jobs update_scheduled_cron set_tasks].
    rewrite H5, Hv. cbn [Nat.eqb negb].
    destruct (existsb _ (jobs w)); repeat split. }
  destruct Hr as (Hf & Hl & Hn).
  repeat split; try assumption.
  unfold live_triggers. rewrite Hj. apply filter_none.
  apply (existsb_filter_negb
           (fun j => String.eqb (job_id j) (job_id_of task_id))).
Qed.

Lemma schedule_rejected_by_cron_trigger_witness :
  List.length (PyStr.split "0 x * * *") = 5%nat
  /\ cron_fields_valid env_strict (PyStr.split "0 x * * *") = false
  /\ let r := schedule env_strict (says ana "") 1 "0 x * * *" w_scheduled in
     fst r = Raise ValueError
     /\ log (snd r) = log w_scheduled
     /\ net_calls (snd r) = net_calls w_scheduled
     /\ tasks (snd r)
        = tasks (update_scheduled_cron "0 x * * *" 1 w_scheduled)
     /\ live_triggers 1 (snd r) = [].
Proof.
  split; [reflexivity|]. split; [reflexivity|].
  exact (schedule_rejected_by_cron_trigger env_strict (says ana "") 1
           "0 x * * *" w_scheduled eq_refl eq_refl).
Defined.

(** ** A download that fails *)

Lemma save_file_raises env f w :
  net env (net_calls w) = false \/ net env (S (net_calls w)) = false ->
  exists w1 L,
    save_file env f w = (Raise TelegramAPIError, w1)
    /\ files w1
       = (if net env (net_calls w)
          then (files w ++ [local_path_of env f w])%list else files w)
    /\ tasks w1 = tasks w
    /\ submissions w1 = submissions w
    /\ log w1 = (log w ++ L)%list
    /\ forall ok to answer, ~ In (Reply ok to answer) L.
Proof.
  intros Hnet.
  unfold save_file, bind, transport, utcnow, modify, ret.
  destruct (net env (net_calls w)) eqn:N1;
    cbn [net_calls tick_clock emit tick_net clock_reads set_files].
  - destruct Hnet as [Hnet | Hnet]; [discriminate|]. rewrite Hnet.
    eexists. eexists. split; [reflexivity|].
    cbn [files tasks submissions log emit tick_net tick_clock set_files].
    rewrite <- app_assoc.
    repeat split.
    intros ok to answer [H | [H | []]]; discriminate.
  - eexists. eexists. split; [reflexivity|].
    cbn [files tasks submissions log emit tick_net tick_clock].
    repeat split.
    intros ok to answer [H | []]; discriminate.
Qed.

(** X12. When the transport refuses [get_file] or the download, [handle_file]
    raises and no row has been written: no task, no submission, and no
    answer to the sender. *)
Theorem failed_download_stores_nothing env m f ft w :
  attachment m = Some (f, ft) ->
  net env (net_calls w) = false \/ net env (S (net_calls w)) = false ->
  let r := handle_file env m w in
  fst r = Raise TelegramAPIError
  /\ tasks (snd r) = tasks w
  /\ submissions (snd r) = submissions w
  /\ forall ok to answer, ~ In (Reply ok to answer) (log_suffix w (snd r)).
Proof.
  intros Ha Hnet r.
  destruct (save_file_raises env f w Hnet)
    as (w1 & L & Hs & Hf & Ht & Hsub & Hl & HL).
  assert (Hr : r = (Raise TelegramAPIError, w1)).
  { unfold r, handle_file.
    unfold bind at 1. unfold get at 1. cbv beta iota zeta. rewrite Ha.
    apply (bind_raise _ _ _ _ _ Hs). }
  rewrite Hr. cbn [fst snd]. rewrite (log_suffix_app _ _ _ Hl).
  repeat split; assumption.
Qed.

Lemma failed_download_stores_nothing_witness :
  let r := handle_file (env_down [8%nat]) vague_message w_roster in
  attachment vague_message
  = Some (mkFileObj "F1" "documents/file_1.pdf", Document)
  /\ net (env_down [8%nat]) (S (net_calls w_roster)) = false
  /\ fst r = Raise TelegramAPIError
  /\ tasks (snd r) = tasks w_roster
  /\ submissions (snd r) = submissions w_roster
  /\ forall ok to answer,
       ~ In (Reply ok to answer) (log_suffix w_roster (snd r)).
Proof.
  split; [reflexivity|]. split; [reflexivity|].
  exact (failed_download_stores_nothing (env_down [8%nat]) vague_message
           (mkFileObj "F1" "documents/file_1.pdf") Document w_roster
           eq_refl (or_intror eq_refl)).
Defined.

(** ** The time [cmd_stats] shows *)

Lemma find_app_gen {A} (p : A -> bool) l l' :
  find p (l ++ l')
  = match find p l with Some x => Some x | None => find p l' end.
Proof.
  induction l as [|x l IH]; simpl; [reflexivity|].
  destruct (p x); [reflexivity | exact IH].
Qed.

Lemma dict_get_fold_last k rows :
  forall d,
    dict_get k (fold_left (fun d r => dict_set (fst r) (snd r) d) rows d)
    = match find (fun r : Z * string => fst r =? k) (rev rows) with
      | Some r => Some (snd r)
      | None => dict_get k d
      end.
Proof.
  induction rows as [|r rows IH]; intros d; cbn [fold_left rev find].
  - reflexivity.
  - rewrite IH, find_app_gen, dict_get_set.
    destruct (find _ (rev rows)); [reflexivity|].
    cbn [find]. destruct (fst r =? k); reflexivity.
Qed.

Lemma find_rev_last {A} (p : A -> bool) l x :
  find p (rev l) = Some x ->
  exists l1 l2, l = (l1 ++ x :: l2)%list /\ p x = true
                /\ forall y, In y l2 -> p y = false.
Proof.
  induction l as [|y l IH] using rev_ind; [discriminate|].
  rewrite rev_app_distr. cbn [rev app find].
  destruct (p y) eqn:E.
  - intros [= <-]. exists l, []. repeat split; auto. intros ? [].
  - intros H. destruct (IH H) as (l1 & l2 & -> & Hx & Hl2).
    exists l1, (l2 ++ [y])%list. rewrite <- app_assoc. repeat split; auto.
    intros z Hz. apply in_app_or in Hz as [Hz | [<- | []]]; auto.
Qed.

Lemma find_map_filter {A B} (g : A -> B) (q : A -> bool) (p : B -> bool) l :
  find p (map g (filter q l))
  = option_map g (find (fun a => q a && p (g a)) l).
Proof.
  induction l as [|a l IH]; simpl; [reflexivity|].
  destruct (q a); simpl; [|exact IH].
  destruct (p (g a)); [reflexivity | exact IH].
Qed.

(** The value [subs] holds for a recipient: the time of the last row, in
    insertion order, that the recipient has for the task. *)
Lemma subs_of_last task_id w c :
  dict_get c (subs_of task_id w)
  = option_map s_submitted_at
      (find (fun s => (s_task_id s =? task_id) && (s_student_chat_id s =? c))
            (rev (submissions w))).
Proof.
  unfold subs_of, dict_of_rows. rewrite dict_get_fold_last.
  rewrite <- map_rev, <- filter_rev.
  rewrite (find_map_filter
             (fun s => (s_student_chat_id s, s_submitted_at s))
             (fun s => s_task_id s =? task_id)
             (fun r : Z * string => fst r =? c)).
  cbn [fst]. destruct (find _ (rev (submissions w))); reflexivity.
Qed.

(** X13. The time [cmd_stats] shows for a recipient is the [submitted_at] of
    that recipient's last submission for the task in insertion order: when
    there are several, the later row overwrites the earlier one in the
    dict. *)
Theorem stats_shows_last_submission task_id w c nm stamp :
  In (c, nm, stamp) (fst (stats task_id w)) ->
  exists before s after,
    submissions w = (before ++ s :: after)%list
    /\ s_task_id s = task_id /\ s_student_chat_id s = c
    /\ s_submitted_at s = stamp
    /\ forall s', In s' after ->
                  ~ (s_task_id s' = task_id /\ s_student_chat_id s' = c).
Proof.
  unfold stats. rewrite stats_loop. cbn [fst app].
  intros Hin. apply in_flat_map in Hin as (st & _ & Hin).
  destruct (dict_get (chat_id st) (subs_of task_id w)) as [t|] eqn:E;
    [|destruct Hin].
  destruct Hin as [[= <- <- <-] | []].
  rewrite subs_of_last in E.
  destruct (find _ (rev (submissions w))) as [s|] eqn:F; [|discriminate].
  injection E as <-.
  apply find_rev_last in F as (l1 & l2 & El & Hp & Hl2).
  apply andb_prop in Hp as [Ht Hc].
  apply Z.eqb_eq in Ht. apply Z.eqb_eq in Hc.
  exists l1, s, l2. repeat split; auto.
  intros s' Hs' [Ht' Hc']. specialize (Hl2 s' Hs').
  rewrite Ht', Hc', !Z.eqb_refl in Hl2. discriminate.
Qed.

Lemma stats_shows_last_submission_witness :
  In (5, "Bo", "8") (fst (stats 1 w_twice))
  /\ exists before s after,
       submissions w_twice = (before ++ s :: after)%list
       /\ s_task_id s = 1 /\ s_student_chat_id s = 5
       /\ s_submitted_at s = "8"
       /\ forall s', In s' after ->
                     ~ (s_task_id s' = 1 /\ s_student_chat_id s' = 5).
Proof.
  assert (H : In (5, "Bo", "8") (fst (stats 1 w_twice)))
    by (vm_compute; left; reflexivity).
  split; [exact H|].
  exact (stats_shows_last_submission 1 w_twice 5 "Bo" "8" H).
Defined.

(** ** Reminders *)

Lemma submitted_ids_spec task_id w c :
  In c (submitted_ids task_id w) <-> has_submission task_id c w.
Proof.
  unfold submitted_ids, has_submission. rewrite nodup_In, in_map_iff.
  split.
  - intros (s & E & Hin). apply filter_In in Hin as [Hin Ht].
    apply Z.eqb_eq in Ht. eauto.
  - intros (s & Hin & Ht & Hc). exists s. split; [exact Hc|].
    apply filter_In. split; [exact Hin | apply Z.eqb_eq; exact Ht].
Qed.

(** The targets of [/resend_unsubmitted] are the [not_submitted] list of
    [/stats], in the same order. *)
Lemma to_send_is_not_submitted task_id w :
  filter (fun c => negb (existsb (Z.eqb c) (submitted_ids task_id w)))
         (map chat_id (students w))
  = not_submitted_set task_id w.
Proof.
  unfold not_submitted_set, stats. rewrite stats_loop. cbn [snd app].
  induction (students w) as [|s l IH]; [reflexivity|].
  cbn [map filter flat_map]. rewrite map_app, <- IH.
  assert (E : existsb (Z.eqb (chat_id s)) (submitted_ids task_id w) = true
              <-> dict_get (chat_id s) (subs_of task_id w) <> None).
  { rewrite subs_of_spec, <- submitted_ids_spec, existsb_exists. split.
    - intros (x & Hx & Ex). apply Z.eqb_eq in Ex. subst x. exact Hx.
    - intros Hx. exists (chat_id s). split; [exact Hx | apply Z.eqb_refl]. }
  destruct (dict_get (chat_id s) (subs_of task_id w)) as [t|].
  - assert (Ht : existsb (Z.eqb (chat_id s)) (submitted_ids task_id w) = true)
      by (apply E; discriminate).
    rewrite Ht. reflexivity.
  - destruct (existsb (Z.eqb (chat_id s)) (submitted_ids task_id w)) eqn:Ex.
    + exfalso. apply (proj1 E); reflexivity.
    + reflexivity.
Qed.

Lemma resend_turn env task_id row c acc w :
  exists acc' L w',
    try_except
      (bind (bot_send_message env c
               (Reminder task_id (t_title row) (t_description row)))
            (fun _ => bind (InputFile (t_file_path row))
                           (fun f => bind (bot_send_document env c f)
                                          (fun _ => ret acc))))
      (fun _ => bind (logger (LogSendFailed c))
                     (fun _ => ret (acc ++ [c])%list)) w
    = (Ok acc', w')
    /\ log w' = (log w ++ L)%list
    /\ sent_texts L
       = [(c, Reminder task_id (t_title row) (t_description row))].
Proof.
  unfold try_except, bind, bot_send_message, bot_send_document, InputFile,
    transport, logger, modify, ret.
  cbn [net_calls tick_net emit files log].
  split_cases; eexists; eexists; eexists;
    (split; [reflexivity|]);
    (split; [cbn [log emit tick_net]; rewrite <- ?app_assoc; reflexivity|]);
    reflexivity.
Qed.

Lemma resend_loop env task_id row targets :
  forall acc w,
  exists acc' L w',
    for_each targets
      (fun c failed =>
         try_except
           (bind (bot_send_message env c
                    (Reminder task_id (t_title row) (t_description row)))
                 (fun _ => bind (InputFile (t_file_path row))
                                (fun f => bind (bot_send_document env c f)
                                               (fun _ => ret failed))))
           (fun _ => bind (logger (LogSendFailed c))
                          (fun _ => ret (failed ++ [c])%list)))
      acc w
    = (Ok acc', w')
    /\ log w' = (log w ++ L)%list
    /\ sent_texts L
       = map (fun c => (c, Reminder task_id (t_title row)
                                    (t_description row))) targets.
Proof.
  induction targets as [|c targets IH]; intros acc w.
  - exists acc, [], w. simpl. rewrite app_nil_r. auto.
  - destruct (resend_turn env task_id row c acc w)
      as (acc1 & L1 & w1 & E1 & Hl1 & Hs1).
    destruct (IH acc1 w1) as (acc2 & L2 & w2 & E2 & Hl2 & Hs2).
    exists acc2, (L1 ++ L2)%list, w2. split; [|split].
    + cbn [for_each]. rewrite (bind_ok _ _ _ _ _ E1). exact E2.
    + rewrite Hl2, Hl1, app_assoc. reflexivity.
    + rewrite sent_texts_app, Hs1, Hs2. reflexivity.
Qed.

Lemma insert_sorted_perm c l : Permutation (insert_sorted c l) (c :: l).
Proof.
  induction l as [|d l IH]; cbn [insert_sorted]; [reflexivity|].
  destruct (c <=? d); [reflexivity|].
  rewrite IH. apply perm_swap.
Qed.

Lemma index_order_perm l : Permutation (index_order l) l.
Proof.
  induction l as [|c l IH]; cbn [index_order fold_right]; [reflexivity|].
  rewrite insert_sorted_perm. apply perm_skip. exact IH.
Qed.

Lemma insert_sorted_sorted c l :
  StronglySorted Z.le l -> StronglySorted Z.le (insert_sorted c l).
Proof.
  induction l as [|d l IH]; cbn [insert_sorted]; intros H.
  - constructor; constructor.
  - destruct (c <=? d) eqn:E.
    + apply Z.leb_le in E. constructor; [exact H|].
      constructor; [exact E|].
      apply StronglySorted_inv in H as [_ H].
      eapply Forall_impl; [|exact H]. intros x Hx. lia.
    + apply Z.leb_gt in E.
      apply StronglySorted_inv in H as [Hs Hd].
      constructor; [apply IH; exact Hs|].
      rewrite Forall_forall. intros x Hx.
      apply (Permutation_in _ (insert_sorted_perm c l)) in Hx.
      destruct Hx as [<- | Hx]; [lia|].
      rewrite Forall_forall in Hd. apply Hd. exact Hx.
Qed.

Lemma index_order_sorted l : StronglySorted Z.le (index_order l).
Proof.
  induction l as [|c l IH]; cbn [index_order fold_right]; [constructor|].
  apply insert_sorted_sorted. exact IH.
Qed.

Lemma filter_perm {A} (p : A -> bool) l l' :
  Permutation l l' -> Permutation (filter p l) (filter p l').
Proof.
  induction 1 as [|x l l' H IH|x y l|l l' l'' H1 IH1 H2 IH2]; cbn [filter].
  - constructor.
  - destruct (p x); [apply perm_skip|]; exact IH.
  - destruct (p x), (p y); try reflexivity. apply perm_swap.
  - etransitivity; eassumption.
Qed.

Lemma filter_sorted (p : Z -> bool) l :
  StronglySorted Z.le l -> StronglySorted Z.le (filter p l).
Proof.
  induction 1 as [|x l Hs IH Hx]; cbn [filter]; [constructor|].
  destruct (p x); [|exact IH].
  constructor; [exact IH|].
  rewrite Forall_forall in *. intros y Hy.
  apply filter_In in Hy as [Hy _]. apply Hx. exact Hy.
Qed.

(** X14. [/resend_unsubmitted] for a stored task tries to remind exactly the
    recipients that [/stats] lists as not submitted for it, once each, with
    the title and description of the task row, and in ascending order of
    their identifiers, the order the query returns them in; a refused send
    to one of them does not stop the others. *)
Theorem resend_reaches_not_submitted env m txt task_id row w :
  text m = Some txt ->
  (List.length (PyStr.split txt) <? 2)%nat = false ->
  PyStr.int (nth 1 (PyStr.split txt) "") = Some task_id ->
  fetch_task task_id w = Some row ->
  exists targets,
    sent_texts (log_suffix w (snd (cmd_resend_unsubmitted_wrapped env m w)))
    = map (fun c => (c, Reminder task_id (t_title row) (t_description row)))
          targets
    /\ Permutation targets (not_submitted_set task_id w)
    /\ StronglySorted Z.le targets.
Proof.
  intros Ht Hl Hi Hf.
  set (targets :=
         filter (fun c => negb (existsb (Z.eqb c) (submitted_ids task_id w)))
                (select_chat_ids w)).
  exists targets. split; [|split].
  - unfold cmd_resend_unsubmitted_wrapped.
    rewrite Ht, Hl, Hi.
    unfold bind at 1. unfold get at 1. cbv beta iota zeta. rewrite Hf.
    fold targets.
    destruct (resend_loop env task_id row targets [] w)
      as (failed & L & w1 & E & Hlog & Hs).
    rewrite (bind_ok _ _ _ _ _ E). rewrite reply_world.
    rewrite (log_suffix_app w _ (L ++ [Reply (net env (net_calls w1)) (chat m)
               (ResendReport
                  (Z.of_nat (List.length targets)
                   - Z.of_nat (List.length failed))
                  (Z.of_nat (List.length failed)))])).
    + rewrite sent_texts_app, Hs. cbn [sent_texts]. apply app_nil_r.
    + cbn [log emit tick_net]. rewrite Hlog, app_assoc. reflexivity.
  - rewrite <- to_send_is_not_submitted. unfold targets, select_chat_ids.
    apply filter_perm, index_order_perm.
  - unfold targets, select_chat_ids. apply filter_sorted, index_order_sorted.
Qed.

Lemma resend_reaches_not_submitted_witness :
  fetch_task 1 w_unordered = Some lesson_1
  /\ not_submitted_set 1 w_unordered = [7; 5]
  /\ exists targets,
       sent_texts
         (log_suffix w_unordered
            (snd (cmd_resend_unsubmitted_wrapped env_up
                    (says ana "/resend_unsubmitted 1") w_unordered)))
       = map (fun c => (c, Reminder 1 (t_title lesson_1)
                                    (t_description lesson_1)))
             targets
       /\ Permutation targets (not_submitted_set 1 w_unordered)
       /\ StronglySorted Z.le targets.
Proof.
  split; [vm_compute; reflexivity|]. split; [vm_compute; reflexivity|].
  exact (resend_reaches_not_submitted env_up
           (says ana "/resend_unsubmitted 1") "/resend_unsubmitted 1" 1
           lesson_1 w_unordered eq_refl eq_refl eq_refl eq_refl).
Defined.

(** Di registered before Bo, and Bo is reminded first. *)
Example reminders_follow_the_index :
  sent_texts
    (log_suffix w_unordered
       (step env_up (ResendUnsubmitted (says ana "/resend_unsubmitted 1"))
             w_unordered))
  = [(5, Reminder 1 "Lesson 1" "Repeat"); (7, Reminder 1 "Lesson 1" "Repeat")]
  /\ map chat_id (students w_unordered) = [7; 5].
Proof. vm_compute. repeat split. Qed.

(** ** One target *)

(** X15. [/send_task <id> <chat_id>] for a stored task tries the given chat
    once, whether or not it is on the roster, and the answer that the task
    was sent is given only after the announcement and the artifact have both
    gone through. *)
Theorem send_to_one_target env m txt task_id row c w :
  text m = Some txt ->
  (List.length (PyStr.split txt) <? 3)%nat = false ->
  PyStr.int (nth 1 (PyStr.split txt) "") = Some task_id ->
  String.eqb (nth 2 (PyStr.split txt) "") "all" = false ->
  PyStr.int (nth 2 (PyStr.split txt) "") = Some c ->
  fetch_task task_id w = Some row ->
  let L := log_suffix w (snd (cmd_send_task_wrapped env m w)) in
  sent_texts L
  = [(c, Announcement task_id (t_title row) (t_description row))]
  /\ forall ok, In (Reply ok (chat m) SentToOne) L ->
                received task_id row c L.
Proof.
  intros Ht Hl Hi Hall Hc Hf.
  assert (H : exists L,
             log (snd (cmd_send_task_wrapped env m w)) = (log w ++ L)%list
             /\ sent_texts L
                = [(c, Announcement task_id (t_title row) (t_description row))]
             /\ forall ok, In (Reply ok (chat m) SentToOne) L ->
                           received task_id row c L).
  { unfold cmd_send_task_wrapped. rewrite Ht, Hl, Hi.
    unfold bind at 1. unfold get at 1. cbv beta iota zeta.
    rewrite Hf, Hall, Hc.
    unfold received, try_except, bind, bot_send_message, bot_send_document,
      InputFile, reply, transport, ret.
    cbn [net_calls tick_net emit files log].
    split_cases; eexists;
      (split; [cbn [snd log emit tick_net]; rewrite <- ?app_assoc;
               reflexivity|]);
      (split; [reflexivity|]);
      intros ok Hin; simpl in Hin;
      repeat match type of Hin with
             | _ \/ _ => destruct Hin as [Hin | Hin]
             end;
      try discriminate Hin; try contradiction;
      simpl; auto 10. }
  destruct H as (L' & Hlog & Hs & Hr).
  cbv zeta. rewrite (log_suffix_app _ _ _ Hlog). split; assumption.
Qed.

Lemma send_to_one_target_witness :
  let L := log_suffix w_roster
             (snd (cmd_send_task_wrapped env_up (says ana "/send_task 1 99")
                     w_roster)) in
  ~ recipient_exists 99 w_roster
  /\ sent_texts L
     = [(99, Announcement 1 (t_title lesson_1) (t_description lesson_1))]
  /\ forall ok,
       In (Reply ok (chat (says ana "/send_task 1 99")) SentToOne) L ->
       received 1 lesson_1 99 L.
Proof.
  split.
  - vm_compute. intros [H | [H | [H | []]]]; discriminate H.
  - exact (send_to_one_target env_up (says ana "/send_task 1 99")
             "/send_task 1 99" 1 lesson_1 99 w_roster
             eq_refl eq_refl eq_refl eq_refl eq_refl eq_refl).
Defined.

(** ** Notifying the teacher of a submission *)

(** X16. Once a submission is stored, the sender is told so whatever
    happens to the notification of the teacher. For a file whose reply scan
    does not raise and whose resolved task id is not zero and fits in 64
    bits: between the download and the confirmation the log holds at most
    one attempt to notify and, when that attempt is refused or the teacher
    identifier is not a number, the record of the failure. The handler goes
    on to the confirmation in every case. *)
Theorem submission_confirmed_whatever_notification env w m f ft n :
  is_teacher_of env w (from_user m) = false ->
  attachment m = Some (f, ft) ->
  net env (net_calls w) = true ->
  net env (S (net_calls w)) = true ->
  reply_scan_raises (reply_to_message m) = false ->
  resolve_task_id (caption_of m) (reply_to_message m) = Some n ->
  n <> 0 ->
  fits_int64 n = true ->
  exists N ok,
    log_suffix w (step env (File m) w)
    = ([GetFile true (file_id f); Download true (local_path_of env f w)]
       ++ N ++ [Reply ok (chat m) SubmissionSaved])%list
    /\ (N = []
        \/ (exists t, N = [SendMessage true t
                             (SubmissionNotice n (full_name (from_user m))
                                               (u_id (from_user m)))])
        \/ (exists t, N = [SendMessage false t
                             (SubmissionNotice n (full_name (from_user m))
                                               (u_id (from_user m)));
                           LogTeacherNotifyFailed])
        \/ N = [LogTeacherNotifyFailed]).
Proof.
  intros Ht Ha N1 N2 Hx Hres Hn Hfit.
  destruct (save_file_ok env f w N1 N2)
    as (w1 & Hsave & _ & _ & _ & _ & _ & _ & Hlog & _).
  assert (H : exists N ok,
             log (step env (File m) w)
             = (log w1 ++ N ++ [Reply ok (chat m) SubmissionSaved])%list
             /\ (N = []
                 \/ (exists t, N = [SendMessage true t
                                      (SubmissionNotice n
                                         (full_name (from_user m))
                                         (u_id (from_user m)))])
                 \/ (exists t, N = [SendMessage false t
                                      (SubmissionNotice n
                                         (full_name (from_user m))
                                         (u_id (from_user m)));
                                    LogTeacherNotifyFailed])
                 \/ N = [LogTeacherNotifyFailed])).
  { unfold step, handle, handle_file.
    unfold bind at 1. unfold get at 1. cbv beta iota zeta.
    fold (caption_of m). rewrite Ht, Ha, Hx, Hres.
    rewrite (bind_ok _ _ _ _ _ Hsave).
    cbn [not_task_id]. apply Z.eqb_neq in Hn. rewrite Hn.
    unfold bind at 1. unfold utcnow at 1. cbv beta iota.
    unfold bind at 1. unfold insert_submission at 1. rewrite Hfit.
    unfold modify at 1. cbv beta iota.
    unfold bind at 1. unfold get at 1. cbv beta iota.
    match goal with
    | |- context [teacher_id_of env ?w3] =>
        destruct (teacher_id_of env w3) as [tid|]
    end;
      [destruct (negb (PyStr.is_empty tid));
       [destruct (PyStr.int tid) as [t|]|]|];
      unfold try_except, bind, bot_send_message, reply, transport, logger,
        modify, raise, ret;
      cbn [net_calls tick_net emit log set_submissions tick_clock];
      split_cases;
      cbn [snd log emit tick_net set_submissions tick_clock];
      rewrite <- ?app_assoc; cbn [app].
    all: try (exists []; eexists; split; [reflexivity | left; reflexivity]).
    all: try (eexists [SendMessage true _ _]; eexists;
              split; [reflexivity | right; left; eexists; reflexivity]).
    all: try (eexists [SendMessage false _ _; LogTeacherNotifyFailed];
              eexists;
              split; [reflexivity | right; right; left; eexists; reflexivity]).
    all: try (exists [LogTeacherNotifyFailed]; eexists;
              split; [reflexivity | right; right; right; reflexivity]). }
  destruct H as (N & ok & Hl & HN).
  exists N, ok. split; [|exact HN].
  apply log_suffix_app. rewrite Hl, Hlog, <- app_assoc. reflexivity.
Qed.

Lemma submission_confirmed_whatever_notification_witness :
  exists N ok,
    log_suffix w_roster
      (step (env_down [9%nat]) (File (sends bo (Some "task: 1") None))
            w_roster)
    = ([GetFile true (file_id (mkFileObj "F1" "documents/file_1.pdf"));
        Download true
          (local_path_of (env_down [9%nat])
             (mkFileObj "F1" "documents/file_1.pdf") w_roster)]
       ++ N ++ [Reply ok (chat (sends bo (Some "task: 1") None))
                      SubmissionSaved])%list
    /\ (N = []
        \/ (exists t, N = [SendMessage true t
                             (SubmissionNotice 1
                                (full_name
                                   (from_user (sends bo (Some "task: 1") None)))
                                (u_id
                                   (from_user
                                      (sends bo (Some "task: 1") None))))])
        \/ (exists t, N = [SendMessage false t
                             (SubmissionNotice 1
                                (full_name
                                   (from_user (sends bo (Some "task: 1") None)))
                                (u_id
                                   (from_user
                                      (sends bo (Some "task: 1") None))));
                           LogTeacherNotifyFailed])
        \/ N = [LogTeacherNotifyFailed]).
Proof.
  apply (submission_confirmed_whatever_notification (env_down [9%nat])
           w_roster (sends bo (Some "task: 1") None)
           (mkFileObj "F1" "documents/file_1.pdf") Document 1).
  - reflexivity.
  - reflexivity.
  - reflexivity.
  - reflexivity.
  - reflexivity.
  - vm_compute. reflexivity.
  - discriminate.
  - reflexivity.
Defined.

(** The transport refuses the notice to the teacher: the row is stored and
    Bo is told so. *)
Example refused_notice_is_logged :
  let w' := step (env_down [9%nat]) (File (sends bo (Some "task: 1") None))
                 w_roster in
  log_suffix w_roster w'
  = [GetFile true "F1"; Download true "data/files/5_file_1.pdf";
     SendMessage false 1 (SubmissionNotice 1 "Bo" 5);
     LogTeacherNotifyFailed; Reply true 5 SubmissionSaved]
  /\ map s_task_id (submissions w') = [1].
Proof. vm_compute. repeat split. Qed.

(** ** The resolver reads what the bot writes *)

Lemma numeral_char_facts c :
  numeral_char c = true ->
  PyStr.isspace c = false /\ PyStr.lower_char c = c
  /\ Ascii.eqb c "t"%char = false.
Proof.
  destruct c as [[] [] [] [] [] [] [] []]; vm_compute; intros H;
    try discriminate H; repeat split.
Qed.

Lemma all_digits_numeral s :
  PyStr.all_digits s = true -> all_chars numeral_char s = true.
Proof.
  induction s as [|c s IH]; cbn [PyStr.all_digits all_chars]; [reflexivity|].
  intros H. apply andb_prop in H as [Hc Hs].
  unfold numeral_char at 1. rewrite Hc, (IH Hs). reflexivity.
Qed.

Lemma str_numeral n :
  all_chars numeral_char (PyStr.str n) = true /\ PyStr.str n <> EmptyString.
Proof.
  destruct (str_digits n) as [(_ & Hd & Hne) | (_ & ds & E & Hd & Hne)].
  - split; [apply all_digits_numeral; exact Hd | exact Hne].
  - rewrite E. split; [|discriminate].
    cbn [all_chars]. rewrite (all_digits_numeral ds Hd). reflexivity.
Qed.

Lemma lower_numeral s :
  all_chars numeral_char s = true -> PyStr.lower s = s.
Proof.
  induction s as [|c s IH]; cbn [all_chars PyStr.lower]; [reflexivity|].
  intros H. apply andb_prop in H as [Hc Hs].
  destruct (numeral_char_facts c Hc) as (_ & -> & _). rewrite (IH Hs).
  reflexivity.
Qed.

Lemma rstrip_numeral s :
  all_chars numeral_char s = true -> PyStr.rstrip_by PyStr.isspace s = s.
Proof.
  induction s as [|c s IH]; cbn [all_chars PyStr.rstrip_by]; [reflexivity|].
  intros H. apply andb_prop in H as [Hc Hs].
  destruct (numeral_char_facts c Hc) as (-> & _ & _). rewrite (IH Hs).
  reflexivity.
Qed.

Lemma lstrip_numeral s :
  all_chars numeral_char s = true -> PyStr.lstrip_by PyStr.isspace s = s.
Proof.
  destruct s as [|c s]; cbn [all_chars PyStr.lstrip_by]; [reflexivity|].
  intros H. apply andb_prop in H as [Hc Hs].
  destruct (numeral_char_facts c Hc) as (-> & _ & _). reflexivity.
Qed.

(** A run of numeral characters followed by whitespace, or by nothing, is
    one token. *)
Lemma take_token_numeral s r :
  all_chars numeral_char s = true ->
  (r = EmptyString \/ exists c r', r = String c r' /\ PyStr.isspace c = true) ->
  PyStr.take_token (s ++ r) = (s, r).
Proof.
  intros Hs Hr. induction s as [|c s IH]; cbn [String.append].
  - destruct Hr as [-> | (c & r' & -> & Hc)]; [reflexivity|].
    cbn [PyStr.take_token]. rewrite Hc. reflexivity.
  - cbn [all_chars] in Hs. apply andb_prop in Hs as [Hc Hs].
    cbn [PyStr.take_token].
    destruct (numeral_char_facts c Hc) as (-> & _ & _).
    rewrite (IH Hs). reflexivity.
Qed.

Lemma split_maxsplit_empty k : PyStr.split_maxsplit k EmptyString = [].
Proof. destruct k; reflexivity. Qed.

Lemma split_numeral s :
  all_chars numeral_char s = true -> s <> EmptyString ->
  PyStr.split s = [s].
Proof.
  intros Hs Hne. unfold PyStr.split.
  destruct s as [|c s]; [congruence|].
  cbn [String.length PyStr.split_maxsplit].
  rewrite (lstrip_numeral _ Hs).
  pose proof (take_token_numeral (String c s) EmptyString Hs
                                 (or_introl eq_refl)) as E.
  assert (Eapp : (String c s ++ "")%string = String c s).
  { clear. induction (String c s) as [|a t IH]; cbn [String.append];
      [reflexivity | rewrite IH; reflexivity]. }
  rewrite Eapp in E. rewrite E. cbn [PyStr.is_empty].
  rewrite split_maxsplit_empty. reflexivity.
Qed.

Lemma split_on_no_t (cur s : string) :
  all_chars numeral_char s = true ->
  PyStr.split_on_aux "task:" 0 cur s = [(cur ++ s)%string].
Proof.
  revert cur. induction s as [|c s IH]; intros cur Hs.
  - cbn [PyStr.split_on_aux].
    assert (E : (cur ++ "")%string = cur).
    { clear. induction cur as [|a t IH]; cbn [String.append];
        [reflexivity | rewrite IH; reflexivity]. }
    rewrite E. reflexivity.
  - cbn [all_chars] in Hs. apply andb_prop in Hs as [Hc Hs].
    cbn [PyStr.split_on_aux].
    assert (Hp : prefix "task:" (String c s) = false).
    { destruct (numeral_char_facts c Hc) as (_ & _ & Ht).
      cbn [prefix]. destruct (ascii_dec "t" c) as [<- | _]; [|reflexivity].
      discriminate Ht. }
    rewrite Hp, (IH _ Hs).
    f_equal. clear.
    induction cur as [|a t IH]; cbn [String.append];
      [reflexivity | rewrite IH; reflexivity].
Qed.

(** The caption the announcement asks for gives back the task id. *)
Lemma caption_task_id_instructed n :
  caption_task_id ("task: " ++ PyStr.str n) = Some n.
Proof.
  destruct (str_numeral n) as [Hs Hne].
  unfold caption_task_id.
  assert (El : PyStr.lower ("task: " ++ PyStr.str n)
               = ("task: " ++ PyStr.str n)%string).
  { cbn [String.append PyStr.lower]. rewrite (lower_numeral _ Hs).
    reflexivity. }
  rewrite El.
  assert (Ec : PyStr.contains "task:" ("task: " ++ PyStr.str n) = true)
    by reflexivity.
  rewrite Ec.
  assert (Esp : PyStr.split_on "task:" ("task: " ++ PyStr.str n)
                = [EmptyString; String " " (PyStr.str n)]).
  { change (PyStr.split_on "task:" ("task: " ++ PyStr.str n))
      with (EmptyString
              :: PyStr.split_on_aux "task:" 0 " " (PyStr.str n)).
    rewrite (split_on_no_t _ _ Hs). reflexivity. }
  rewrite Esp. cbn [nth_error].
  assert (Est : PyStr.strip (String " " (PyStr.str n)) = PyStr.str n).
  { unfold PyStr.strip, PyStr.strip_by.
    change (PyStr.lstrip_by PyStr.isspace (String " " (PyStr.str n)))
      with (PyStr.lstrip_by PyStr.isspace (PyStr.str n)).
    rewrite (lstrip_numeral _ Hs). apply rstrip_numeral. exact Hs. }
  rewrite Est, (split_numeral _ Hs Hne). apply int_str.
Qed.

Lemma take_token_nospace s r :
  all_chars (fun c => negb (PyStr.isspace c)) s = true ->
  (r = EmptyString \/ exists c r', r = String c r' /\ PyStr.isspace c = true) ->
  PyStr.take_token (s ++ r) = (s, r).
Proof.
  intros Hs Hr. induction s as [|c s IH]; cbn [String.append].
  - destruct Hr as [-> | (c & r' & -> & Hc)]; [reflexivity|].
    cbn [PyStr.take_token]. rewrite Hc. reflexivity.
  - cbn [all_chars] in Hs. apply andb_prop in Hs as [Hc Hs].
    apply negb_true_iff in Hc.
    cbn [PyStr.take_token]. rewrite Hc, (IH Hs). reflexivity.
Qed.

(** A token followed by whitespace is cut off as the first item. *)
Lemma split_maxsplit_token k a s c r :
  all_chars (fun c => negb (PyStr.isspace c)) (String a s) = true ->
  PyStr.isspace c = true ->
  PyStr.split_maxsplit (S k) (String a s ++ String c r)
  = String a s :: PyStr.split_maxsplit k (String c r).
Proof.
  intros Hs Hc. cbn [PyStr.split_maxsplit].
  assert (Hl : PyStr.lstrip_by PyStr.isspace (String a s ++ String c r)
               = (String a s ++ String c r)%string).
  { cbn [all_chars] in Hs. apply andb_prop in Hs as [Ha _].
    apply negb_true_iff in Ha.
    cbn [String.append PyStr.lstrip_by]. rewrite Ha. reflexivity. }
  rewrite Hl, (take_token_nospace (String a s) (String c r) Hs).
  - reflexivity.
  - right. eauto.
Qed.

Lemma split_maxsplit_skip k c r :
  PyStr.isspace c = true ->
  PyStr.split_maxsplit (S k) (String c r) = PyStr.split_maxsplit (S k) r.
Proof.
  intros Hc. cbn [PyStr.split_maxsplit PyStr.lstrip_by]. rewrite Hc.
  reflexivity.
Qed.

Lemma numeral_nospace s :
  all_chars numeral_char s = true ->
  all_chars (fun c => negb (PyStr.isspace c)) s = true.
Proof.
  induction s as [|c s IH]; cbn [all_chars]; [reflexivity|].
  intros H. apply andb_prop in H as [Hc Hs].
  destruct (numeral_char_facts c Hc) as (-> & _ & _). rewrite (IH Hs).
  reflexivity.
Qed.

(** The tokens of the announcement start with [Task], [ID:] and the id. *)
Lemma announcement_tokens task_id title description :
  exists more,
    PyStr.split (announcement_text task_id title description)
    = "Task" :: "ID:" :: PyStr.str task_id :: more.
Proof.
  destruct (str_numeral task_id) as [Hs Hne].
  set (txt := announcement_text task_id title description).
  rewrite (split_unbounded txt (S (S (S (String.length txt))))) by lia.
  unfold txt, announcement_text.
  match goal with
  | |- context [PyStr.split_maxsplit ?k
                  ("Task ID: " ++ PyStr.str task_id ++ newline ++ ?tail)] =>
      change ("Task ID: " ++ PyStr.str task_id ++ newline ++ tail)%string
        with ("Task" ++ String " "
                ("ID:" ++ String " "
                   (PyStr.str task_id ++ String (ascii_of_nat 10) tail)))%string
  end.
  rewrite split_maxsplit_token by reflexivity.
  rewrite split_maxsplit_skip by reflexivity.
  rewrite split_maxsplit_token by reflexivity.
  rewrite split_maxsplit_skip by reflexivity.
  destruct (PyStr.str task_id) as [|a s] eqn:E; [congruence|].
  rewrite split_maxsplit_token;
    [|apply numeral_nospace; exact Hs | reflexivity].
  eexists. reflexivity.
Qed.

(** X17. A reply to the announcement of a task with a non-negative id is
    resolved to that task, whatever its title and description and whatever
    the caption of the reply: the scan of the replied text stops at the id
    that follows [Task ID:]. *)
Theorem reply_to_announcement_resolves task_id title description cap :
  0 <= task_id ->
  resolve_task_id cap
    (Some (mkReplied (Some (announcement_text task_id title description))))
  = Some task_id.
Proof.
  intros Hpos.
  assert (Hr : reply_task_id
                 (Some (mkReplied
                          (Some (announcement_text task_id title description))))
               = Some task_id).
  { unfold reply_task_id. cbn [replied_text].
    assert (E1 : PyStr.is_empty
                   (announcement_text task_id title description) = false)
      by reflexivity.
    assert (E2 : PyStr.contains "task id"
                   (PyStr.lower
                      (announcement_text task_id title description)) = true)
      by reflexivity.
    rewrite E1, E2. cbn [negb andb orb].
    destruct (announcement_tokens task_id title description) as (more & ->).
    cbn [find].
    change (PyStr.isdigit "Task") with false.
    change (PyStr.isdigit "ID:") with false.
    destruct (str_shape task_id) as [[_ Hd] | [Hneg _]]; [|lia].
    rewrite Hd. apply int_str. }
  unfold resolve_task_id. rewrite Hr. reflexivity.
Qed.

Lemma reply_to_announcement_resolves_witness :
  0 <= 3
  /\ resolve_task_id "task: 7"
       (Some (mkReplied (Some (announcement_text 3 "Lesson 3" "Repeat"))))
     = Some 3.
Proof.
  assert (H : 0 <= 3) by lia.
  split; [exact H|].
  exact (reply_to_announcement_resolves 3 "Lesson 3" "Repeat" "task: 7" H).
Defined.

Lemma strip_instructed n :
  PyStr.strip ("task: " ++ PyStr.str n) = ("task: " ++ PyStr.str n)%string.
Proof.
  destruct (str_numeral n) as [Hs Hne].
  unfold PyStr.strip, PyStr.strip_by.
  change (PyStr.lstrip_by PyStr.isspace ("task: " ++ PyStr.str n))
    with ("task: " ++ PyStr.str n)%string.
  cbn [String.append PyStr.rstrip_by].
  rewrite (rstrip_numeral _ Hs).
  destruct (PyStr.str n) as [|a s]; [congruence|]. reflexivity.
Qed.

(** X18. A file captioned as the announcement asks, [task: ] followed by
    the id, and sent without replying to anything is resolved to that id,
    for every id. *)
Theorem instructed_caption_resolves m n :
  caption m = Some ("task: " ++ PyStr.str n)%string ->
  reply_to_message m = None ->
  resolve_task_id (caption_of m) (reply_to_message m) = Some n.
Proof.
  intros Hc Hr. unfold caption_of. rewrite Hc, Hr, strip_instructed.
  unfold resolve_task_id. cbn [reply_task_id].
  apply caption_task_id_instructed.
Qed.

Lemma instructed_caption_resolves_witness :
  resolve_task_id (caption_of (sends bo (Some ("task: " ++ PyStr.str 12)) None))
                  (reply_to_message
                     (sends bo (Some ("task: " ++ PyStr.str 12)) None))
  = Some 12.
Proof.
  exact (instructed_caption_resolves
           (sends bo (Some ("task: " ++ PyStr.str 12)) None) 12
           eq_refl eq_refl).
Defined.

(** ** The export *)

Lemma count_newlines_app a b :
  count_newlines (a ++ b) = (count_newlines a + count_newlines b)%nat.
Proof.
  induction a as [|c a IH]; cbn [String.append count_newlines];
    [reflexivity | rewrite IH; lia].
Qed.

Lemma count_newlines_replace s : count_newlines (replace_newline s) = O.
Proof.
  induction s as [|c s IH]; cbn [replace_newline count_newlines];
    [reflexivity|].
  rewrite IH. destruct (Ascii.eqb c (ascii_of_nat 10)) eqn:E;
    [reflexivity | rewrite E; reflexivity].
Qed.

Lemma csv_line_one_newline s : count_newlines (csv_line s) = 1%nat.
Proof.
  unfold csv_line. cbn [map join].
  rewrite !count_newlines_app, !count_newlines_replace. reflexivity.
Qed.

Lemma export_fold_newlines rows :
  forall txt,
    count_newlines (fold_left (fun txt r => txt ++ csv_line r) rows txt)
    = (count_newlines txt + List.length rows)%nat.
Proof.
  induction rows as [|r rows IH]; intros txt; cbn [fold_left List.length].
  - lia.
  - rewrite IH, count_newlines_app, csv_line_one_newline. lia.
Qed.

(** X19. The export of a task has one line for the header and one line for
    each submission of the task, whatever the paths and times hold: line
    breaks inside a value are turned into spaces. With no submission for
    the task no text is built. *)
Theorem export_one_line_per_submission task_id w :
  match export_text task_id w with
  | Some txt =>
      count_newlines txt
      = S (List.length
             (filter (fun s => s_task_id s =? task_id) (submissions w)))
  | None => forall s, In s (submissions w) -> s_task_id s <> task_id
  end.
Proof.
  unfold export_text.
  destruct (filter (fun s => s_task_id s =? task_id) (submissions w))
    as [|r rows] eqn:E.
  - intros s Hin Ht.
    assert (Hf : In s (filter (fun s => s_task_id s =? task_id)
                              (submissions w))).
    { apply filter_In. split; [exact Hin | apply Z.eqb_eq; exact Ht]. }
    rewrite E in Hf. destruct Hf.
  - rewrite export_fold_newlines. reflexivity.
Qed.

Example export_of_two_submissions :
  export_text 1 w_twice
  = Some ("student_chat_id,file_path,file_type,submitted_at" ++ newline
          ++ "5,data/files/5_file_1.pdf,document,6" ++ newline
          ++ "5,data/files/7_file_1.pdf,document,8" ++ newline).
Proof. vm_compute. reflexivity. Qed.

(** ** The sender's own tasks *)

(** X20. The status [cmd_my_tasks] shows for a task is decided by the
    sender's last submission for it in insertion order: [Submitted at] and
    the time of that row when there is one, [Not submitted] when the sender
    has none; and with no task in the store no list is built. *)
Theorem my_task_status_is_last_submission uid w tid :
  my_task_status (my_subs uid w) tid
  = match find (fun s => (s_student_chat_id s =? uid) && (s_task_id s =? tid))
               (rev (submissions w)) with
    | Some s => ("Submitted at " ++ s_submitted_at s)%string
    | None => "Not submitted"
    end
  /\ (my_tasks_text uid w = None <-> tasks w = []).
Proof.
  split.
  - unfold my_task_status, my_subs, dict_of_rows.
    rewrite dict_get_fold_last.
    rewrite <- map_rev, <- filter_rev.
    rewrite (find_map_filter
               (fun s => (s_task_id s, s_submitted_at s))
               (fun s => s_student_chat_id s =? uid)
               (fun r : Z * string => fst r =? tid)).
    cbn [fst]. destruct (find _ (rev (submissions w))); reflexivity.
  - unfold my_tasks_text. destruct (tasks w); split; congruence.
Qed.

Example my_tasks_of_bo :
  my_tasks_text 5 w_twice
  = Some ("Your tasks:" ++ newline
          ++ "- Task 1: Lesson 1 (Submitted at 8)" ++ newline)
  /\ my_tasks_text 6 w_twice
     = Some ("Your tasks:" ++ newline
             ++ "- Task 1: Lesson 1 (Not submitted)" ++ newline).
Proof. vm_compute. repeat split. Qed.

(** ** Commands for a task that is not there *)

(** X21. [/send_task <id> <target>] for an id that SQLite can bind and that
    no task row has answers that the task was not found and sends nothing
    to any recipient. *)
Theorem missing_task_is_reported env m txt task_id w :
  text m = Some txt ->
  (List.length (PyStr.split txt) <? 3)%nat = false ->
  PyStr.int (nth 1 (PyStr.split txt) "") = Some task_id ->
  fits_int64 task_id = true ->
  fetch_task task_id w = None ->
  cmd_send_task_wrapped env m w = reply env m TaskNotFound w.
Proof.
  intros Ht Hl Hi Hfit Hf.
  unfold cmd_send_task_wrapped. rewrite Ht, Hl, Hi.
  unfold bind at 1. unfold get at 1. cbv beta iota zeta. rewrite Hf, Hfit.
  reflexivity.
Qed.

Lemma missing_task_is_reported_witness :
  fetch_task 42 w_roster = None
  /\ cmd_send_task_wrapped env_up (says ana "/send_task 42 all") w_roster
     = reply env_up (says ana "/send_task 42 all") TaskNotFound w_roster.
Proof.
  split; [reflexivity|].
  exact (missing_task_is_reported env_up (says ana "/send_task 42 all")
           "/send_task 42 all" 42 w_roster eq_refl eq_refl eq_refl eq_refl
           eq_refl).
Defined.

(** X24. [/resend_unsubmitted <id>] for an id that SQLite can bind and that
    no task row has answers that the task was not found and reminds
    nobody, whoever is on the roster. *)
Theorem missing_task_stops_reminders env m txt task_id w :
  text m = Some txt ->
  (List.length (PyStr.split txt) <? 2)%nat = false ->
  PyStr.int (nth 1 (PyStr.split txt) "") = Some task_id ->
  fits_int64 task_id = true ->
  fetch_task task_id w = None ->
  cmd_resend_unsubmitted_wrapped env m w = reply env m TaskNotFound w.
Proof.
  intros Ht Hl Hi Hfit Hf.
  unfold cmd_resend_unsubmitted_wrapped. rewrite Ht, Hl, Hi.
  unfold bind at 1. unfold get at 1. cbv beta iota zeta. rewrite Hf, Hfit.
  reflexivity.
Qed.

Lemma missing_task_stops_reminders_witness :
  fetch_task 42 w_roster = None
  /\ List.length (PyStr.split "/resend_unsubmitted 42") = 2%nat
  /\ cmd_resend_unsubmitted_wrapped env_up (says ana "/resend_unsubmitted 42")
       w_roster
     = reply env_up (says ana "/resend_unsubmitted 42") TaskNotFound w_roster.
Proof.
  split; [reflexivity|]. split; [reflexivity|].
  exact (missing_task_stops_reminders env_up
           (says ana "/resend_unsubmitted 42") "/resend_unsubmitted 42" 42
           w_roster eq_refl eq_refl eq_refl eq_refl eq_refl).
Defined.

(** ** Commands for an id that SQLite cannot bind *)

(** X25. [/schedule_task] with a task id outside 64 bits raises
    [OverflowError] at its first statement: nothing is written to [tasks],
    no job is removed or installed, and the teacher gets no answer. *)
Theorem unbindable_id_is_not_scheduled env m txt task_id w :
  text m = Some txt ->
  (List.length (PyStr.split_maxsplit 2 txt) <? 3)%nat = false ->
  PyStr.int (nth 1 (PyStr.split_maxsplit 2 txt) "") = Some task_id ->
  fits_int64 task_id = false ->
  cmd_schedule_task_wrapped env m w = (Raise OverflowError, w).
Proof.
  intros Ht Hl Hi Hfit. unfold cmd_schedule_task_wrapped.
  rewrite Ht, Hl, Hi, Hfit. reflexivity.
Qed.

Lemma unbindable_id_is_not_scheduled_witness :
  PyStr.int
    (nth 1 (PyStr.split_maxsplit 2
              "/schedule_task 9223372036854775808 0 18 * * *") "")
  = Some (2 ^ 63)
  /\ cmd_schedule_task_wrapped env_up
       (says ana "/schedule_task 9223372036854775808 0 18 * * *") w_scheduled
     = (Raise OverflowError, w_scheduled).
Proof.
  split; [vm_compute; reflexivity|].
  exact (unbindable_id_is_not_scheduled env_up
           (says ana "/schedule_task 9223372036854775808 0 18 * * *")
           "/schedule_task 9223372036854775808 0 18 * * *" (2 ^ 63)
           w_scheduled eq_refl eq_refl eq_refl eq_refl).
Defined.

(** X26. [/stats] with a task id outside 64 bits raises [OverflowError] at
    its first query and answers nothing. *)
Theorem unbindable_id_has_no_stats env m txt task_id w :
  text m = Some txt ->
  (List.length (PyStr.split txt) <? 2)%nat = false ->
  PyStr.int (nth 1 (PyStr.split txt) "") = Some task_id ->
  fits_int64 task_id = false ->
  cmd_stats_wrapped env m w = (Raise OverflowError, w).
Proof.
  intros Ht Hl Hi Hfit. unfold cmd_stats_wrapped.
  rewrite Ht, Hl, Hi, Hfit. reflexivity.
Qed.

Lemma unbindable_id_has_no_stats_witness :
  PyStr.int (nth 1 (PyStr.split "/stats -9223372036854775809") "")
  = Some (- 2 ^ 63 - 1)
  /\ cmd_stats_wrapped env_up (says ana "/stats -9223372036854775809") w_roster
     = (Raise OverflowError, w_roster).
Proof.
  split; [vm_compute; reflexivity|].
  exact (unbindable_id_has_no_stats env_up
           (says ana "/stats -9223372036854775809")
           "/stats -9223372036854775809" (- 2 ^ 63 - 1) w_roster
           eq_refl eq_refl eq_refl eq_refl).
Defined.

(** ** The teacher identifier the handlers store *)

Lemma step_settings env u w :
  (forall m, u <> SetTeacher m) -> settings (step env u w) = settings w.
Proof.
  pose proof frame_keeps_settings as HR. intros Hu.
  destruct u as [m|m|m|m|m|m|m|jid]; unfold step, handle.
  - apply cmd_start_settings.
  - exfalso. apply (Hu m). reflexivity.
  - apply (handle_file_frame env _ HR).
    + intros p w'. reflexivity.
    + intros t w'. reflexivity.
    + intros _ _ n path ft stamp _ _ _ w'. reflexivity.
  - apply (cmd_send_task_preserves env _ HR).
  - apply (cmd_schedule_task_preserves env _ HR).
    + intros c t w'. reflexivity.
    + intros jid. apply (remove_job_keeps settings jid). reflexivity.
    + intros j. apply (add_job_keeps settings j). reflexivity.
  - apply (cmd_resend_unsubmitted_preserves env _ HR).
  - apply (cmd_stats_preserves env _ HR).
  - apply (fire_preserves env _ HR).
Qed.

Lemma reachable_teacher_setting_canonical env w :
  reachable env w -> teacher_setting_canonical w.
Proof.
  induction 1 as [|u w Hr IH]; intros v Hv.
  - discriminate Hv.
  - destruct u as [m|m|m|m|m|m|m|jid];
      try (unfold get_setting in Hv; rewrite step_settings in Hv by congruence;
           apply IH; exact Hv).
    rewrite get_setting_after_set_teacher in Hv. injection Hv as <-. eauto.
Qed.

(** X22. With no [TEACHER_CHAT_ID] in the environment, in every world the
    handlers can reach the gate never answers that the teacher identifier
    is invalid: the only identifier the handlers store is the decimal text
    of a sender's id, which [int] reads back. *)
Theorem stored_teacher_id_is_valid env w user :
  truthy (TEACHER_CHAT_ID env) = false ->
  reachable env w ->
  refusal env w user <> Some InvalidTeacherId.
Proof.
  intros Henv Hr. pose proof (reachable_teacher_setting_canonical env w Hr) as Hc.
  unfold refusal, teacher_id_of.
  assert (E : py_or (TEACHER_CHAT_ID env) (get_setting "teacher_chat_id" w)
              = get_setting "teacher_chat_id" w).
  { unfold py_or, truthy in *.
    destruct (TEACHER_CHAT_ID env) as [s|]; [|reflexivity].
    destruct (PyStr.is_empty s); [reflexivity | discriminate]. }
  rewrite E.
  destruct (get_setting "teacher_chat_id" w) as [v|] eqn:G; [|discriminate].
  destruct (Hc v G) as (n & ->). rewrite int_str.
  destruct (negb (u_id user =? n)); discriminate.
Qed.

Lemma stored_teacher_id_is_valid_witness :
  truthy (TEACHER_CHAT_ID env_up) = false
  /\ reachable env_up w_roster
  /\ refusal env_up w_roster bo <> Some InvalidTeacherId.
Proof.
  assert (Hr : reachable env_up w_roster).
  { apply (reachable_run env_up _ w_task).
    apply (reachable_run env_up _ initial). apply reachable_initial. }
  split; [reflexivity|]. split; [exact Hr|].
  exact (stored_teacher_id_is_valid env_up w_roster bo eq_refl Hr).
Defined.

(** X23. With no [TEACHER_CHAT_ID] in the environment, in every world the
    handlers can reach, a sender that the gate of the teacher commands
    admits is not registered by [/start]: the two tests of who the teacher
    is, one on numbers and one on texts, agree on the identifier that
    [/set_teacher] stores. *)
Theorem admitted_teacher_is_not_registered env w m :
  truthy (TEACHER_CHAT_ID env) = false ->
  reachable env w ->
  refusal env w (from_user m) = None ->
  is_teacher_of env w (from_user m) = true
  /\ students (step env (Start m) w) = students w.
Proof.
  intros Henv Hr Hnone.
  pose proof (reachable_teacher_setting_canonical env w Hr) as Hc.
  assert (Ht : is_teacher_of env w (from_user m) = true).
  { unfold refusal in Hnone. unfold is_teacher_of.
    assert (E : teacher_id_of env w = get_setting "teacher_chat_id" w).
    { unfold teacher_id_of, py_or, truthy in *.
      destruct (TEACHER_CHAT_ID env) as [s|]; [|reflexivity].
      destruct (PyStr.is_empty s); [reflexivity | discriminate]. }
    rewrite E in *.
    destruct (get_setting "teacher_chat_id" w) as [v|] eqn:G;
      [|discriminate].
    destruct (Hc v G) as (n & ->). rewrite int_str in Hnone.
    destruct (u_id (from_user m) =? n) eqn:En; [|discriminate].
    apply Z.eqb_eq in En. rewrite En, str_not_empty, String.eqb_refl.
    reflexivity. }
  split; [exact Ht|]. rewrite cmd_start_students, Ht. reflexivity.
Qed.

Lemma admitted_teacher_is_not_registered_witness :
  truthy (TEACHER_CHAT_ID env_up) = false
  /\ reachable env_up w_roster
  /\ refusal env_up w_roster (from_user (says ana "/start")) = None
  /\ is_teacher_of env_up w_roster (from_user (says ana "/start")) = true
  /\ students (step env_up (Start (says ana "/start")) w_roster)
     = students w_roster.
Proof.
  assert (Hr : reachable env_up w_roster).
  { apply (reachable_run env_up _ w_task).
    apply (reachable_run env_up _ initial). apply reachable_initial. }
  assert (Hn : refusal env_up w_roster (from_user (says ana "/start")) = None)
    by (vm_compute; reflexivity).
  split; [reflexivity|]. split; [exact Hr|]. split; [exact Hn|].
  exact (admitted_teacher_is_not_registered env_up w_roster
           (says ana "/start") eq_refl Hr Hn).
Defined.
